(** * borgmatic database hooks: PostgreSQL, MongoDB and SQLite

    A shallow embedding of [borgmatic/hooks/postgresql.py],
    [borgmatic/hooks/mongodb.py] and [borgmatic/hooks/sqlite.py], and the
    properties of their dump and restore orchestration.

    Configuration dicts are finite maps from keys to Python values.  Code that
    may raise returns an [outcome].  Code that logs, touches the filesystem or
    launches processes runs in the effect monad [M], which threads the state of
    the outside world and records every call made to a collaborator. *)

From Stdlib Require Import ZArith Ascii String List Bool.
From stdpp Require Import base tactics option list strings gmap pretty.

Local Open Scope string_scope.
Local Open Scope list_scope.

(** ** Python values *)

(** The values a configuration dict can hold. *)
Inductive value : Type :=
| VNone
| VBool (b : bool)
| VInt (n : Z)
| VStr (s : string)
| VList (l : list string).

#[global] Instance value_eq_dec : EqDecision value.
Proof. solve_decision. Defined.

(** A dict with string keys, as the configuration schema produces them. *)
Abbreviation dict := (gmap string value).

(** Python truthiness: [None], [False], [0], [''] and [[]] are falsy. *)
Definition truthy (v : value) : bool :=
  match v with
  | VNone => false
  | VBool b => b
  | VInt n => negb (n =? 0)%Z
  | VStr s => negb (String.eqb s "")
  | VList l => match l with [] => false | _ :: _ => true end
  end.

(** [a or b]: the first operand when it is truthy, else the second. *)
Definition py_or (a b : value) : value := if truthy a then a else b.

(** [a == b]; a bool compares equal to the int of the same numeric value. *)
Definition py_eq (a b : value) : bool :=
  match a, b with
  | VNone, VNone => true
  | VBool x, VBool y => Bool.eqb x y
  | VBool x, VInt n | VInt n, VBool x => (Z.b2z x =? n)%Z
  | VInt n, VInt m => (n =? m)%Z
  | VStr s, VStr t => String.eqb s t
  | VList l, VList k => bool_decide (l = k)
  | _, _ => false
  end.

(** Exceptions.  The message of a [ValueError] is kept as the pieces of the
    f-string that builds it. *)
Inductive exn : Type :=
| KeyError (key : string)
| ValueError (message : list value)
| AttributeError (attribute : string)
| TypeError
| IndexError
| FileNotFoundError
| ExternalError (description : string).

(** The result of code that may raise. *)
Inductive outcome (A : Type) : Type :=
| Returns (a : A)
| Raises (e : exn).
Arguments Returns {A} a.
Arguments Raises {A} e.

Definition obind {A B} (o : outcome A) (k : A -> outcome B) : outcome B :=
  match o with
  | Returns a => k a
  | Raises e => Raises e
  end.

Notation "'try!' x := o 'in' k" := (obind o (fun x => k))
  (at level 10, x name, o at level 100, k at level 200).

(** [d[k]] *)
Definition getitem (d : dict) (k : string) : outcome value :=
  match d !! k with
  | Some v => Returns v
  | None => Raises (KeyError k)
  end.

(** [d.get(k, default)] *)
Definition dict_get (d : dict) (k : string) (default : value) : value :=
  match d !! k with
  | Some v => v
  | None => default
  end.

(** [k in d] *)
Definition contains (d : dict) (k : string) : bool :=
  match d !! k with
  | Some _ => true
  | None => false
  end.

(** The double quote character, and the one-character string of it. *)
Definition dquote_char : ascii := "034"%char.
Definition dq : string := String dquote_char EmptyString.

(** [s.split(sep)] for a one-character separator: every occurrence splits, so
    consecutive separators yield empty strings and [''.split(' ')] is [['']]. *)
Fixpoint split_on (sep : ascii) (s : string) : list string :=
  match s with
  | EmptyString => [EmptyString]
  | String c rest =>
      if Ascii.eqb c sep then EmptyString :: split_on sep rest
      else match split_on sep rest with
           | [] => [String c EmptyString]
           | w :: ws => String c w :: ws
           end
  end.

(** [v.split(' ')]: only a str has the method. *)
Definition py_split_space (v : value) : outcome (list value) :=
  match v with
  | VStr s => Returns (VStr <$> split_on " "%char s)
  | _ => Raises (AttributeError "split")
  end.

(** The characters of a string, as one-character strings. *)
Fixpoint characters (s : string) : list string :=
  match s with
  | EmptyString => []
  | String c rest => String c EmptyString :: characters rest
  end.

(** [for x in v]: a list yields its elements and a str its characters;
    nothing else that a dict holds is iterable. *)
Definition py_iter (v : value) : outcome (list value) :=
  match v with
  | VList l => Returns (VStr <$> l)
  | VStr s => Returns (VStr <$> characters s)
  | _ => Raises TypeError
  end.

(** ** The collaborators of the hooks

    The hooks call Python's standard library, [borgmatic.hooks.dump] and
    [borgmatic.execute].  None of these is part of the three modules, so each
    is a field here: what a call returns, whether it raises, and how it changes
    the world are left to the instance. *)
Class Externals : Type := {
  (** The state of the filesystem and of the launched processes. *)
  World : Type;
  (** A [subprocess.Popen] instance, and the type of its [stdout]. *)
  Process : Type;
  Stream : Type;
  stdout : Process -> Stream;

  (** [str(l)] of a list. *)
  str_of_list : list string -> string;
  (** [shlex.split(s)], which raises on an unclosed quotation. *)
  shlex_split : string -> outcome (list string);
  (** [s.splitlines()] *)
  splitlines : string -> list string;
  (** [csv.reader(lines)] with a comma as delimiter and the double quote as
      quote character: the rows the reader
      yields, and the exception that ends the iteration early, if any. *)
  csv_reader : list string -> list (list string) * option exn;
  (** [os.path.exists(path)] *)
  os_path_exists : value -> World -> outcome bool;
  (** [os.remove(path)] *)
  os_remove : value -> World -> World * outcome unit;

  (** [dump.make_database_dump_path(borgmatic_source_directory, hook_name)] *)
  make_database_dump_path : value -> string -> outcome string;
  (** [dump.make_database_dump_filename(dump_path, name, hostname)] *)
  make_database_dump_filename : string -> value -> value -> outcome string;
  (** [dump.create_parent_directory_for_dump(dump_filename)] *)
  create_parent_directory_for_dump : string -> World -> World * outcome unit;
  (** [dump.create_named_pipe_for_dump(dump_filename)] *)
  create_named_pipe_for_dump : string -> World -> World * outcome unit;

  (** [execute_command(command, shell, extra_environment, run_to_completion)];
      a keyword argument that the call leaves out is [None] here. *)
  execute_command :
    list value -> option bool -> option dict -> option bool ->
    World -> World * outcome Process;
  (** [execute_command_and_capture_output(command, extra_environment)] *)
  execute_command_and_capture_output :
    list value -> option dict -> World -> World * outcome string;
  (** [execute_command_with_processes(command, processes, input_file,
      extra_environment)], always called with [output_log_level=logging.DEBUG] *)
  execute_command_with_processes :
    list value -> list Process -> option Stream -> option dict ->
    World -> World * outcome unit;
}.

Section effects.
Context `{Externals}.

(** [str(v)] *)
Definition py_str (v : value) : string :=
  match v with
  | VNone => "None"
  | VBool true => "True"
  | VBool false => "False"
  | VInt n => pretty n
  | VStr s => s
  | VList l => str_of_list l
  end.

Inductive log_level : Type := DEBUG | INFO | WARNING.

(** What the hooks do to the outside, in the order they do it.  A log record
    keeps the pieces of its f-string. *)
Inductive event : Type :=
| Log (level : log_level) (message : list value)
| PathExists (path : value)
| Remove (path : value)
| CreateParentDirectory (dump_filename : string)
| CreateNamedPipe (dump_filename : string)
| Execute (command : list value) (shell : option bool)
          (extra_environment : option dict) (run_to_completion : option bool)
| ExecuteAndCapture (command : list value) (extra_environment : option dict)
| ExecuteWithProcesses (command : list value) (processes : list Process)
                       (input_file : option Stream)
                       (extra_environment : option dict).

(** Modelled from the spec: the default of the launcher's [run_to_completion]
    argument, which [borgmatic.execute] declares, is [True]; a call that leaves
    the argument out blocks until the command ends. *)
Definition blocking (run_to_completion : option bool) : bool :=
  default true run_to_completion.

(** The calls that reach the Process Launcher ([borgmatic.execute]). *)
Definition is_launch (e : event) : bool :=
  match e with
  | Execute _ _ _ _ | ExecuteAndCapture _ _ | ExecuteWithProcesses _ _ _ _ => true
  | _ => false
  end.

(** The calls that change the filesystem. *)
Definition is_filesystem_write (e : event) : bool :=
  match e with
  | Remove _ | CreateParentDirectory _ | CreateNamedPipe _ => true
  | _ => false
  end.

(** An effectful computation: from a world to the world after it, the events
    it emitted and its result.  When it raises, what it did before stays. *)
Definition M (A : Type) : Type := World -> World * list event * outcome A.

Definition ret {A} (a : A) : M A := fun w => (w, [], Returns a).

Definition raise {A} (e : exn) : M A := fun w => (w, [], Raises e).

Definition bind {A B} (m : M A) (k : A -> M B) : M B :=
  fun w =>
    match m w with
    | (w1, evs1, Returns a) =>
        match k a w1 with
        | (w2, evs2, r) => (w2, evs1 ++ evs2, r)
        end
    | (w1, evs1, Raises e) => (w1, evs1, Raises e)
    end.

(** A pure computation that may raise. *)
Definition lift {A} (o : outcome A) : M A := fun w => (w, [], o).

(** A call to a collaborator that changes the world. *)
Definition call {A} (e : event) (f : World -> World * outcome A) : M A :=
  fun w => match f w with (w', r) => (w', [e], r) end.

Definition log (level : log_level) (message : list value) : M unit :=
  fun w => (w, [Log level message], Returns tt).

Definition path_exists (path : value) : M bool :=
  fun w => (w, [PathExists path], os_path_exists path w).

(** [for x in xs: acc = body(x, acc)], where [continue] ends the body. *)
Fixpoint for_each {A B} (body : A -> B -> M B) (xs : list A) (acc : B) : M B :=
  match xs with
  | [] => ret acc
  | x :: rest => bind (body x acc) (for_each body rest)
  end.

(** The three components of a run. *)
Definition world_after {A} (run : World * list event * outcome A) : World := run.1.1.
Definition events_of {A} (run : World * list event * outcome A) : list event := run.1.2.
Definition result_of {A} (run : World * list event * outcome A) : outcome A := run.2.

(** [next(x for x in xs if p(x))] under [except StopIteration] *)
Definition first_match {A} (p : A -> bool) (xs : list A) : option A :=
  List.find p xs.
End effects.

Notation "'do!' x := m 'in' k" := (bind m (fun x => k))
  (at level 10, x name, m at level 100, k at level 200).

(** ** Pieces shared by the command lines *)

(** [a or b] where evaluating [b] may raise: [b] is not evaluated when [a] is
    truthy. *)
Definition py_or_else (a : value) (b : outcome value) : outcome value :=
  if truthy a then Returns a else b.

(** [(flag, database[key]) if key in database else ()] *)
Definition flag_if_present (flag : string) (database : dict) (key : string)
  : outcome (list value) :=
  if contains database key
  then try! v := getitem database key in Returns [VStr flag; v]
  else Returns [].

(** [tuple(database[key].split(' ')) if key in database else ()] *)
Definition split_if_present (database : dict) (key : string) : outcome (list value) :=
  if contains database key
  then try! v := getitem database key in py_split_space v
  else Returns [].

(** [(flag, v) if v else ()] *)
Definition flag_if_truthy (flag : string) (v : value) : list value :=
  if truthy v then [VStr flag; v] else [].

(** [shlex.split(v)]: a value that is not a str has no [read] method. *)
Definition py_shlex_split `{Externals} (v : value) : outcome (list value) :=
  match v with
  | VStr s => try! words := shlex_split s in Returns (VStr <$> words)
  | _ => Raises (AttributeError "read")
  end.

(** [(flag, str(database[key])) if key in database else ()] *)
Definition str_flag_if_present `{Externals} (flag : string) (database : dict)
  (key : string) : outcome (list value) :=
  if contains database key
  then try! v := getitem database key in Returns [VStr flag; VStr (py_str v)]
  else Returns [].

(** The entry that [next(c for c in databases_config if c.get('name') ==
    database_name)] finds, if any. *)
Definition find_database (databases_config : list dict) (database_name : string)
  : option dict :=
  first_match
    (fun database_config =>
       py_eq (dict_get database_config "name" VNone) (VStr database_name))
    databases_config.

(** The message of the [ValueError] that the restore functions raise. *)
Definition not_found_message (database_name : string) : list value :=
  [VStr "A database named "; VStr dq; VStr database_name; VStr dq;
   VStr " could not be found in the configuration"].

(** ** [borgmatic/hooks/postgresql.py] *)
Module postgresql.
Section hook.
Context `{Externals}.

Definition make_dump_path (config : dict) : outcome string :=
  make_database_dump_path
    (dict_get config "borgmatic_source_directory" VNone) "postgresql_databases".

(** The body of the [try] of [make_extra_environment]: the password to put in
    [PGPASSWORD].  A dict is truthy when it is not empty. *)
Definition environment_password (database : dict)
  (restore_connection_params : option dict) : outcome value :=
  match restore_connection_params with
  | Some params =>
      if negb (bool_decide (params = ∅))
      then py_or_else (dict_get params "password" VNone)
             (try! password := getitem database "password" in
              Returns (dict_get database "restore_password" password))
      else getitem database "password"
  | None => getitem database "password"
  end.

(** [if key in database: extra[variable] = database[key]] *)
Definition copy_if_present (database : dict) (key variable : string) (extra : dict)
  : outcome dict :=
  if contains database key
  then try! v := getitem database key in Returns (<[variable := v]> extra)
  else Returns extra.

Definition make_extra_environment (database : dict)
  (restore_connection_params : option dict) : outcome dict :=
  let extra : dict := ∅ in
  try! extra :=
    match environment_password database restore_connection_params with
    | Returns password => Returns (<["PGPASSWORD" := password]> extra)
    | Raises (AttributeError _) | Raises (KeyError _) => Returns extra
    | Raises e => Raises e
    end in
  let extra := <["PGSSLMODE" := dict_get database "ssl_mode" (VStr "disable")]> extra in
  try! extra := copy_if_present database "ssl_cert" "PGSSLCERT" extra in
  try! extra := copy_if_present database "ssl_key" "PGSSLKEY" extra in
  try! extra := copy_if_present database "ssl_root_cert" "PGSSLROOTCERT" extra in
  try! extra := copy_if_present database "ssl_crl" "PGSSLCRL" extra in
  Returns extra.

Definition EXCLUDED_DATABASE_NAMES : list string := ["template0"; "template1"].

(** [tuple(row[0] for row in rows if row[0] not in EXCLUDED_DATABASE_NAMES)],
    where the reader may end the iteration with the exception [stop]. *)
Fixpoint names_of_rows (rows : list (list string)) (stop : option exn)
  : outcome (list value) :=
  match rows with
  | [] => match stop with
          | Some e => Raises e
          | None => Returns []
          end
  | row :: rest =>
      match row with
      | [] => Raises IndexError
      | name :: _ =>
          try! names := names_of_rows rest stop in
          Returns (if bool_decide (name ∈ EXCLUDED_DATABASE_NAMES)
                   then names
                   else VStr name :: names)
      end
  end.

(** The [psql --list] command line of [database_names_to_dump]. *)
Definition list_command (database : dict) : outcome (list value) :=
  try! psql_command :=
    py_shlex_split (py_or (dict_get database "psql_command" VNone) (VStr "psql")) in
  try! host := flag_if_present "--host" database "hostname" in
  try! port := str_flag_if_present "--port" database "port" in
  try! username := flag_if_present "--username" database "username" in
  try! list_options := split_if_present database "list_options" in
  Returns (psql_command
           ++ [VStr "--list"; VStr "--no-password"; VStr "--no-psqlrc";
               VStr "--csv"; VStr "--tuples-only"]
           ++ host ++ port ++ username ++ list_options).

Definition database_names_to_dump (database : dict) (extra_environment : dict)
  (log_prefix : string) (dry_run : bool) : M (list value) :=
  do! requested_name := lift (getitem database "name") in
  if negb (py_eq requested_name (VStr "all")) then ret [requested_name]
  else if negb (truthy (dict_get database "format" VNone)) then ret [VStr "all"]
  else if dry_run then ret []
  else
    do! command := lift (list_command database) in
    do! _ := log DEBUG [VStr log_prefix; VStr ": Querying for "; VStr dq; VStr "all";
                        VStr dq; VStr " PostgreSQL databases to dump"] in
    do! list_output :=
      call (ExecuteAndCapture command (Some extra_environment))
           (execute_command_and_capture_output command (Some extra_environment)) in
    lift (let '(rows, stop) := csv_reader (splitlines list_output) in
          names_of_rows rows stop).

Definition dry_run_label (dry_run : bool) : string :=
  if dry_run then " (dry run; not actually dumping anything)" else "".

(** [database.get('format', None if database_name == 'all' else 'custom')] *)
Definition dump_format (database : dict) (database_name : value) : value :=
  dict_get database "format"
    (if py_eq database_name (VStr "all") then VNone else VStr "custom").

(** [database.get('pg_dump_command') or default_dump_command] *)
Definition dump_command (database : dict) (database_name : value) : value :=
  let default_dump_command :=
    if py_eq database_name (VStr "all") then "pg_dumpall" else "pg_dump" in
  py_or (dict_get database "pg_dump_command" VNone) (VStr default_dump_command).

(** The [command] tuple built for one database name. *)
Definition command (database : dict) (database_name : value) (dump_filename : string)
  : outcome (list value) :=
  let dump_format := dump_format database database_name in
  try! host := flag_if_present "--host" database "hostname" in
  try! port := str_flag_if_present "--port" database "port" in
  try! username := flag_if_present "--username" database "username" in
  try! options := split_if_present database "options" in
  Returns ([dump_command database database_name;
            VStr "--no-password"; VStr "--clean"; VStr "--if-exists"]
           ++ host ++ port ++ username
           ++ (if truthy (dict_get database "no_owner" (VBool false))
               then [VStr "--no-owner"] else [])
           ++ flag_if_truthy "--format" dump_format
           ++ (if py_eq dump_format (VStr "directory")
               then [VStr "--file"; VStr dump_filename] else [])
           ++ options
           ++ (if py_eq database_name (VStr "all") then [] else [database_name])
           ++ (if negb (py_eq dump_format (VStr "directory"))
               then [VStr ">"; VStr dump_filename] else [])).

(** The body of the inner loop: one resolved database name. *)
Definition dump_database_name (database extra_environment : dict) (dump_path : string)
  (log_prefix : string) (dry_run : bool) (database_name : value)
  (processes : list Process) : M (list Process) :=
  do! dump_filename :=
    lift (make_database_dump_filename dump_path database_name
            (dict_get database "hostname" VNone)) in
  do! dump_exists := path_exists (VStr dump_filename) in
  if dump_exists then
    do! _ := log WARNING
               [VStr log_prefix; VStr ": Skipping duplicate dump of PostgreSQL database ";
                VStr dq; database_name; VStr dq; VStr " to "; VStr dump_filename] in
    ret processes
  else
    do! command := lift (command database database_name dump_filename) in
    do! _ := log DEBUG
               [VStr log_prefix; VStr ": Dumping PostgreSQL database "; VStr dq;
                database_name; VStr dq; VStr " to "; VStr dump_filename;
                VStr (dry_run_label dry_run)] in
    if dry_run then ret processes
    else if py_eq (dump_format database database_name) (VStr "directory") then
      do! _ := call (CreateParentDirectory dump_filename)
                    (create_parent_directory_for_dump dump_filename) in
      do! _ := call (Execute command (Some true) (Some extra_environment) None)
                    (execute_command command (Some true) (Some extra_environment) None) in
      ret processes
    else
      do! _ := call (CreateNamedPipe dump_filename)
                    (create_named_pipe_for_dump dump_filename) in
      do! process :=
        call (Execute command (Some true) (Some extra_environment) (Some false))
             (execute_command command (Some true) (Some extra_environment)
                (Some false)) in
      ret (processes ++ [process]).

(** The body of the outer loop: one configured database. *)
Definition dump_database (config : dict) (log_prefix : string) (dry_run : bool)
  (database : dict) (processes : list Process) : M (list Process) :=
  do! extra_environment := lift (make_extra_environment database None) in
  do! dump_path := lift (make_dump_path config) in
  do! dump_database_names :=
    database_names_to_dump database extra_environment log_prefix dry_run in
  match dump_database_names with
  | [] =>
      if dry_run then ret processes
      else raise (ValueError [VStr "Cannot find any PostgreSQL databases to dump."])
  | _ :: _ =>
      for_each (dump_database_name database extra_environment dump_path log_prefix dry_run)
        dump_database_names processes
  end.

Definition dump_databases (databases : list dict) (config : dict) (log_prefix : string)
  (dry_run : bool) : M (list Process) :=
  do! _ := log INFO [VStr log_prefix; VStr ": Dumping PostgreSQL databases";
                     VStr (dry_run_label dry_run)] in
  for_each (dump_database config log_prefix dry_run) databases [].

Definition restore_dry_run_label (dry_run : bool) : string :=
  if dry_run then " (dry run; not actually restoring anything)" else "".

(** [connection_params[key] or database.get('restore_' + key, database.get(key))],
    the expression that picks the hostname and the username. *)
Definition restore_value (connection_params database : dict) (key : string)
  (default : value) : outcome value :=
  try! given := getitem connection_params key in
  Returns (py_or given
             (dict_get database ("restore_" +:+ key) (dict_get database key default))).

(** The [analyze_command] tuple. *)
Definition analyze_command (database : dict) (psql_command : list value)
  (hostname port username : value) (all_databases : bool) : outcome (list value) :=
  try! dbname :=
    (if negb all_databases
     then try! name := getitem database "name" in Returns [VStr "--dbname"; name]
     else Returns []) in
  try! analyze_options := split_if_present database "analyze_options" in
  Returns (psql_command
           ++ [VStr "--no-password"; VStr "--no-psqlrc"; VStr "--quiet"]
           ++ flag_if_truthy "--host" hostname
           ++ flag_if_truthy "--port" port
           ++ flag_if_truthy "--username" username
           ++ dbname ++ analyze_options
           ++ [VStr "--command"; VStr "ANALYZE"]).

(** The [restore_command] tuple. *)
Definition restore_command (database : dict) (psql_command : list value)
  (hostname port username : value) (all_databases : bool) (dump_filename : string)
  (extract_process : option Process) : outcome (list value) :=
  let use_psql_command :=
    all_databases || py_eq (dict_get database "format" VNone) (VStr "plain") in
  try! pg_restore_command :=
    py_shlex_split
      (py_or (dict_get database "pg_restore_command" VNone) (VStr "pg_restore")) in
  try! dbname :=
    (if negb all_databases
     then try! name := getitem database "name" in Returns [VStr "--dbname"; name]
     else Returns []) in
  try! restore_options := split_if_present database "restore_options" in
  try! schemas :=
    (if truthy (dict_get database "schemas" VNone)
     then try! schemas := getitem database "schemas" in
          try! schemas := py_iter schemas in
          Returns (concat ((fun schema => [VStr "--schema"; schema]) <$> schemas))
     else Returns []) in
  Returns ((if use_psql_command then psql_command else pg_restore_command)
           ++ [VStr "--no-password"]
           ++ (if use_psql_command then [VStr "--no-psqlrc"]
               else [VStr "--if-exists"; VStr "--exit-on-error"; VStr "--clean"])
           ++ dbname
           ++ flag_if_truthy "--host" hostname
           ++ flag_if_truthy "--port" port
           ++ flag_if_truthy "--username" username
           ++ (if truthy (dict_get database "no_owner" (VBool false))
               then [VStr "--no-owner"] else [])
           ++ restore_options
           ++ (match extract_process with
               | Some _ => []
               | None => [VStr dump_filename]
               end)
           ++ schemas).

(** Everything [restore_database_dump] computes between finding the entry and
    logging: the two command lines and the environment. *)
Definition restore_plan (database config connection_params : dict)
  (extract_process : option Process)
  : outcome (list value * list value * dict) :=
  try! hostname := restore_value connection_params database "hostname" VNone in
  try! port := restore_value connection_params database "port" (VStr "") in
  let port := VStr (py_str port) in
  try! username := restore_value connection_params database "username" VNone in
  try! name := getitem database "name" in
  let all_databases := py_eq name (VStr "all") in
  try! dump_path := make_dump_path config in
  try! name := getitem database "name" in
  try! dump_filename :=
    make_database_dump_filename dump_path name (dict_get database "hostname" VNone) in
  try! psql_command :=
    py_shlex_split (py_or (dict_get database "psql_command" VNone) (VStr "psql")) in
  try! analyze :=
    analyze_command database psql_command hostname port username all_databases in
  try! restore :=
    restore_command database psql_command hostname port username all_databases
      dump_filename extract_process in
  try! extra_environment := make_extra_environment database (Some connection_params) in
  Returns (restore, analyze, extra_environment).

Definition restore_database_dump (databases_config : list dict) (config : dict)
  (log_prefix database_name : string) (dry_run : bool)
  (extract_process : option Process) (connection_params : dict) : M unit :=
  match find_database databases_config database_name with
  | None => raise (ValueError (not_found_message database_name))
  | Some database =>
      do! plan := lift (restore_plan database config connection_params extract_process) in
      let '(restore_command, analyze_command, extra_environment) := plan in
      do! name := lift (getitem database "name") in
      do! _ := log DEBUG [VStr log_prefix; VStr ": Restoring PostgreSQL database ";
                          name; VStr (restore_dry_run_label dry_run)] in
      if dry_run then ret tt
      else
        let processes :=
          match extract_process with Some p => [p] | None => [] end in
        let input_file :=
          match extract_process with Some p => Some (stdout p) | None => None end in
        do! _ := call (ExecuteWithProcesses restore_command processes input_file
                         (Some extra_environment))
                      (execute_command_with_processes restore_command processes
                         input_file (Some extra_environment)) in
        do! _ := call (Execute analyze_command None (Some extra_environment) None)
                      (execute_command analyze_command None (Some extra_environment)
                         None) in
        ret tt
  end.

End hook.
End postgresql.

(** ** [borgmatic/hooks/mongodb.py] *)
Module mongodb.
Section hook.
Context `{Externals}.

Definition make_dump_path (config : dict) : outcome string :=
  make_database_dump_path
    (dict_get config "borgmatic_source_directory" VNone) "mongodb_databases".

Definition dry_run_label (dry_run : bool) : string :=
  if dry_run then " (dry run; not actually dumping anything)" else "".

Definition build_dump_command (database : dict) (dump_filename : string)
  (dump_format : value) : outcome (list value) :=
  try! name := getitem database "name" in
  let all_databases := py_eq name (VStr "all") in
  try! host := flag_if_present "--host" database "hostname" in
  try! port := str_flag_if_present "--port" database "port" in
  try! username := flag_if_present "--username" database "username" in
  try! password := flag_if_present "--password" database "password" in
  try! authentication_database :=
    flag_if_present "--authenticationDatabase" database "authentication_database" in
  try! db :=
    (if negb all_databases
     then try! name := getitem database "name" in Returns [VStr "--db"; name]
     else Returns []) in
  try! options := split_if_present database "options" in
  Returns ([VStr "mongodump"]
           ++ (if py_eq dump_format (VStr "directory")
               then [VStr "--out"; VStr dump_filename] else [])
           ++ host ++ port ++ username ++ password ++ authentication_database
           ++ db ++ options
           ++ (if negb (py_eq dump_format (VStr "directory"))
               then [VStr "--archive"; VStr ">"; VStr dump_filename] else [])).

(** The body of the loop: one configured database. *)
Definition dump_database (config : dict) (log_prefix : string) (dry_run : bool)
  (database : dict) (processes : list Process) : M (list Process) :=
  do! name := lift (getitem database "name") in
  do! dump_path := lift (make_dump_path config) in
  do! dump_filename :=
    lift (make_database_dump_filename dump_path name
            (dict_get database "hostname" VNone)) in
  let dump_format := dict_get database "format" (VStr "archive") in
  do! _ := log DEBUG [VStr log_prefix; VStr ": Dumping MongoDB database "; name;
                      VStr " to "; VStr dump_filename; VStr (dry_run_label dry_run)] in
  if dry_run then ret processes
  else
    do! command := lift (build_dump_command database dump_filename dump_format) in
    if py_eq dump_format (VStr "directory") then
      do! _ := call (CreateParentDirectory dump_filename)
                    (create_parent_directory_for_dump dump_filename) in
      do! _ := call (Execute command (Some true) None None)
                    (execute_command command (Some true) None None) in
      ret processes
    else
      do! _ := call (CreateNamedPipe dump_filename)
                    (create_named_pipe_for_dump dump_filename) in
      do! process := call (Execute command (Some true) None (Some false))
                          (execute_command command (Some true) None (Some false)) in
      ret (processes ++ [process]).

Definition dump_databases (databases : list dict) (config : dict) (log_prefix : string)
  (dry_run : bool) : M (list Process) :=
  do! _ := log INFO [VStr log_prefix; VStr ": Dumping MongoDB databases";
                     VStr (dry_run_label dry_run)] in
  for_each (dump_database config log_prefix dry_run) databases [].

Definition restore_dry_run_label (dry_run : bool) : string :=
  if dry_run then " (dry run; not actually restoring anything)" else "".

(** [connection_params[key] or database.get('restore_' + key, database.get(key))] *)
Definition restore_value (connection_params database : dict) (key : string)
  (default : value) : outcome value :=
  try! given := getitem connection_params key in
  Returns (py_or given
             (dict_get database ("restore_" +:+ key) (dict_get database key default))).

Definition build_restore_command (extract_process : option Process) (database : dict)
  (dump_filename : string) (connection_params : dict) : outcome (list value) :=
  try! hostname := restore_value connection_params database "hostname" VNone in
  try! port := restore_value connection_params database "port" (VStr "") in
  let port := VStr (py_str port) in
  try! username := restore_value connection_params database "username" VNone in
  try! password := restore_value connection_params database "password" VNone in
  let command := [VStr "mongorestore"] in
  let command :=
    match extract_process with
    | Some _ => command ++ [VStr "--archive"]
    | None => command ++ [VStr "--dir"; VStr dump_filename]
    end in
  try! name := getitem database "name" in
  try! command :=
    (if negb (py_eq name (VStr "all"))
     then try! name := getitem database "name" in
          Returns (command ++ [VStr "--drop"; VStr "--db"; name])
     else Returns command) in
  let command := if truthy hostname then command ++ [VStr "--host"; hostname] else command in
  let command :=
    if truthy port then command ++ [VStr "--port"; VStr (py_str port)] else command in
  let command :=
    if truthy username then command ++ [VStr "--username"; username] else command in
  let command :=
    if truthy password then command ++ [VStr "--password"; password] else command in
  try! command :=
    (if contains database "authentication_database"
     then try! v := getitem database "authentication_database" in
          Returns (command ++ [VStr "--authenticationDatabase"; v])
     else Returns command) in
  try! command :=
    (if contains database "restore_options"
     then try! v := getitem database "restore_options" in
          try! words := py_split_space v in
          Returns (command ++ words)
     else Returns command) in
  try! schemas := getitem database "schemas" in
  if truthy schemas then
    try! schemas := getitem database "schemas" in
    try! schemas := py_iter schemas in
    Returns (command ++ concat ((fun schema => [VStr "--nsInclude"; schema]) <$> schemas))
  else Returns command.

Definition restore_database_dump (databases_config : list dict) (config : dict)
  (log_prefix database_name : string) (dry_run : bool)
  (extract_process : option Process) (connection_params : dict) : M unit :=
  match find_database databases_config database_name with
  | None => raise (ValueError (not_found_message database_name))
  | Some database =>
      do! dump_path := lift (make_dump_path config) in
      do! name := lift (getitem database "name") in
      do! dump_filename :=
        lift (make_database_dump_filename dump_path name
                (dict_get database "hostname" VNone)) in
      do! restore_command :=
        lift (build_restore_command extract_process database dump_filename
                connection_params) in
      do! name := lift (getitem database "name") in
      do! _ := log DEBUG [VStr log_prefix; VStr ": Restoring MongoDB database ";
                          name; VStr (restore_dry_run_label dry_run)] in
      if dry_run then ret tt
      else
        let processes :=
          match extract_process with Some p => [p] | None => [] end in
        let input_file :=
          match extract_process with Some p => Some (stdout p) | None => None end in
        call (ExecuteWithProcesses restore_command processes input_file None)
             (execute_command_with_processes restore_command processes input_file None)
  end.

End hook.
End mongodb.

(** ** [borgmatic/hooks/sqlite.py] *)
Module sqlite.
Section hook.
Context `{Externals}.

Definition make_dump_path (config : dict) : outcome string :=
  make_database_dump_path
    (dict_get config "borgmatic_source_directory" VNone) "sqlite_databases".

Definition dry_run_label (dry_run : bool) : string :=
  if dry_run then " (dry run; not actually dumping anything)" else "".

(** The body of the loop: one configured database. *)
Definition dump_database (config : dict) (log_prefix : string) (dry_run : bool)
  (database : dict) (processes : list Process) : M (list Process) :=
  do! database_path := lift (getitem database "path") in
  do! name := lift (getitem database "name") in
  do! _ := (if py_eq name (VStr "all")
            then log WARNING [VStr "The "; VStr dq; VStr "all"; VStr dq;
                              VStr " database name has no meaning for SQLite3 databases"]
            else ret tt) in
  do! database_exists := path_exists database_path in
  do! _ := (if negb database_exists
            then log WARNING
                   [VStr log_prefix; VStr ": No SQLite database at "; database_path;
                    VStr "; An empty database will be created and dumped"]
            else ret tt) in
  do! dump_path := lift (make_dump_path config) in
  do! name := lift (getitem database "name") in
  do! dump_filename := lift (make_database_dump_filename dump_path name VNone) in
  do! dump_exists := path_exists (VStr dump_filename) in
  if dump_exists then
    do! _ := log WARNING
               [VStr log_prefix; VStr ": Skipping duplicate dump of SQLite database at ";
                database_path; VStr " to "; VStr dump_filename] in
    ret processes
  else
    let command := [VStr "sqlite3"; database_path; VStr ".dump"; VStr ">";
                    VStr dump_filename] in
    do! _ := log DEBUG
               [VStr log_prefix; VStr ": Dumping SQLite database at "; database_path;
                VStr " to "; VStr dump_filename; VStr (dry_run_label dry_run)] in
    if dry_run then ret processes
    else
      do! _ := call (CreateParentDirectory dump_filename)
                    (create_parent_directory_for_dump dump_filename) in
      do! process := call (Execute command (Some true) None (Some false))
                          (execute_command command (Some true) None (Some false)) in
      ret (processes ++ [process]).

Definition dump_databases (databases : list dict) (config : dict) (log_prefix : string)
  (dry_run : bool) : M (list Process) :=
  do! _ := log INFO [VStr log_prefix; VStr ": Dumping SQLite databases";
                     VStr (dry_run_label dry_run)] in
  for_each (dump_database config log_prefix dry_run) databases [].

Definition restore_dry_run_label (dry_run : bool) : string :=
  if dry_run then " (dry run; not actually restoring anything)" else "".

(** [try: os.remove(path); logger.warning(...)  except FileNotFoundError: pass] *)
Definition remove_existing (log_prefix : string) (database_path : value) : M unit :=
  fun w =>
    match os_remove database_path w with
    | (w', Returns _) =>
        (w', [Remove database_path;
              Log WARNING [VStr log_prefix; VStr ": Removed existing SQLite database at ";
                           database_path]],
         Returns tt)
    | (w', Raises FileNotFoundError) => (w', [Remove database_path], Returns tt)
    | (w', Raises e) => (w', [Remove database_path], Raises e)
    end.

Definition restore_database_dump (databases_config : list dict) (config : dict)
  (log_prefix database_name : string) (dry_run : bool)
  (extract_process : option Process) (connection_params : dict) : M unit :=
  match find_database databases_config database_name with
  | None => raise (ValueError (not_found_message database_name))
  | Some database =>
      do! given := lift (getitem connection_params "restore_path") in
      let database_path :=
        py_or given (dict_get database "restore_path" (dict_get database "path" VNone)) in
      do! _ := log DEBUG [VStr log_prefix; VStr ": Restoring SQLite database at ";
                          database_path; VStr (restore_dry_run_label dry_run)] in
      if dry_run then ret tt
      else
        do! _ := remove_existing log_prefix database_path in
        let restore_command := [VStr "sqlite3"; database_path] in
        match extract_process with
        | Some process =>
            call (ExecuteWithProcesses restore_command [process] (Some (stdout process))
                    None)
                 (execute_command_with_processes restore_command [process]
                    (Some (stdout process)) None)
        | None => raise (AttributeError "stdout")
        end
  end.

End hook.
End sqlite.

(** ** [borgmatic/commands/completion/bash.py] *)
Module bash.

(** An [argparse] action, as far as [parser_flags] reads it. *)
Record Action : Type := { option_strings : list string }.

(** An [argparse.ArgumentParser], as far as [parser_flags] reads it. *)
Record ArgumentParser : Type := { _actions : list Action }.

(** [' '.join(option for action in parser._actions
              for option in action.option_strings)] *)
Definition parser_flags (parser : ArgumentParser) : string :=
  String.concat " " (concat (option_strings <$> _actions parser)).

End bash.

(** ** A small instance of the collaborators

    A world is the list of the paths that exist.  A process handle is the
    command line it was launched with, and so is its output stream.  A named
    pipe cannot be created where a path exists.  The server of this instance
    lists four databases, and the one at [fresh.example.org] only the two
    templates. *)
Module demo.

Definition newline : string := String "010"%char EmptyString.

Definition list_output : string :=
  "template0,postgres,UTF8" +:+ newline +:+ "template1,postgres,UTF8" +:+ newline
  +:+ "app_db,app,UTF8" +:+ newline +:+ "metrics_db,app,UTF8" +:+ newline.

(** What a server without databases of its own lists. *)
Definition fresh_list_output : string :=
  "template0,postgres,UTF8" +:+ newline +:+ "template1,postgres,UTF8" +:+ newline.

(** Lines end at a line feed; the text after the last one is a line when it is
    not empty. *)
Definition lines_of (s : string) : list string :=
  let lines := split_on "010"%char s in
  match reverse lines with
  | "" :: others => reverse others
  | _ => lines
  end.

(** Fields without quoting; an empty line is a row without fields. *)
Definition rows_of (lines : list string) : list (list string) * option exn :=
  ((fun line => if String.eqb line "" then [] else split_on ","%char line) <$> lines,
   None).

(** Modelled from the spec: the base directory of the dump artifacts is the
    configured [borgmatic_source_directory]; [dump.make_database_dump_path],
    which applies a default when none is configured, is not among the
    sources. *)
Definition path_of (v : value) : string :=
  match v with
  | VStr s => if String.eqb s "" then "~/.borgmatic" else s
  | _ => "~/.borgmatic"
  end.

(** Modelled from the spec: the layout of the dump artifacts, base directory
    and engine subdirectory, then hostname, then database name;
    [dump.make_database_dump_filename] is not among the sources.  An entry
    without a hostname is filed under [localhost]. *)
Definition dump_filename_of (dump_path : string) (name hostname : value)
  : outcome string :=
  match name with
  | VStr n =>
      Returns (dump_path +:+ "/"
               +:+ (match hostname with
                    | VStr h => if String.eqb h "" then "localhost" else h
                    | _ => "localhost"
                    end)
               +:+ "/" +:+ n)
  | _ => Raises TypeError
  end.

(** Modelled from the spec: the Process Launcher returns at once with a handle
    and the dump helpers create what their names say; [borgmatic.execute] and
    [borgmatic.hooks.dump] are not among the sources.  The functions of
    Python's standard library are cut down to what the examples need. *)
Definition externals : Externals := {|
  World := list string;
  Process := list value;
  Stream := list value;
  stdout := fun p => p;
  str_of_list := fun l => "[" +:+ String.concat ", " l +:+ "]";
  shlex_split := fun s =>
    Returns (filter (fun word => word ≠ "") (split_on " "%char s));
  splitlines := lines_of;
  csv_reader := rows_of;
  os_path_exists := fun path w =>
    match path with
    | VStr s => Returns (bool_decide (s ∈ w))
    | VInt _ | VBool _ => Returns false
    | _ => Raises TypeError
    end;
  os_remove := fun path w =>
    match path with
    | VStr s =>
        if bool_decide (s ∈ w)
        then (filter (fun p => p ≠ s) w, Returns tt)
        else (w, Raises FileNotFoundError)
    | _ => (w, Raises TypeError)
    end;
  make_database_dump_path := fun directory hook =>
    Returns (path_of directory +:+ "/" +:+ hook);
  make_database_dump_filename := dump_filename_of;
  create_parent_directory_for_dump := fun _ w => (w, Returns tt);
  create_named_pipe_for_dump := fun dump_filename w =>
    if bool_decide (dump_filename ∈ w)
    then (w, Raises (ExternalError "FileExistsError"))
    else (dump_filename :: w, Returns tt);
  execute_command := fun command _ _ _ w => (w, Returns command);
  execute_command_and_capture_output := fun command _ w =>
    (w, Returns (if bool_decide (VStr "fresh.example.org" ∈ command)
                 then fresh_list_output else list_output));
  execute_command_with_processes := fun _ _ _ _ w => (w, Returns tt);
|}.

(** The world in which exactly the given paths exist. *)
Definition world (paths : list string) : @World externals := paths.

(** The handle of the process launched with the given command line. *)
Definition process (command : list value) : @Process externals := command.

(** Entries of a configuration, and connection parameters. *)
Definition app : dict :=
  {[ "name" := VStr "app"; "hostname" := VStr "db.example.org"; "port" := VInt 5432 ]}.

Definition everything : dict := {[ "name" := VStr "all" ]}.

Definition everything_custom : dict :=
  {[ "name" := VStr "all"; "format" := VStr "custom" ]}.

Definition fresh : dict :=
  {[ "name" := VStr "all"; "format" := VStr "custom";
     "hostname" := VStr "fresh.example.org" ]}.

Definition tree : dict := {[ "name" := VStr "app"; "format" := VStr "directory" ]}.

Definition site : dict :=
  {[ "name" := VStr "site"; "path" := VStr "/var/lib/site.db" ]}.

Definition archive : dict :=
  {[ "name" := VStr "app"; "hostname" := VStr "db.example.org";
     "restore_hostname" := VStr "standby.example.org"; "schemas" := VNone ]}.

Definition connection_params : dict :=
  {[ "hostname" := VStr "restore.example.org"; "port" := VNone;
     "username" := VNone; "password" := VNone; "restore_path" := VNone ]}.

End demo.

(** ** The small instance behind a server whose listing has an empty line *)
Module demo_gapped.

(** A listing with an empty line between the rows. *)
Definition gapped_list_output : string :=
  "app_db,app,UTF8" +:+ demo.newline +:+ demo.newline +:+ "metrics_db,app,UTF8"
  +:+ demo.newline.

(** The small instance, with a server that answers with the gapped listing. *)
Definition gapped : Externals := {|
  World := @World demo.externals;
  Process := @Process demo.externals;
  Stream := @Stream demo.externals;
  stdout := @stdout demo.externals;
  str_of_list := @str_of_list demo.externals;
  shlex_split := @shlex_split demo.externals;
  splitlines := @splitlines demo.externals;
  csv_reader := @csv_reader demo.externals;
  os_path_exists := @os_path_exists demo.externals;
  os_remove := @os_remove demo.externals;
  make_database_dump_path := @make_database_dump_path demo.externals;
  make_database_dump_filename := @make_database_dump_filename demo.externals;
  create_parent_directory_for_dump := @create_parent_directory_for_dump demo.externals;
  create_named_pipe_for_dump := @create_named_pipe_for_dump demo.externals;
  execute_command := @execute_command demo.externals;
  execute_command_and_capture_output := fun _ _ w => (w, Returns gapped_list_output);
  execute_command_with_processes := @execute_command_with_processes demo.externals;
|}.

End demo_gapped.

(** * The vocabulary of the properties *)

Section vocabulary.
Context `{Externals}.

(** An event that reaches the Process Launcher or changes the filesystem. *)
Definition side_effect (e : event) : bool := is_launch e || is_filesystem_write e.

(** A run that left the world alone and whose result is [acc] unless it
    raised. *)
Definition quiet {B} (run : World * list event * outcome B) (w : World) (acc : B)
  : Prop :=
  world_after run = w
  /\ Forall (fun e => side_effect e = false) (events_of run)
  /\ (result_of run = Returns acc \/ exists e, result_of run = Raises e).

(** A computation that leaves the world alone and has no side effect. *)
Definition harmless {A} (m : M A) (w : World) : Prop :=
  world_after (m w) = w /\ Forall (fun e => side_effect e = false) (events_of (m w)).

(** The entry has a name, its dump path and dump filename resolve, the
    existence of the dump can be checked, and its options are a str. *)
Definition postgresql_dumpable (config : dict) (w : World) (database : dict) : Prop :=
  exists (name : value) (dump_path dump_filename : string) (dump_exists : bool)
         (options : list value),
    database !! "name" = Some name
    /\ postgresql.make_dump_path config = Returns dump_path
    /\ make_database_dump_filename dump_path name (dict_get database "hostname" VNone)
       = Returns dump_filename
    /\ os_path_exists (VStr dump_filename) w = Returns dump_exists
    /\ split_if_present database "options" = Returns options.

(** The entry has a name, and its dump path and dump filename resolve. *)
Definition mongodb_dumpable (config : dict) (database : dict) : Prop :=
  exists (name : value) (dump_path dump_filename : string),
    database !! "name" = Some name
    /\ mongodb.make_dump_path config = Returns dump_path
    /\ make_database_dump_filename dump_path name (dict_get database "hostname" VNone)
       = Returns dump_filename.

(** The entry has a path and a name, its dump path and dump filename resolve,
    and the existence of the database and of the dump can be checked. *)
Definition sqlite_dumpable (config : dict) (w : World) (database : dict) : Prop :=
  exists (database_path name : value) (dump_path dump_filename : string)
         (database_exists dump_exists : bool),
    database !! "path" = Some database_path
    /\ database !! "name" = Some name
    /\ os_path_exists database_path w = Returns database_exists
    /\ sqlite.make_dump_path config = Returns dump_path
    /\ make_database_dump_filename dump_path name VNone = Returns dump_filename
    /\ os_path_exists (VStr dump_filename) w = Returns dump_exists.

(** What a dump step did: it ended in world [w'] with the processes [collected],
    and its side effects were [prepare] and then the launch of [command] through
    a shell with environment [extra_environment] and the [run_to_completion]
    argument [rtc] ([None] when the call leaves it out). *)
Definition dumped (run : World * list event * outcome (list Process)) (w' : World)
  (collected : list Process) (prepare : event) (command : list value)
  (extra_environment : option dict) (rtc : option bool) : Prop :=
  world_after run = w'
  /\ result_of run = Returns collected
  /\ filter side_effect (events_of run)
     = [prepare; Execute command (Some true) extra_environment rtc].

(** A run that, when it returns, returns the processes [collected] followed by
    the ones it collected itself. *)
Definition keeps (run : World * list event * outcome (list Process))
  (collected : list Process) : Prop :=
  forall final, result_of run = Returns final -> exists later, final = collected ++ later.

(** The [mongorestore] command line in one expression, from the values that
    the pieces of [build_restore_command] evaluate to. *)
Definition mongorestore_command (extract_process : option Process) (database : dict)
  (dump_filename : string) (hostname port username password name : value)
  (restore_options schemas : list value) : list value :=
  [VStr "mongorestore"]
  ++ match extract_process with
     | Some _ => [VStr "--archive"]
     | None => [VStr "--dir"; VStr dump_filename]
     end
  ++ (if py_eq name (VStr "all") then [] else [VStr "--drop"; VStr "--db"; name])
  ++ flag_if_truthy "--host" hostname
  ++ flag_if_truthy "--port" (VStr (py_str port))
  ++ flag_if_truthy "--username" username
  ++ flag_if_truthy "--password" password
  ++ match database !! "authentication_database" with
     | Some v => [VStr "--authenticationDatabase"; v]
     | None => []
     end
  ++ restore_options
  ++ concat ((fun schema => [VStr "--nsInclude"; schema]) <$> schemas).

(** The precedence chain of the restore builders, in the words of the spec:
    the value given in the connection parameters when it is not empty, else the
    [restore_] field of the entry when it is configured, else the field the
    dump used, else [default]. *)
Definition chosen (given : value) (database : dict) (key : string) (default : value)
  : value :=
  if truthy given then given
  else match database !! ("restore_" +:+ key) with
       | Some restore_field => restore_field
       | None =>
           match database !! key with
           | Some dump_field => dump_field
           | None => default
           end
       end.

(** The [--host], [--port] and [--username] flags of a restore command for
    the connection values [hostname], [port] and [username] given at restore
    time. *)
Definition connection_flags (hostname port username : value) (database : dict)
  : list value :=
  flag_if_truthy "--host" (chosen hostname database "hostname" VNone)
  ++ flag_if_truthy "--port" (VStr (py_str (chosen port database "port" (VStr ""))))
  ++ flag_if_truthy "--username" (chosen username database "username" VNone).

End vocabulary.

(** ** Words, environments and sequences of events *)

(** The string has no occurrence of the character. *)
Definition free_of (c : ascii) (s : string) : Prop :=
  Forall (fun c' => c' ≠ c) (list_ascii_of_string s).

(** [extra] after [if key in database: extra[variable] = database[key]] *)
Definition copied (database : dict) (key variable : string) (extra : dict) : dict :=
  match database !! key with
  | Some v => <[variable := v]> extra
  | None => extra
  end.

Section event_vocabulary.
Context `{Externals}.

(** Every event of the run satisfies [P]. *)
Definition emits {A} (P : event -> Prop) (run : World * list event * outcome A)
  : Prop :=
  Forall P (events_of run).

(** The events a SQLite dump may emit: logs, existence checks, the creation
    of a parent directory, and the launch through a shell, without environment
    and without blocking, of [sqlite3 <path> .dump > <dump_filename>]. *)
Definition sqlite_dump_event (e : event) : Prop :=
  match e with
  | Log _ _ | PathExists _ | CreateParentDirectory _ => True
  | Execute command shell extra_environment run_to_completion =>
      (exists database_path dump_filename,
         command = [VStr "sqlite3"; database_path; VStr ".dump"; VStr ">";
                    VStr dump_filename])
      /\ shell = Some true /\ extra_environment = None
      /\ run_to_completion = Some false
  | _ => False
  end.

(** The events a MongoDB dump may emit: logs, the creation of a parent
    directory or a named pipe, and the launch of [mongodump] through a shell
    without environment. *)
Definition mongodb_dump_event (e : event) : Prop :=
  match e with
  | Log _ _ | CreateParentDirectory _ | CreateNamedPipe _ => True
  | Execute command shell extra_environment _ =>
      head command = Some (VStr "mongodump")
      /\ shell = Some true /\ extra_environment = None
  | _ => False
  end.

(** The events a PostgreSQL dump may emit: logs, existence checks, the
    creation of a parent directory or a named pipe, and launches and queries
    with an environment that sets [PGSSLMODE], the launches through a shell. *)
Definition postgresql_dump_event (e : event) : Prop :=
  match e with
  | Log _ _ | PathExists _ | CreateParentDirectory _ | CreateNamedPipe _ => True
  | Execute _ shell (Some extra_environment) _ =>
      shell = Some true /\ is_Some (extra_environment !! "PGSSLMODE")
  | ExecuteAndCapture _ (Some extra_environment) =>
      is_Some (extra_environment !! "PGSSLMODE")
  | _ => False
  end.

(** What has to come just before an event: nothing, unless the event is a
    launch.  A launch follows the creation of a named pipe, is then without
    blocking and ends with the pipe as its redirection target, or it follows
    the creation of the parent directory of a dump filename that occurs in the
    command. *)
Definition prepares (previous : option event) (e : event) : Prop :=
  match e with
  | Execute command _ _ run_to_completion =>
      match previous with
      | Some (CreateNamedPipe dump_filename) =>
          run_to_completion = Some false /\ last command = Some (VStr dump_filename)
      | Some (CreateParentDirectory dump_filename) => VStr dump_filename ∈ command
      | _ => False
      end
  | _ => True
  end.

(** Every event of the sequence, which comes after [previous], is prepared by
    the one before it. *)
Fixpoint prepared_after (previous : option event) (events : list event) : Prop :=
  match events with
  | [] => True
  | e :: rest => prepares previous e /\ prepared_after (Some e) rest
  end.

Definition prepared {A} (run : World * list event * outcome A) : Prop :=
  prepared_after None (events_of run).


(** The events a restore may emit, given the extract process it was handed:
    logs; for SQLite the removal of the database; the launch of the restore
    command with the extract process as its only dependency and the output of
    that process as its input, or with neither; and for PostgreSQL, with
    [analyze] set, the launch of a command that blocks and runs without a
    shell argument. *)
Definition restore_event (extract_process : option Process) (removes analyzes : bool)
  (with_environment : bool) (e : event) : Prop :=
  match e with
  | Log _ _ => True
  | Remove _ => removes = true
  | ExecuteWithProcesses _ processes input_file extra_environment =>
      processes = match extract_process with Some p => [p] | None => [] end
      /\ input_file = stdout <$> extract_process
      /\ (is_Some extra_environment <-> with_environment = true)
  | Execute command shell extra_environment run_to_completion =>
      analyzes = true /\ shell = None /\ run_to_completion = None
      /\ is_Some extra_environment
      /\ last command = Some (VStr "ANALYZE")
  | _ => False
  end.


End event_vocabulary.

(** * Properties *)

(** ** Python values and dicts *)

Example split_on_example :
  split_on " "%char "--no-owner  --verbose" = ["--no-owner"; ""; "--verbose"].
Proof. reflexivity. Qed.

Example pretty_example : pretty 5432%Z = "5432".
Proof. reflexivity. Qed.

Lemma py_eq_str (v : value) (s : string) : py_eq v (VStr s) = true <-> v = VStr s.
Proof.
  destruct v; simpl; split; try discriminate; try congruence.
  - intros Heq. apply String.eqb_eq in Heq. by subst.
  - intros [= ->]. apply String.eqb_refl.
Qed.

Lemma py_eq_str_false (v : value) (s : string) :
  py_eq v (VStr s) = false <-> v ≠ VStr s.
Proof.
  rewrite <- py_eq_str. destruct (py_eq v (VStr s)); split; congruence.
Qed.

Lemma getitem_Some (d : dict) (k : string) (v : value) :
  d !! k = Some v -> getitem d k = Returns v.
Proof. unfold getitem. by intros ->. Qed.

Lemma getitem_None (d : dict) (k : string) :
  d !! k = None -> getitem d k = Raises (KeyError k).
Proof. unfold getitem. by intros ->. Qed.

Lemma dict_get_Some (d : dict) (k : string) (v default : value) :
  d !! k = Some v -> dict_get d k default = v.
Proof. unfold dict_get. by intros ->. Qed.

Lemma dict_get_None (d : dict) (k : string) (default : value) :
  d !! k = None -> dict_get d k default = default.
Proof. unfold dict_get. by intros ->. Qed.

Lemma flag_if_present_eq (flag : string) (database : dict) (key : string) :
  flag_if_present flag database key
  = Returns (match database !! key with
             | Some v => [VStr flag; v]
             | None => []
             end).
Proof. unfold flag_if_present, contains, getitem. by destruct (database !! key). Qed.

Lemma str_flag_if_present_eq `{Externals} (flag : string) (database : dict)
  (key : string) :
  str_flag_if_present flag database key
  = Returns (match database !! key with
             | Some v => [VStr flag; VStr (py_str v)]
             | None => []
             end).
Proof. unfold str_flag_if_present, contains, getitem. by destruct (database !! key). Qed.

Lemma split_if_present_eq (database : dict) (key : string) :
  split_if_present database key
  = match database !! key with
    | Some v => py_split_space v
    | None => Returns []
    end.
Proof. unfold split_if_present, contains, getitem. by destruct (database !! key). Qed.

(** ** Name resolution *)

Section name_resolution.
Context `{Externals}.

(** C4.  [database_names_to_dump] answers without a query, leaving the world
    as it is and calling no collaborator, in three cases: a name other than
    [all] resolves to itself; [all] without a format (the key absent or its
    value falsy) resolves to [all]; and [all] with a format resolves to nothing
    in a dry run. *)
Theorem database_names_to_dump_without_query
  (database extra_environment : dict) (log_prefix : string) (dry_run : bool)
  (name : value) (w : World) :
  database !! "name" = Some name ->
  (name ≠ VStr "all" ->
   postgresql.database_names_to_dump database extra_environment log_prefix dry_run w
   = (w, [], Returns [name]))
  /\ (name = VStr "all" ->
      truthy (dict_get database "format" VNone) = false ->
      postgresql.database_names_to_dump database extra_environment log_prefix dry_run w
      = (w, [], Returns [VStr "all"]))
  /\ (name = VStr "all" ->
      truthy (dict_get database "format" VNone) = true ->
      dry_run = true ->
      postgresql.database_names_to_dump database extra_environment log_prefix dry_run w
      = (w, [], Returns [])).
Proof.
  intros Hname. unfold postgresql.database_names_to_dump, bind, lift, ret.
  rewrite (getitem_Some _ _ _ Hname).
  repeat split.
  - intros Hne. apply py_eq_str_false in Hne. by rewrite Hne.
  - intros -> Hformat. simpl. by rewrite Hformat.
  - intros -> Hformat ->. simpl. by rewrite Hformat.
Qed.

Lemma names_of_rows_all (rows : list (string * list string)) :
  postgresql.names_of_rows ((fun row => row.1 :: row.2) <$> rows) None
  = Returns (VStr <$> filter (fun name => name ∉ postgresql.EXCLUDED_DATABASE_NAMES)
                        (fst <$> rows)).
Proof.
  induction rows as [|[name fields] rows IH]; [done|].
  cbn [fmap list_fmap postgresql.names_of_rows fst snd]. 
  change (list_fmap _ _ ?f rows) with (f <$> rows).
  rewrite IH. cbn [obind]. rewrite filter_cons.
  case_bool_decide; case_decide; done.
Qed.

(** C5.  When [database_names_to_dump] queries the server ([all] with a format,
    no dry run, the [psql --list] command line built and run), it returns the
    first field of every row of the CSV output, in the order of the output,
    except the rows of [template0] and [template1].  For rows that start with
    [template0], [template1], [app_db] and [metrics_db] that is [app_db] and
    [metrics_db]. *)
Theorem database_names_to_dump_query
  (database extra_environment : dict) (log_prefix : string)
  (command : list value) (list_output : string)
  (rows : list (string * list string)) (w w' : World) :
  database !! "name" = Some (VStr "all") ->
  truthy (dict_get database "format" VNone) = true ->
  postgresql.list_command database = Returns command ->
  execute_command_and_capture_output command (Some extra_environment) w
  = (w', Returns list_output) ->
  csv_reader (splitlines list_output) = ((fun row => row.1 :: row.2) <$> rows, None) ->
  let run :=
    postgresql.database_names_to_dump database extra_environment log_prefix false w in
  result_of run
  = Returns (VStr <$> filter (fun name => name ∉ postgresql.EXCLUDED_DATABASE_NAMES)
                        (fst <$> rows))
  /\ filter is_launch (events_of run)
     = [ExecuteAndCapture command (Some extra_environment)]
  /\ (fst <$> rows = ["template0"; "template1"; "app_db"; "metrics_db"] ->
      result_of run = Returns [VStr "app_db"; VStr "metrics_db"]).
Proof.
  intros Hname Hformat Hcommand Hquery Hcsv run.
  assert (Hrun : run = (w', [Log DEBUG
                               [VStr log_prefix; VStr ": Querying for "; VStr dq;
                                VStr "all"; VStr dq;
                                VStr " PostgreSQL databases to dump"];
                             ExecuteAndCapture command (Some extra_environment)],
                        Returns (VStr <$> filter
                                   (fun name => name ∉ postgresql.EXCLUDED_DATABASE_NAMES)
                                   (fst <$> rows)))).
  { subst run. unfold postgresql.database_names_to_dump, bind, lift, ret, log, call.
    rewrite (getitem_Some _ _ _ Hname). simpl. rewrite Hformat. simpl.
    rewrite Hcommand, Hquery, Hcsv. by rewrite names_of_rows_all. }
  rewrite Hrun. unfold result_of, events_of. simpl.
  repeat split. by intros ->.
Qed.

End name_resolution.

(** ** Loops and quiet computations *)

Section loops.
Context `{Externals}.

Lemma bind_returns {A B} (m : M A) (k : A -> M B) (w w1 : World)
  (evs : list event) (a : A) :
  m w = (w1, evs, Returns a) ->
  bind m k w = (world_after (k a w1), evs ++ events_of (k a w1), result_of (k a w1)).
Proof.
  intros Hm. unfold bind. rewrite Hm. by destruct (k a w1) as [[? ?] ?].
Qed.

Lemma bind_raises {A B} (m : M A) (k : A -> M B) (w w1 : World)
  (evs : list event) (e : exn) :
  m w = (w1, evs, Raises e) -> bind m k w = (w1, evs, Raises e).
Proof. intros Hm. unfold bind. by rewrite Hm. Qed.

Lemma bind_ext {A B} (m : M A) (k k' : A -> M B) (w : World) :
  (forall a w1, k a w1 = k' a w1) -> bind m k w = bind m k' w.
Proof.
  intros Hk. unfold bind. destruct (m w) as [[w1 evs1] [a|e]]; [|done].
  by rewrite Hk.
Qed.

Lemma bind_assoc {A B C} (m : M A) (f : A -> M B) (g : B -> M C) (w : World) :
  bind (bind m f) g w = bind m (fun a => bind (f a) g) w.
Proof.
  unfold bind. destruct (m w) as [[w1 evs1] [a|e]]; [|done].
  destruct (f a w1) as [[w2 evs2] [b|e]]; [|done].
  destruct (g b w2) as [[w3 evs3] r]. by rewrite app_assoc.
Qed.

Lemma bind_ret_l {A B} (a : A) (k : A -> M B) (w : World) : bind (ret a) k w = k a w.
Proof. unfold bind, ret. by destruct (k a w) as [[? ?] ?]. Qed.

Lemma for_each_app {A B} (body : A -> B -> M B) (xs ys : list A) (acc : B) (w : World) :
  for_each body (xs ++ ys) acc w = bind (for_each body xs acc) (for_each body ys) w.
Proof.
  revert acc w. induction xs as [|x xs IH]; intros acc w.
  - simpl. by rewrite bind_ret_l.
  - simpl. rewrite bind_assoc. by apply bind_ext.
Qed.

Lemma for_each_quiet {A B} (body : A -> B -> M B) (xs : list A) (w : World) :
  (forall x acc, x ∈ xs -> quiet (body x acc w) w acc) ->
  forall acc, quiet (for_each body xs acc w) w acc.
Proof.
  induction xs as [|x xs IH]; intros Hbody acc.
  - repeat split; [constructor | by left].
  - simpl. unfold bind.
    destruct (Hbody x acc) as (Hw & Hevs & Hres); [by left|].
    destruct (body x acc w) as [[w1 evs1] r1].
    unfold world_after, events_of, result_of in Hw, Hevs, Hres. simpl in *. subst w1.
    destruct Hres as [-> | [e ->]].
    + destruct (IH (fun y acc' Hy => Hbody y acc' (list_elem_of_further _ _ _ Hy)) acc)
        as (Hw' & Hevs' & Hres').
      destruct (for_each body xs acc w) as [[w2 evs2] r2].
      unfold quiet, world_after, events_of, result_of in *. simpl in *.
      split; [done|]. split; [by apply Forall_app|done].
    + unfold quiet, world_after, events_of, result_of. simpl. eauto.
Qed.

Lemma for_each_returns {A B} (body : A -> B -> M B) (xs : list A) (w : World) :
  (forall x acc, x ∈ xs ->
     world_after (body x acc w) = w /\ result_of (body x acc w) = Returns acc) ->
  forall acc, result_of (for_each body xs acc w) = Returns acc.
Proof.
  induction xs as [|x xs IH]; intros Hbody acc; [done|].
  simpl. unfold bind.
  destruct (Hbody x acc) as (Hw & Hres); [by left|].
  destruct (body x acc w) as [[w1 evs1] r1].
  unfold world_after, result_of in Hw, Hres. simpl in *. subst w1 r1.
  specialize (IH (fun y acc' Hy => Hbody y acc' (list_elem_of_further _ _ _ Hy)) acc).
  destruct (for_each body xs acc w) as [[w2 evs2] r2]. done.
Qed.

End loops.

(** ** Dry runs *)

Create HintDb quiet.

Section dry_run.
Context `{Externals}.

Lemma harmless_lift {A} (o : outcome A) (w : World) : harmless (lift o) w.
Proof. by split; [|constructor]. Qed.

Lemma harmless_ret {A} (a : A) (w : World) : harmless (ret a) w.
Proof. by split; [|constructor]. Qed.

Lemma harmless_log (level : log_level) (message : list value) (w : World) :
  harmless (log level message) w.
Proof. split; [done|]. by repeat constructor. Qed.

Lemma harmless_path_exists (path : value) (w : World) : harmless (path_exists path) w.
Proof. split; [done|]. by repeat constructor. Qed.

Lemma quiet_ret {B} (acc : B) (w : World) : quiet (ret acc w) w acc.
Proof. repeat split; [constructor | by left]. Qed.

Lemma quiet_bind {A B} (m : M A) (k : A -> M B) (w : World) (acc : B) :
  harmless m w ->
  (forall a, result_of (m w) = Returns a -> quiet (k a w) w acc) ->
  quiet (bind m k w) w acc.
Proof.
  intros [Hw Hevs] Hk. unfold bind.
  destruct (m w) as [[w1 evs1] [a|e]];
    unfold world_after, events_of, result_of in Hw, Hevs, Hk; simpl in *; subst w1.
  - destruct (Hk a eq_refl) as (Hw' & Hevs' & Hres').
    destruct (k a w) as [[w2 evs2] r].
    unfold quiet, world_after, events_of, result_of in *. simpl in *.
    split; [done|]. split; [by apply Forall_app|done].
  - unfold quiet, world_after, events_of, result_of. simpl. eauto.
Qed.

Lemma harmless_bind {A B} (m : M A) (k : A -> M B) (w : World) :
  harmless m w -> (forall a, harmless (k a) w) -> harmless (bind m k) w.
Proof.
  intros [Hw Hevs] Hk. unfold harmless, bind.
  destruct (m w) as [[w1 evs1] [a|e]];
    unfold world_after, events_of in Hw, Hevs; simpl in *; subst w1; [|done].
  destruct (Hk a) as [Hw' Hevs']. destruct (k a w) as [[w2 evs2] r].
  unfold world_after, events_of in *. simpl in *. split; [done|by apply Forall_app].
Qed.

Hint Resolve harmless_lift harmless_ret harmless_log harmless_path_exists quiet_ret
  : quiet.

Ltac quiet_step :=
  lazymatch goal with
  | |- quiet (bind _ _ _) _ _ => apply quiet_bind; [auto with quiet | intros ? ?]
  | |- quiet ((if true then _ else _) _) _ _ => cbn iota
  | |- quiet ((if ?b then _ else _) _) _ _ => destruct b eqn:?
  | |- quiet (ret _ _) _ _ => apply quiet_ret
  | |- harmless (if ?b then _ else _) _ => destruct b eqn:?; auto with quiet
  end.

Lemma mongodb_dump_database_dry_run (config : dict) (log_prefix : string)
  (database : dict) (processes : list Process) (w : World) :
  quiet (mongodb.dump_database config log_prefix true database processes w) w processes.
Proof. unfold mongodb.dump_database. repeat quiet_step. Qed.

Lemma sqlite_dump_database_dry_run (config : dict) (log_prefix : string)
  (database : dict) (processes : list Process) (w : World) :
  quiet (sqlite.dump_database config log_prefix true database processes w) w processes.
Proof.
  unfold sqlite.dump_database. repeat quiet_step.
Qed.

Lemma database_names_to_dump_dry_run (database extra_environment : dict)
  (log_prefix : string) (w : World) :
  harmless (postgresql.database_names_to_dump database extra_environment log_prefix true)
    w.
Proof.
  unfold postgresql.database_names_to_dump.
  apply harmless_bind; [auto with quiet|]. intros name.
  repeat case_match; auto with quiet.
Qed.

Lemma postgresql_dump_database_name_dry_run (database extra_environment : dict)
  (dump_path log_prefix : string) (database_name : value) (processes : list Process)
  (w : World) :
  quiet (postgresql.dump_database_name database extra_environment dump_path log_prefix
           true database_name processes w) w processes.
Proof. unfold postgresql.dump_database_name. repeat quiet_step. Qed.

Lemma postgresql_dump_database_dry_run (config : dict) (log_prefix : string)
  (database : dict) (processes : list Process) (w : World) :
  quiet (postgresql.dump_database config log_prefix true database processes w) w
    processes.
Proof.
  unfold postgresql.dump_database. do 2 quiet_step.
  apply quiet_bind; [apply database_names_to_dump_dry_run|]. intros names _.
  destruct names as [|name names]; [apply quiet_ret|].
  apply for_each_quiet. intros. apply postgresql_dump_database_name_dry_run.
Qed.

Lemma copy_if_present_returns (database : dict) (key variable : string)
  (extra : dict) :
  exists extra', postgresql.copy_if_present database key variable extra = Returns extra'.
Proof.
  unfold postgresql.copy_if_present, contains, getitem.
  destruct (database !! key); simpl; eauto.
Qed.

Lemma make_extra_environment_returns (database : dict)
  (restore_connection_params : option dict) :
  exists extra,
    postgresql.make_extra_environment database restore_connection_params = Returns extra.
Proof.
  unfold postgresql.make_extra_environment.
  assert (Hpassword : exists extra : dict,
    match postgresql.environment_password database restore_connection_params with
    | Returns password => Returns (<["PGPASSWORD" := password]> (∅ : dict))
    | Raises (AttributeError _) | Raises (KeyError _) => Returns ∅
    | Raises e => Raises e
    end = Returns extra).
  { unfold postgresql.environment_password, py_or_else, getitem.
    repeat case_match; simplify_eq/=; eauto. }
  destruct Hpassword as [extra ->]. cbn [obind].
  repeat match goal with
  | |- context [postgresql.copy_if_present ?d ?k ?v ?e] =>
      let Hcopy := fresh in
      destruct (copy_if_present_returns d k v e) as [? Hcopy]; rewrite Hcopy; cbn [obind]
  end.
  eauto.
Qed.

Lemma command_returns (database : dict) (database_name : value)
  (dump_filename : string) (options : list value) :
  split_if_present database "options" = Returns options ->
  exists command,
    postgresql.command database database_name dump_filename = Returns command.
Proof.
  intros Hoptions. unfold postgresql.command.
  rewrite !flag_if_present_eq, str_flag_if_present_eq, Hoptions. simpl. eauto.
Qed.

Lemma database_names_to_dump_cases (database extra_environment : dict)
  (log_prefix : string) (name : value) (w : World) :
  database !! "name" = Some name ->
  exists names,
    postgresql.database_names_to_dump database extra_environment log_prefix true w
    = (w, [], Returns names)
    /\ (names = [] \/ names = [name]).
Proof.
  intros Hname. unfold postgresql.database_names_to_dump, bind, lift, ret.
  rewrite (getitem_Some _ _ _ Hname).
  destruct (py_eq name (VStr "all")) eqn:Hall; simpl; [|eauto].
  apply py_eq_str in Hall as ->.
  destruct (truthy (dict_get database "format" VNone)); simpl; eauto.
Qed.

Lemma mongodb_dump_database_dry_run_returns (config : dict) (log_prefix : string)
  (database : dict) (processes : list Process) (w : World) :
  mongodb_dumpable config database ->
  result_of (mongodb.dump_database config log_prefix true database processes w)
  = Returns processes.
Proof.
  intros (name & dump_path & dump_filename & Hname & Hpath & Hfilename).
  unfold mongodb.dump_database, bind, lift, ret, log.
  by rewrite (getitem_Some _ _ _ Hname), Hpath, Hfilename.
Qed.

Lemma sqlite_dump_database_dry_run_returns (config : dict) (log_prefix : string)
  (database : dict) (processes : list Process) (w : World) :
  sqlite_dumpable config w database ->
  result_of (sqlite.dump_database config log_prefix true database processes w)
  = Returns processes.
Proof.
  intros (database_path & name & dump_path & dump_filename & database_exists
          & dump_exists & Hpath & Hname & Hexists & Hdump_path & Hfilename & Hdump).
  unfold sqlite.dump_database, bind, lift, ret, log, path_exists.
  rewrite (getitem_Some _ _ _ Hpath), (getitem_Some _ _ _ Hname).
  destruct (py_eq name (VStr "all")); simpl; rewrite Hexists;
    destruct database_exists; simpl;
    rewrite Hdump_path, Hfilename, Hdump; by destruct dump_exists.
Qed.

Lemma postgresql_dump_database_dry_run_returns (config : dict) (log_prefix : string)
  (database : dict) (processes : list Process) (w : World) :
  postgresql_dumpable config w database ->
  result_of (postgresql.dump_database config log_prefix true database processes w)
  = Returns processes.
Proof.
  intros (name & dump_path & dump_filename & dump_exists & options
          & Hname & Hpath & Hfilename & Hexists & Hoptions).
  unfold postgresql.dump_database.
  destruct (make_extra_environment_returns database None) as [extra Hextra].
  destruct (database_names_to_dump_cases database extra log_prefix name w Hname)
    as (names & Hnames & Hcases).
  unfold bind, lift. rewrite Hextra, Hpath, Hnames.
  destruct Hcases as [-> | ->]; [done|].
  simpl. unfold postgresql.dump_database_name, bind, lift, ret, log, path_exists.
  rewrite Hfilename, Hexists. destruct dump_exists; [done|].
  destruct (command_returns database name dump_filename options Hoptions)
    as [command ->].
  done.
Qed.

(** C3.  In a dry run, [dump_databases] of each of the three hooks leaves the
    world as it is and emits no event that reaches the Process Launcher
    ([execute_command], [execute_command_and_capture_output],
    [execute_command_with_processes]) or writes to the filesystem; it returns
    the empty sequence unless it raises, and it does return it when every entry
    has what its hook reads and the dump helpers resolve its paths. *)
Theorem dump_databases_dry_run (databases : list dict) (config : dict)
  (log_prefix : string) (w : World) :
  (quiet (postgresql.dump_databases databases config log_prefix true w) w []
   /\ (Forall (postgresql_dumpable config w) databases ->
       result_of (postgresql.dump_databases databases config log_prefix true w)
       = Returns []))
  /\ (quiet (mongodb.dump_databases databases config log_prefix true w) w []
      /\ (Forall (mongodb_dumpable config) databases ->
          result_of (mongodb.dump_databases databases config log_prefix true w)
          = Returns []))
  /\ (quiet (sqlite.dump_databases databases config log_prefix true w) w []
      /\ (Forall (sqlite_dumpable config w) databases ->
          result_of (sqlite.dump_databases databases config log_prefix true w)
          = Returns [])).
Proof.
  unfold postgresql.dump_databases, mongodb.dump_databases, sqlite.dump_databases.
  split; [split|split; split].
  all: try (apply quiet_bind; [auto with quiet|]; intros _ _; apply for_each_quiet;
            intros database processes _;
            auto using postgresql_dump_database_dry_run, mongodb_dump_database_dry_run,
              sqlite_dump_database_dry_run).
  all: intros Hready; rewrite Forall_forall in Hready;
    erewrite bind_returns by reflexivity; unfold result_of at 1; cbn [snd];
    apply for_each_returns; intros database processes Hin; split.
  - apply postgresql_dump_database_dry_run.
  - by apply postgresql_dump_database_dry_run_returns, Hready.
  - apply mongodb_dump_database_dry_run.
  - by apply mongodb_dump_database_dry_run_returns, Hready.
  - apply sqlite_dump_database_dry_run.
  - by apply sqlite_dump_database_dry_run_returns, Hready.
Qed.

End dry_run.

(** ** Duplicate dumps *)

Section duplicate_dumps.
Context `{Externals}.

(** C1, as amended.  When the dump filename of a resolved PostgreSQL database
    name, or of a SQLite entry, exists at the time [dump_databases] processes
    it, the step leaves the world and the collected processes as they were,
    emits no event that reaches the Process Launcher or writes to the
    filesystem, and ends with a warning that names the dump filename.  This
    holds in a dry run and outside of one. *)
Theorem dump_skips_existing_dump
  (config database extra_environment : dict) (log_prefix : string) (dry_run : bool)
  (database_name : value) (dump_path dump_filename : string)
  (processes : list Process) (w : World) :
  os_path_exists (VStr dump_filename) w = Returns true ->
  (make_database_dump_filename dump_path database_name
     (dict_get database "hostname" VNone) = Returns dump_filename ->
   let run := postgresql.dump_database_name database extra_environment dump_path
                log_prefix dry_run database_name processes w in
   world_after run = w
   /\ result_of run = Returns processes
   /\ Forall (fun e => side_effect e = false) (events_of run)
   /\ exists message,
        last (events_of run) = Some (Log WARNING message)
        /\ VStr dump_filename ∈ message)
  /\ (forall (database_path name : value) (database_exists : bool),
      database !! "path" = Some database_path ->
      database !! "name" = Some name ->
      os_path_exists database_path w = Returns database_exists ->
      sqlite.make_dump_path config = Returns dump_path ->
      make_database_dump_filename dump_path name VNone = Returns dump_filename ->
      let run := sqlite.dump_database config log_prefix dry_run database processes w in
      world_after run = w
      /\ result_of run = Returns processes
      /\ Forall (fun e => side_effect e = false) (events_of run)
      /\ exists message,
           last (events_of run) = Some (Log WARNING message)
           /\ VStr dump_filename ∈ message).
Proof.
  intros Hexists. split.
  - intros Hfilename run. subst run.
    unfold postgresql.dump_database_name, bind, lift, ret, log, path_exists.
    rewrite Hfilename, Hexists. simpl.
    repeat split; [by repeat constructor|].
    eexists. split; [done|]. set_solver.
  - intros database_path name database_exists Hpath Hname Hdatabase Hdump_path
           Hfilename run. subst run.
    unfold sqlite.dump_database, bind, lift, ret, log, path_exists.
    rewrite (getitem_Some _ _ _ Hpath), (getitem_Some _ _ _ Hname).
    destruct (py_eq name (VStr "all")); simpl; rewrite Hdatabase;
      destruct database_exists; simpl; rewrite Hdump_path, Hfilename, Hexists; simpl.
    all: repeat split; [by repeat constructor|].
    all: eexists; split; [done|]; set_solver.
Qed.

End duplicate_dumps.

(** ** Destinations and launches *)

Section launches.
Context `{Externals}.

Lemma keeps_bind {A} (m : M A) (k : A -> M (list Process)) (w : World)
  (collected : list Process) :
  (forall a w1, keeps (k a w1) collected) -> keeps (bind m k w) collected.
Proof.
  intros Hk final. unfold bind, result_of.
  destruct (m w) as [[w1 evs1] [a|e]]; [|done].
  specialize (Hk a w1 final). unfold result_of in Hk.
  by destruct (k a w1) as [[w2 evs2] r].
Qed.

Lemma keeps_ret (collected later : list Process) (w : World) :
  keeps (ret (collected ++ later) w) collected.
Proof. intros final [= <-]. by exists later. Qed.

Lemma keeps_ret_same (collected : list Process) (w : World) :
  keeps (ret collected w) collected.
Proof. intros final [= <-]. exists []. by rewrite app_nil_r. Qed.

Lemma keeps_raise (e : exn) (collected : list Process) (w : World) :
  keeps (raise e w) collected.
Proof. by intros final. Qed.

Lemma for_each_keeps {A} (body : A -> list Process -> M (list Process))
  (xs : list A) :
  (forall x collected w, keeps (body x collected w) collected) ->
  forall collected w, keeps (for_each body xs collected w) collected.
Proof.
  intros Hbody. induction xs as [|x xs IH]; intros collected w; [apply keeps_ret_same|].
  simpl. intros final. unfold bind, result_of.
  specialize (Hbody x collected w).
  destruct (body x collected w) as [[w1 evs1] [collected1|e]]; [|done].
  destruct (Hbody collected1 eq_refl) as [later ->].
  specialize (IH (collected ++ later) w1 final). unfold result_of in IH.
  destruct (for_each body xs (collected ++ later) w1) as [[w2 evs2] r]. simpl.
  intros Hfinal. destruct (IH Hfinal) as [later' ->].
  exists (later ++ later'). by rewrite app_assoc.
Qed.

Ltac keeps_step :=
  lazymatch goal with
  | |- keeps (bind _ _ _) _ => apply keeps_bind; intros ? ?
  | |- keeps ((if ?b then _ else _) _) _ => destruct b
  | |- keeps (ret (?collected ++ _) _) ?collected => apply keeps_ret
  | |- keeps (ret ?collected _) ?collected => apply keeps_ret_same
  | |- keeps (raise _ _) _ => apply keeps_raise
  end.

Lemma postgresql_dump_database_name_keeps (database extra_environment : dict)
  (dump_path log_prefix : string) (dry_run : bool) (database_name : value)
  (collected : list Process) (w : World) :
  keeps (postgresql.dump_database_name database extra_environment dump_path log_prefix
           dry_run database_name collected w) collected.
Proof. unfold postgresql.dump_database_name. repeat keeps_step. Qed.

Lemma postgresql_dump_database_keeps (config : dict) (log_prefix : string)
  (dry_run : bool) (database : dict) (collected : list Process) (w : World) :
  keeps (postgresql.dump_database config log_prefix dry_run database collected w)
    collected.
Proof.
  unfold postgresql.dump_database. do 3 keeps_step.
  destruct a1; [repeat keeps_step|].
  apply for_each_keeps. intros. apply postgresql_dump_database_name_keeps.
Qed.

Lemma mongodb_dump_database_keeps (config : dict) (log_prefix : string)
  (dry_run : bool) (database : dict) (collected : list Process) (w : World) :
  keeps (mongodb.dump_database config log_prefix dry_run database collected w) collected.
Proof. unfold mongodb.dump_database. repeat keeps_step. Qed.

Lemma sqlite_dump_database_keeps (config : dict) (log_prefix : string)
  (dry_run : bool) (database : dict) (collected : list Process) (w : World) :
  keeps (sqlite.dump_database config log_prefix dry_run database collected w) collected.
Proof. unfold sqlite.dump_database. repeat keeps_step. Qed.

(** C2, as amended.  Outside of a dry run, for an entry whose dump does not
    exist yet and whose helpers and launcher do not raise:
    - PostgreSQL and MongoDB, any format but [directory]: the step creates the
      named pipe at the dump filename, then launches the command without
      blocking, and appends the handle to the processes it returns;
    - PostgreSQL and MongoDB, format [directory]: the step creates the parent
      directory, then runs the command to completion, and returns the
      processes unchanged;
    - SQLite: the step creates the parent directory of the dump file (no named
      pipe), then launches the command without blocking, and appends the
      handle.
    The loops of [dump_databases] only append: once a step has collected a
    handle, the sequence that [dump_databases] returns holds it. *)
Theorem dump_prepares_then_launches
  (config database extra_environment : dict) (log_prefix : string)
  (dump_path dump_filename : string) (command : list value)
  (processes : list Process) (process : Process) (w w1 w2 : World) :
  os_path_exists (VStr dump_filename) w = Returns false ->
  (forall (database_name : value),
     make_database_dump_filename dump_path database_name
       (dict_get database "hostname" VNone) = Returns dump_filename ->
     postgresql.command database database_name dump_filename = Returns command ->
     let run := postgresql.dump_database_name database extra_environment dump_path
                  log_prefix false database_name processes w in
     (postgresql.dump_format database database_name ≠ VStr "directory" ->
      create_named_pipe_for_dump dump_filename w = (w1, Returns tt) ->
      execute_command command (Some true) (Some extra_environment) (Some false) w1
      = (w2, Returns process) ->
      dumped run w2 (processes ++ [process]) (CreateNamedPipe dump_filename)
        command (Some extra_environment) (Some false)
      /\ blocking (Some false) = false)
     /\ (postgresql.dump_format database database_name = VStr "directory" ->
         create_parent_directory_for_dump dump_filename w = (w1, Returns tt) ->
         execute_command command (Some true) (Some extra_environment) None w1
         = (w2, Returns process) ->
         dumped run w2 processes (CreateParentDirectory dump_filename)
           command (Some extra_environment) None
         /\ blocking None = true))
  /\ (forall (name : value),
        database !! "name" = Some name ->
        mongodb.make_dump_path config = Returns dump_path ->
        make_database_dump_filename dump_path name
          (dict_get database "hostname" VNone) = Returns dump_filename ->
        let dump_format := dict_get database "format" (VStr "archive") in
        mongodb.build_dump_command database dump_filename dump_format
        = Returns command ->
        let run := mongodb.dump_database config log_prefix false database processes w in
        (dump_format ≠ VStr "directory" ->
         create_named_pipe_for_dump dump_filename w = (w1, Returns tt) ->
         execute_command command (Some true) None (Some false) w1
         = (w2, Returns process) ->
         dumped run w2 (processes ++ [process]) (CreateNamedPipe dump_filename)
           command None (Some false)
         /\ blocking (Some false) = false)
        /\ (dump_format = VStr "directory" ->
            create_parent_directory_for_dump dump_filename w = (w1, Returns tt) ->
            execute_command command (Some true) None None w1 = (w2, Returns process) ->
            dumped run w2 processes (CreateParentDirectory dump_filename)
              command None None
            /\ blocking None = true))
  /\ (forall (database_path name : value) (database_exists : bool),
        database !! "path" = Some database_path ->
        database !! "name" = Some name ->
        os_path_exists database_path w = Returns database_exists ->
        sqlite.make_dump_path config = Returns dump_path ->
        make_database_dump_filename dump_path name VNone = Returns dump_filename ->
        command = [VStr "sqlite3"; database_path; VStr ".dump"; VStr ">";
                   VStr dump_filename] ->
        create_parent_directory_for_dump dump_filename w = (w1, Returns tt) ->
        execute_command command (Some true) None (Some false) w1
        = (w2, Returns process) ->
        let run := sqlite.dump_database config log_prefix false database processes w in
        dumped run w2 (processes ++ [process]) (CreateParentDirectory dump_filename)
          command None (Some false)
        /\ blocking (Some false) = false)
  /\ (forall (databases : list dict) (database_names : list value) (dry_run : bool)
             (collected : list Process) (w0 : World),
        keeps (for_each (postgresql.dump_database_name database extra_environment
                           dump_path log_prefix dry_run)
                 database_names collected w0) collected
        /\ keeps (for_each (postgresql.dump_database config log_prefix dry_run)
                    databases collected w0) collected
        /\ keeps (for_each (mongodb.dump_database config log_prefix dry_run)
                    databases collected w0) collected
        /\ keeps (for_each (sqlite.dump_database config log_prefix dry_run)
                    databases collected w0) collected).
Proof.
  intros Hexists. split; [|split; [|split]].
  4:{ intros databases database_names dry_run collected w0.
      repeat split; apply for_each_keeps; intros;
        auto using postgresql_dump_database_name_keeps, postgresql_dump_database_keeps,
          mongodb_dump_database_keeps, sqlite_dump_database_keeps. }
  - intros database_name Hfilename Hcommand run. subst run.
    unfold postgresql.dump_database_name, bind, lift, ret, log, path_exists, call.
    rewrite Hfilename, Hexists, Hcommand. simpl.
    split.
    + intros Hformat Hpipe Hlaunch. apply py_eq_str_false in Hformat.
      rewrite Hformat, Hpipe, Hlaunch. done.
    + intros Hformat Hdirectory Hlaunch. apply py_eq_str in Hformat.
      rewrite Hformat, Hdirectory, Hlaunch. done.
  - intros name Hname Hpath Hfilename dump_format Hcommand run. subst run dump_format.
    unfold mongodb.dump_database, bind, lift, ret, log, path_exists, call.
    rewrite (getitem_Some _ _ _ Hname), Hpath, Hfilename, Hcommand. simpl.
    split.
    + intros Hformat Hpipe Hlaunch. apply py_eq_str_false in Hformat.
      rewrite Hformat, Hpipe, Hlaunch. done.
    + intros Hformat Hdirectory Hlaunch. apply py_eq_str in Hformat.
      rewrite Hformat, Hdirectory, Hlaunch. done.
  - intros database_path name database_exists Hpath Hname Hdatabase Hdump_path
           Hfilename -> Hdirectory Hlaunch run. subst run.
    unfold sqlite.dump_database, bind, lift, ret, log, path_exists, call.
    rewrite (getitem_Some _ _ _ Hpath), (getitem_Some _ _ _ Hname).
    split; [|done].
    destruct (py_eq name (VStr "all")); simpl; rewrite Hdatabase;
      destruct database_exists; simpl;
      by rewrite Hdump_path, Hfilename, Hexists, Hdirectory, Hlaunch.
Qed.

End launches.

(** ** Configuration errors *)

Section configuration_errors.
Context `{Externals}.

Lemma find_database_None (databases_config : list dict) (database_name : string) :
  Forall (fun database_config => database_config !! "name" ≠ Some (VStr database_name))
    databases_config ->
  find_database databases_config database_name = None.
Proof.
  unfold find_database, first_match.
  induction 1 as [|database_config databases_config Hname _ IH]; [done|].
  simpl. rewrite IH.
  destruct (py_eq (dict_get database_config "name" VNone) (VStr database_name)) eqn:Heq;
    [|done].
  apply py_eq_str in Heq. unfold dict_get in Heq.
  destruct (database_config !! "name"); congruence.
Qed.

Lemma find_database_Some (databases_config : list dict) (database_name : string)
  (database : dict) :
  find_database databases_config database_name = Some database ->
  database ∈ databases_config /\ database !! "name" = Some (VStr database_name).
Proof.
  unfold find_database, first_match. intros Hfind.
  apply find_some in Hfind as [Hin Heq]. split; [by apply list_elem_of_In|].
  apply py_eq_str in Heq. unfold dict_get in Heq.
  destruct (database !! "name"); congruence.
Qed.

(** C7.  When no entry of the configuration sequence has the requested name,
    [restore_database_dump] of each hook raises a [ValueError] whose message
    holds the requested name, having done nothing: the world is as it was and
    no event was emitted.  And outside of a dry run, when the names of an entry
    resolve to the empty sequence, the PostgreSQL [dump_databases] raises a
    [ValueError]. *)
Theorem missing_database_raises_ValueError
  (config : dict) (log_prefix : string) :
  (forall (databases_config : list dict) (database_name : string) (dry_run : bool)
          (extract_process : option Process) (connection_params : dict) (w : World),
     Forall (fun database_config =>
               database_config !! "name" ≠ Some (VStr database_name))
       databases_config ->
     let error := Raises (ValueError (not_found_message database_name)) in
     VStr database_name ∈ not_found_message database_name
     /\ postgresql.restore_database_dump databases_config config log_prefix
          database_name dry_run extract_process connection_params w
        = (w, [], error)
     /\ mongodb.restore_database_dump databases_config config log_prefix
          database_name dry_run extract_process connection_params w
        = (w, [], error)
     /\ sqlite.restore_database_dump databases_config config log_prefix
          database_name dry_run extract_process connection_params w
        = (w, [], error))
  /\ (forall (before after : list dict) (database extra_environment : dict)
             (dump_path : string) (processes : list Process) (w0 w w' : World)
             (events0 events : list event),
        for_each (postgresql.dump_database config log_prefix false) before [] w0
        = (w, events0, Returns processes) ->
        postgresql.make_extra_environment database None = Returns extra_environment ->
        postgresql.make_dump_path config = Returns dump_path ->
        postgresql.database_names_to_dump database extra_environment log_prefix false w
        = (w', events, Returns []) ->
        let error :=
          Raises (ValueError [VStr "Cannot find any PostgreSQL databases to dump."]) in
        postgresql.dump_database config log_prefix false database processes w
        = (w', events, error)
        /\ result_of (postgresql.dump_databases (before ++ database :: after) config
                        log_prefix false w0)
           = error).
Proof.
  split.
  - intros databases_config database_name dry_run extract_process connection_params w
           Hnone error.
    apply find_database_None in Hnone.
    unfold postgresql.restore_database_dump, mongodb.restore_database_dump,
      sqlite.restore_database_dump.
    rewrite Hnone. repeat split. unfold not_found_message. set_solver.
  - intros before after database extra_environment dump_path processes w0 w w'
           events0 events Hbefore Hextra Hpath Hnames error.
    assert (Hstep : postgresql.dump_database config log_prefix false database
                      processes w = (w', events, error)).
    { unfold postgresql.dump_database, bind, lift, raise.
      rewrite Hextra, Hpath, Hnames. simpl. by rewrite app_nil_r. }
    split; [done|].
    unfold postgresql.dump_databases.
    erewrite bind_returns by reflexivity. unfold result_of at 1. cbn [snd].
    rewrite for_each_app. erewrite bind_returns by exact Hbefore.
    unfold result_of at 1. cbn [snd for_each].
    by erewrite bind_raises by exact Hstep.
Qed.

End configuration_errors.

(** ** The restore command lines *)

Section restore_commands.
Context `{Externals}.

Lemma append_flag_if_truthy (command : list value) (flag : string) (v : value) :
  (if truthy v then command ++ [VStr flag; v] else command)
  = command ++ flag_if_truthy flag v.
Proof. unfold flag_if_truthy. destruct (truthy v); by rewrite ?app_nil_r. Qed.

(** The [mongorestore] command line as one expression: what the statements
    of [build_restore_command] append, in their order. *)
Lemma mongodb_build_restore_command_eq (extract_process : option Process)
  (database : dict) (dump_filename : string) (connection_params : dict) :
  mongodb.build_restore_command extract_process database dump_filename
    connection_params
  = (try! hostname :=
       mongodb.restore_value connection_params database "hostname" VNone in
     try! port := mongodb.restore_value connection_params database "port" (VStr "") in
     try! username :=
       mongodb.restore_value connection_params database "username" VNone in
     try! password :=
       mongodb.restore_value connection_params database "password" VNone in
     try! name := getitem database "name" in
     try! restore_options := split_if_present database "restore_options" in
     try! schemas := getitem database "schemas" in
     try! schemas := (if truthy schemas then py_iter schemas else Returns []) in
     Returns ([VStr "mongorestore"]
              ++ match extract_process with
                 | Some _ => [VStr "--archive"]
                 | None => [VStr "--dir"; VStr dump_filename]
                 end
              ++ (if py_eq name (VStr "all") then []
                  else [VStr "--drop"; VStr "--db"; name])
              ++ flag_if_truthy "--host" hostname
              ++ flag_if_truthy "--port" (VStr (py_str port))
              ++ flag_if_truthy "--username" username
              ++ flag_if_truthy "--password" password
              ++ match database !! "authentication_database" with
                 | Some v => [VStr "--authenticationDatabase"; v]
                 | None => []
                 end
              ++ restore_options
              ++ concat ((fun schema => [VStr "--nsInclude"; schema]) <$> schemas))).
Proof.
  unfold mongodb.build_restore_command.
  destruct (mongodb.restore_value connection_params database "hostname" VNone)
    as [hostname|]; [|done].
  destruct (mongodb.restore_value connection_params database "port" (VStr ""))
    as [port|]; [|done].
  destruct (mongodb.restore_value connection_params database "username" VNone)
    as [username|]; [|done].
  destruct (mongodb.restore_value connection_params database "password" VNone)
    as [password|]; [|done].
  cbn [obind]. unfold split_if_present, contains, getitem.
  destruct (database !! "name") as [name|]; [|done]. cbn [obind].
  assert (Hport : py_str (VStr (py_str port)) = py_str port) by done.
  rewrite Hport. clear Hport.
  destruct extract_process, (py_eq name (VStr "all")); cbn [obind negb];
    cbv zeta; rewrite !append_flag_if_truthy;
    destruct (database !! "authentication_database"); cbn [obind];
    (destruct (database !! "restore_options") as [options|]; cbn [obind];
     [destruct (py_split_space options); cbn [obind]; [|done]|]);
    (destruct (database !! "schemas") as [schemas|]; cbn [obind]; [|done]);
    (destruct (truthy schemas); cbn [obind];
     [destruct (py_iter schemas); cbn [obind]; [|done]|]);
    rewrite <- ?app_assoc, ?app_nil_r; reflexivity.
Qed.

Lemma mongodb_build_restore_command_Returns (extract_process : option Process)
  (database : dict) (dump_filename : string) (connection_params : dict)
  (command : list value) :
  mongodb.build_restore_command extract_process database dump_filename
    connection_params = Returns command <->
  exists hostname port username password name restore_options schemas items,
    mongodb.restore_value connection_params database "hostname" VNone
    = Returns hostname
    /\ mongodb.restore_value connection_params database "port" (VStr "")
       = Returns port
    /\ mongodb.restore_value connection_params database "username" VNone
       = Returns username
    /\ mongodb.restore_value connection_params database "password" VNone
       = Returns password
    /\ database !! "name" = Some name
    /\ split_if_present database "restore_options" = Returns restore_options
    /\ database !! "schemas" = Some schemas
    /\ (if truthy schemas then py_iter schemas else Returns []) = Returns items
    /\ command = mongorestore_command extract_process database dump_filename
                   hostname port username password name restore_options items.
Proof.
  rewrite mongodb_build_restore_command_eq. unfold getitem. split.
  - intros Hcommand.
    destruct (mongodb.restore_value connection_params database "hostname" VNone)
      as [hostname|]; [|done].
    destruct (mongodb.restore_value connection_params database "port" (VStr ""))
      as [port|]; [|done].
    destruct (mongodb.restore_value connection_params database "username" VNone)
      as [username|]; [|done].
    destruct (mongodb.restore_value connection_params database "password" VNone)
      as [password|]; [|done].
    destruct (database !! "name") as [name|]; [|done].
    destruct (split_if_present database "restore_options") as [options|]; [|done].
    destruct (database !! "schemas") as [schemas|]; [|done].
    cbn [obind] in Hcommand.
    destruct (if truthy schemas then py_iter schemas else Returns [])
      as [items|] eqn:Hitems; [|done].
    injection Hcommand as <-.
    exists hostname, port, username, password, name, options, schemas, items.
    by repeat split.
  - intros (hostname & port & username & password & name & options & schemas
            & items & -> & -> & -> & -> & -> & -> & -> & Hitems & ->).
    cbn [obind]. by rewrite Hitems.
Qed.

Lemma concat_flag_pairs (flag : string) (l : list string) :
  concat ((fun schema => [VStr flag; schema]) <$> (VStr <$> l))
  = concat ((fun schema => [VStr flag; VStr schema]) <$> l).
Proof. by rewrite <- list_fmap_compose. Qed.

Lemma mongodb_restore_value_insert_schemas (connection_params database : dict)
  (key : string) (default schemas : value) :
  key ∈ ["hostname"; "port"; "username"; "password"] ->
  mongodb.restore_value connection_params (<["schemas" := schemas]> database) key default
  = mongodb.restore_value connection_params database key default.
Proof.
  intros Hkey. unfold mongodb.restore_value, dict_get.
  repeat (apply elem_of_cons in Hkey as [-> | Hkey]; [simpl; by rewrite !lookup_insert_ne|]).
  by apply elem_of_nil in Hkey.
Qed.

(** C10.  The MongoDB [build_restore_command] indexes [database['schemas']]:
    - without the key it never returns, and it raises [KeyError] for
      [schemas] when the connection parameters hold their four keys, the entry
      has a name and its restore options, if any, are a str; the whole
      [restore_database_dump] then raises without reaching the Process
      Launcher, in a dry run too;
    - with a falsy value ([None], an empty list) it returns a command without
      the [--nsInclude] flags: the same entry with a list of schemas gives
      that command followed by one [--nsInclude] pair per schema.
    The PostgreSQL [restore_command] reads the key with [.get]: an absent key
    gives the command of a [None] value, and when that command is built, the
    same entry with a list of schemas gives it followed by one [--schema]
    pair per schema. *)
Theorem mongodb_restore_indexes_schemas
  (extract_process : option Process) (database : dict) (dump_filename : string)
  (connection_params : dict) :
  (database !! "schemas" = None ->
   (exists e,
      mongodb.build_restore_command extract_process database dump_filename
        connection_params = Raises e)
   /\ (forall (name : value) (restore_options : list value),
         Forall (fun key => is_Some (connection_params !! key))
           ["hostname"; "port"; "username"; "password"] ->
         database !! "name" = Some name ->
         split_if_present database "restore_options" = Returns restore_options ->
         mongodb.build_restore_command extract_process database dump_filename
           connection_params = Raises (KeyError "schemas"))
   /\ (forall (databases_config : list dict) (config : dict)
              (log_prefix database_name : string) (dry_run : bool) (w : World),
         find_database databases_config database_name = Some database ->
         let run := mongodb.restore_database_dump databases_config config log_prefix
                      database_name dry_run extract_process connection_params w in
         (exists e, result_of run = Raises e) /\ events_of run = []))
  /\ (forall (schemas : value) (command : list value) (l : list string),
        database !! "schemas" = Some schemas ->
        truthy schemas = false ->
        mongodb.build_restore_command extract_process database dump_filename
          connection_params = Returns command ->
        mongodb.build_restore_command extract_process
          (<["schemas" := VList l]> database) dump_filename connection_params
        = Returns (command
                   ++ concat ((fun schema => [VStr "--nsInclude"; VStr schema]) <$> l)))
  /\ (forall (psql_command : list value) (hostname port username : value)
             (all_databases : bool),
        database !! "schemas" = None ->
        postgresql.restore_command database psql_command hostname port username
          all_databases dump_filename extract_process
        = postgresql.restore_command (<["schemas" := VNone]> database) psql_command
            hostname port username all_databases dump_filename extract_process
        /\ (forall (command : list value) (l : list string),
              postgresql.restore_command database psql_command hostname port username
                all_databases dump_filename extract_process = Returns command ->
              postgresql.restore_command (<["schemas" := VList l]> database)
                psql_command hostname port username all_databases dump_filename
                extract_process
              = Returns (command
                         ++ concat ((fun schema => [VStr "--schema"; VStr schema])
                                      <$> l)))).
Proof.
  split; [|split].
  - intros Hschemas.
    assert (Hraises : exists e,
              mongodb.build_restore_command extract_process database dump_filename
                connection_params = Raises e).
    { destruct (mongodb.build_restore_command extract_process database dump_filename
                  connection_params) as [command|e] eqn:Hcommand; [|by eexists].
      apply mongodb_build_restore_command_Returns in Hcommand
        as (? & ? & ? & ? & ? & ? & ? & ? & _ & _ & _ & _ & _ & _ & Hsome & _).
      congruence. }
    split; [done|]. split.
    + intros name restore_options Hkeys Hname Hoptions.
      rewrite mongodb_build_restore_command_eq.
      unfold mongodb.restore_value, getitem.
      repeat (apply Forall_cons in Hkeys as [[? ->] Hkeys]). cbn [obind].
      by rewrite Hname, Hoptions, Hschemas.
    + intros databases_config config log_prefix database_name dry_run w Hfind run.
      subst run. clear Hraises.
      unfold mongodb.restore_database_dump, bind, lift, events_of, result_of.
      rewrite Hfind.
      destruct (mongodb.make_dump_path config); [|by split; [eexists|]].
      destruct (getitem database "name"); [|by split; [eexists|]].
      destruct (make_database_dump_filename _ _ _) as [filename|];
        [|by split; [eexists|]].
      destruct (mongodb.build_restore_command extract_process database filename
                  connection_params) as [command|e'] eqn:Hcommand;
        [|by split; [eexists|]].
      apply mongodb_build_restore_command_Returns in Hcommand
        as (? & ? & ? & ? & ? & ? & ? & ? & _ & _ & _ & _ & _ & _ & Hsome & _).
      congruence.
  - intros schemas command l Hschemas Hfalsy Hcommand.
    apply mongodb_build_restore_command_Returns in Hcommand
      as (hostname & port & username & password & name & restore_options & schemas'
          & items & Hhostname & Hport & Husername & Hpassword & Hname & Hoptions
          & Hschemas' & Hitems & ->).
    assert (schemas' = schemas) as -> by congruence.
    rewrite Hfalsy in Hitems. injection Hitems as <-.
    apply mongodb_build_restore_command_Returns.
    exists hostname, port, username, password, name, restore_options, (VList l),
      (VStr <$> l).
    rewrite !mongodb_restore_value_insert_schemas by set_solver.
    rewrite split_if_present_eq, lookup_insert_eq, !lookup_insert_ne by done.
    rewrite <- split_if_present_eq.
    repeat split; try done.
    + by destruct l.
    + unfold mongorestore_command. rewrite lookup_insert_ne by done.
      rewrite concat_flag_pairs. simpl. by rewrite app_nil_r, <- !app_assoc.
  - intros psql_command hostname port username all_databases Hschemas.
    split; [|intros command l].
    all: unfold postgresql.restore_command, dict_get, getitem.
    all: rewrite !split_if_present_eq, lookup_insert_eq, !lookup_insert_ne by done.
    all: rewrite Hschemas; try done. simpl.
    destruct (py_shlex_split _) as [pg_restore_command|]; [|done].
    destruct (if negb all_databases then _ else _) as [dbname|]; [|done].
    destruct (match database !! "restore_options" with
              | Some v => py_split_space v
              | None => Returns []
              end) as [restore_options|]; [|done].
    cbn [obind]. intros [= <-].
    destruct l as [|schema l]; cbn [truthy obind py_iter].
    + by rewrite !app_nil_r.
    + rewrite concat_flag_pairs. f_equal.
      repeat (rewrite <- ?app_assoc; simpl). by rewrite ?app_nil_r.
Qed.

Lemma mongodb_restore_value_chosen (connection_params database : dict) (key : string)
  (default given : value) :
  connection_params !! key = Some given ->
  mongodb.restore_value connection_params database key default
  = Returns (chosen given database key default).
Proof.
  intros Hgiven. unfold mongodb.restore_value, chosen, py_or, dict_get.
  by rewrite (getitem_Some _ _ _ Hgiven).
Qed.

Lemma postgresql_restore_value_chosen (connection_params database : dict)
  (key : string) (default given : value) :
  connection_params !! key = Some given ->
  postgresql.restore_value connection_params database key default
  = Returns (chosen given database key default).
Proof.
  intros Hgiven. unfold postgresql.restore_value, chosen, py_or, dict_get.
  by rewrite (getitem_Some _ _ _ Hgiven).
Qed.

(** C8.  For an entry that a restore command can be built for, the command is
    a fixed beginning, the connection flags and a fixed end, where only the
    flags depend on the connection parameters, and each flag carries the value
    the precedence chain chooses: the connection parameter when it is truthy,
    else the [restore_] field when the entry has that key, else the dump-time
    field.  This holds for the [mongorestore] command (hostname, port,
    username, password) and for the restore and analyze commands of PostgreSQL
    (hostname, port, username).  With a non-empty hostname in the connection
    parameters the chain chooses it whatever [restore_hostname] says.  The
    SQLite restore has no such values; the path of the database it restores
    into follows the same chain. *)
Theorem restore_connection_values_precedence
  (extract_process : option Process) (database config : dict)
  (dump_filename : string) :
  ((exists connection_params command,
      mongodb.build_restore_command extract_process database dump_filename
        connection_params = Returns command) ->
   exists before after,
     forall connection_params hostname port username password,
       connection_params !! "hostname" = Some hostname ->
       connection_params !! "port" = Some port ->
       connection_params !! "username" = Some username ->
       connection_params !! "password" = Some password ->
       mongodb.build_restore_command extract_process database dump_filename
         connection_params
       = Returns (before
                  ++ connection_flags hostname port username database
                  ++ flag_if_truthy "--password"
                       (chosen password database "password" VNone)
                  ++ after))
  /\ ((exists connection_params plan,
         postgresql.restore_plan database config connection_params extract_process
         = Returns plan) ->
      exists before after analyze_before analyze_after,
        forall connection_params hostname port username,
          connection_params !! "hostname" = Some hostname ->
          connection_params !! "port" = Some port ->
          connection_params !! "username" = Some username ->
          exists extra_environment,
            postgresql.restore_plan database config connection_params extract_process
            = Returns
                (before ++ connection_flags hostname port username database ++ after,
                 analyze_before
                 ++ connection_flags hostname port username database
                 ++ analyze_after,
                 extra_environment))
  /\ (forall (hostname : string) (key : string) (default : value),
        hostname ≠ "" ->
        chosen (VStr hostname) database key default = VStr hostname
        /\ flag_if_truthy "--host" (chosen (VStr hostname) database key default)
           = [VStr "--host"; VStr hostname])
  /\ (forall (databases_config : list dict) (log_prefix database_name : string)
             (dry_run : bool) (connection_params : dict) (given : value) (w : World)
             (command : list value) (processes : list Process)
             (input_file : option Stream) (extra_environment : option dict),
        find_database databases_config database_name = Some database ->
        connection_params !! "restore_path" = Some given ->
        ExecuteWithProcesses command processes input_file extra_environment
        ∈ events_of (sqlite.restore_database_dump databases_config config log_prefix
                       database_name dry_run extract_process connection_params w) ->
        command = [VStr "sqlite3"; chosen given database "path" VNone]).
Proof.
  split; [|split; [|split]].
  4:{ intros databases_config log_prefix database_name dry_run connection_params given
             w command processes input_file extra_environment Hfind Hgiven.
      unfold sqlite.restore_database_dump, bind, lift, ret, raise, log, call,
        sqlite.remove_existing, events_of.
      rewrite Hfind, (getitem_Some _ _ _ Hgiven). simpl.
      change (py_or given
                (dict_get database "restore_path" (dict_get database "path" VNone)))
        with (chosen given database "path" VNone).
      destruct dry_run; simpl.
      2: destruct (os_remove _ w) as [w1 [[]|e]]; [|destruct e]; simpl;
        destruct extract_process as [process|]; simpl;
        try destruct (execute_command_with_processes _ _ _ _ w1) as [w2 r2]; simpl.
      all: rewrite ?elem_of_cons, ?elem_of_nil; intros Hin;
        repeat destruct Hin as [Hin|Hin]; simplify_eq; done. }
  - intros (connection_params0 & command0 & Hcommand).
    apply mongodb_build_restore_command_Returns in Hcommand
      as (_ & _ & _ & _ & name & restore_options & schemas & items
          & _ & _ & _ & _ & Hname & Hoptions & Hschemas & Hitems & _).
    exists ([VStr "mongorestore"]
            ++ match extract_process with
               | Some _ => [VStr "--archive"]
               | None => [VStr "--dir"; VStr dump_filename]
               end
            ++ (if py_eq name (VStr "all") then []
                else [VStr "--drop"; VStr "--db"; name])),
      (match database !! "authentication_database" with
       | Some v => [VStr "--authenticationDatabase"; v]
       | None => []
       end
       ++ restore_options
       ++ concat ((fun schema => [VStr "--nsInclude"; schema]) <$> items)).
    intros connection_params hostname port username password
           Hhostname Hport Husername Hpassword.
    apply mongodb_build_restore_command_Returns.
    eexists _, _, _, _, name, restore_options, schemas, items.
    rewrite (mongodb_restore_value_chosen _ _ _ _ _ Hhostname),
      (mongodb_restore_value_chosen _ _ _ _ _ Hport),
      (mongodb_restore_value_chosen _ _ _ _ _ Husername),
      (mongodb_restore_value_chosen _ _ _ _ _ Hpassword).
    repeat split; try done.
    unfold mongorestore_command, connection_flags. by rewrite <- !app_assoc.
  - intros (connection_params0 & plan0 & Hplan).
    unfold postgresql.restore_plan in Hplan.
    destruct (postgresql.restore_value connection_params0 database "hostname" VNone)
      as [hostname0|]; [|done].
    destruct (postgresql.restore_value connection_params0 database "port" (VStr ""))
      as [port0|]; [|done].
    destruct (postgresql.restore_value connection_params0 database "username" VNone)
      as [username0|]; [|done].
    cbn [obind] in Hplan.
    destruct (getitem database "name") as [name|] eqn:Hname; [|done].
    destruct (postgresql.make_dump_path config) as [dump_path|] eqn:Hpath; [|done].
    cbn [obind] in Hplan.
    destruct (make_database_dump_filename dump_path name
                (dict_get database "hostname" VNone))
      as [filename|] eqn:Hfilename; [|done].
    destruct (py_shlex_split (py_or (dict_get database "psql_command" VNone)
                                (VStr "psql")))
      as [psql_command|] eqn:Hpsql; [|done].
    cbn [obind] in Hplan.
    unfold postgresql.analyze_command, postgresql.restore_command in Hplan.
    rewrite Hname in Hplan. cbn [obind] in Hplan.
    set (all_databases := py_eq name (VStr "all")) in *.
    assert (Hdbname :
      (if negb all_databases then Returns [VStr "--dbname"; name] else Returns [])
      = Returns (if negb all_databases then [VStr "--dbname"; name] else []))
      by by destruct all_databases.
    rewrite Hdbname in Hplan. cbn [obind] in Hplan.
    destruct (split_if_present database "analyze_options")
      as [analyze_options|] eqn:Hanalyze; [|done].
    destruct (py_shlex_split (py_or (dict_get database "pg_restore_command" VNone)
                                (VStr "pg_restore")))
      as [pg_restore_command|] eqn:Hpg_restore; [|done].
    cbn [obind] in Hplan.
    destruct (split_if_present database "restore_options")
      as [restore_options|] eqn:Hrestore; [|done].
    cbn [obind] in Hplan.
    destruct (if truthy (dict_get database "schemas" VNone) then _ else _)
      as [schemas|] eqn:Hschemas; [|done].
    clear Hplan.
    set (use_psql_command :=
           all_databases || py_eq (dict_get database "format" VNone) (VStr "plain")).
    exists ((if use_psql_command then psql_command else pg_restore_command)
            ++ [VStr "--no-password"]
            ++ (if use_psql_command then [VStr "--no-psqlrc"]
                else [VStr "--if-exists"; VStr "--exit-on-error"; VStr "--clean"])
            ++ (if negb all_databases then [VStr "--dbname"; name] else [])),
      ((if truthy (dict_get database "no_owner" (VBool false))
        then [VStr "--no-owner"] else [])
       ++ restore_options
       ++ (match extract_process with
           | Some _ => []
           | None => [VStr filename]
           end)
       ++ schemas),
      (psql_command ++ [VStr "--no-password"; VStr "--no-psqlrc"; VStr "--quiet"]),
      ((if negb all_databases then [VStr "--dbname"; name] else [])
       ++ analyze_options ++ [VStr "--command"; VStr "ANALYZE"]).
    intros connection_params hostname port username Hhostname Hport Husername.
    destruct (make_extra_environment_returns database (Some connection_params))
      as [extra_environment Hextra].
    exists extra_environment.
    unfold postgresql.restore_plan.
    rewrite (postgresql_restore_value_chosen _ _ _ _ _ Hhostname),
      (postgresql_restore_value_chosen _ _ _ _ _ Hport),
      (postgresql_restore_value_chosen _ _ _ _ _ Husername).
    cbn [obind]. rewrite Hname, Hpath. cbn [obind]. rewrite Hfilename, Hpsql.
    cbn [obind]. unfold postgresql.analyze_command, postgresql.restore_command.
    rewrite Hname. cbn [obind]. fold all_databases. rewrite Hdbname. cbn [obind].
    rewrite Hanalyze, Hpg_restore. cbn [obind]. rewrite Hrestore. cbn [obind].
    rewrite Hschemas. cbn [obind]. rewrite Hextra. cbn [obind].
    fold use_psql_command. unfold connection_flags.
    do 3 f_equal; by rewrite <- !app_assoc.
  - intros hostname key default Hhostname.
    assert (Htruthy : truthy (VStr hostname) = true).
    { simpl. destruct (String.eqb hostname "") eqn:Heq; [|done].
      by apply String.eqb_eq in Heq. }
    unfold chosen, flag_if_truthy. by rewrite Htruthy, Htruthy.
Qed.

End restore_commands.

(** ** Restoring without an extract process *)

Section file_based_restore.
Context `{Externals}.

(** C9.  Outside of a dry run and without an extract process, the SQLite
    [restore_database_dump] never returns and never reaches the Process
    Launcher.  When the entry is found, the connection parameters hold
    [restore_path] and the removal of the destination succeeds or finds no
    file, the exception is the [AttributeError] of [extract_process.stdout],
    raised after the removal.  The MongoDB and PostgreSQL hooks do restore
    without an extract process: they launch the restore command with no
    dependency and no input, and the MongoDB command reads [--dir
    dump_filename]. *)
Theorem sqlite_restore_requires_extract_process
  (databases_config : list dict) (config : dict) (log_prefix database_name : string)
  (connection_params : dict) (w : World) :
  let run := sqlite.restore_database_dump databases_config config log_prefix
               database_name false None connection_params w in
  (exists e, result_of run = Raises e)
  /\ filter is_launch (events_of run) = []
  /\ (forall (database : dict) (given : value) (w' : World) (removed : outcome unit),
        find_database databases_config database_name = Some database ->
        connection_params !! "restore_path" = Some given ->
        let database_path :=
          py_or given
            (dict_get database "restore_path" (dict_get database "path" VNone)) in
        os_remove database_path w = (w', removed) ->
        removed = Returns tt \/ removed = Raises FileNotFoundError ->
        world_after run = w'
        /\ result_of run = Raises (AttributeError "stdout")
        /\ filter side_effect (events_of run) = [Remove database_path])
  /\ (forall (database : dict) (dump_path dump_filename : string)
             (command : list value),
        find_database databases_config database_name = Some database ->
        mongodb.make_dump_path config = Returns dump_path ->
        make_database_dump_filename dump_path (VStr database_name)
          (dict_get database "hostname" VNone) = Returns dump_filename ->
        mongodb.build_restore_command None database dump_filename connection_params
        = Returns command ->
        (exists rest,
           command = VStr "mongorestore" :: VStr "--dir" :: VStr dump_filename :: rest)
        /\ filter is_launch
             (events_of (mongodb.restore_database_dump databases_config config
                           log_prefix database_name false None connection_params w))
           = [ExecuteWithProcesses command [] None None])
  /\ (forall (database : dict) (restore analyze : list value)
             (extra_environment : dict),
        find_database databases_config database_name = Some database ->
        postgresql.restore_plan database config connection_params None
        = Returns (restore, analyze, extra_environment) ->
        exists rest,
          filter is_launch
            (events_of (postgresql.restore_database_dump databases_config config
                          log_prefix database_name false None connection_params w))
          = ExecuteWithProcesses restore [] None (Some extra_environment) :: rest).
Proof.
  intros run. subst run.
  assert (Hsqlite :
    let run := sqlite.restore_database_dump databases_config config log_prefix
                 database_name false None connection_params w in
    (exists e, result_of run = Raises e)
    /\ filter is_launch (events_of run) = []
    /\ (forall (database : dict) (given : value) (w' : World) (removed : outcome unit),
          find_database databases_config database_name = Some database ->
          connection_params !! "restore_path" = Some given ->
          let database_path :=
            py_or given
              (dict_get database "restore_path" (dict_get database "path" VNone)) in
          os_remove database_path w = (w', removed) ->
          removed = Returns tt \/ removed = Raises FileNotFoundError ->
          world_after run = w'
          /\ result_of run = Raises (AttributeError "stdout")
          /\ filter side_effect (events_of run) = [Remove database_path])).
  { intros run. subst run. unfold sqlite.restore_database_dump.
    destruct (find_database databases_config database_name) as [database|].
    2:{ split; [by eexists|]. split; [done|]. by intros ? ? ? ? [=]. }
    unfold bind, lift, ret, raise, log, sqlite.remove_existing, getitem.
    destruct (connection_params !! "restore_path") as [given|].
    2:{ split; [by eexists|]. split; [done|]. by intros ? ? ? ? _ [=]. }
    simpl.
    destruct (os_remove _ w) as [w1 removed1] eqn:Hremove.
    destruct removed1 as [[]|e]; [|destruct e]; simpl.
    all: split; [by eexists|]; split; [done|].
    all: intros ? ? w' removed [= <-] [= <-] Hremove' Hremoved.
    all: rewrite Hremove in Hremove'; injection Hremove' as <- <-.
    all: first [done | by destruct Hremoved as [[=]|[=]]]. }
  destruct Hsqlite as (Hraises & Hlaunch & Hremove).
  split; [done|]. split; [done|]. split; [done|]. split.
  - intros database dump_path dump_filename command Hfind Hpath Hfilename Hcommand.
    destruct (find_database_Some _ _ _ Hfind) as [_ Hname].
    split.
    + apply mongodb_build_restore_command_Returns in Hcommand
        as (? & ? & ? & ? & ? & ? & ? & ? & _ & _ & _ & _ & _ & _ & _ & _ & ->).
      unfold mongorestore_command. simpl. by eexists.
    + unfold mongodb.restore_database_dump, bind, lift, ret, log, call.
      rewrite Hfind, Hpath. simpl. rewrite (getitem_Some _ _ _ Hname). simpl.
      rewrite Hfilename. simpl. rewrite Hcommand. simpl.
      by destruct (execute_command_with_processes command [] None None w).
  - intros database restore analyze extra_environment Hfind Hplan.
    destruct (find_database_Some _ _ _ Hfind) as [_ Hname].
    unfold postgresql.restore_database_dump, bind, lift, ret, log, call, events_of.
    rewrite Hfind, Hplan. simpl. rewrite (getitem_Some _ _ _ Hname). simpl.
    destruct (execute_command_with_processes restore [] None
                (Some extra_environment) w) as [w1 [[]|e]]; simpl;
      [|eexists; reflexivity].
    destruct (execute_command analyze None (Some extra_environment) None w1)
      as [w2 [|]]; simpl; eexists; reflexivity.
Qed.

End file_based_restore.

(** ** The PostgreSQL dump command *)

Section dump_command.
Context `{Externals}.

Lemma py_eq_str_decide (v : value) (s : string) :
  py_eq v (VStr s) = bool_decide (v = VStr s).
Proof.
  destruct (py_eq v (VStr s)) eqn:Heq.
  - apply py_eq_str in Heq. by rewrite bool_decide_eq_true_2.
  - apply py_eq_str_false in Heq. by rewrite bool_decide_eq_false_2.
Qed.

(** C6.  The format of a PostgreSQL dump without a configured [format] is
    [custom] for a named database and unset for [all].  The command built for
    a resolved name is: the dump command and its three fixed flags; the
    connection and ownership flags, which do not depend on the dump filename;
    [--format] and the format when there is one; [--file] and the dump
    filename exactly when the format is [directory]; the options; the
    database name exactly when it is not [all]; and the redirection to the
    dump filename exactly when the format is not [directory]. *)
Theorem postgresql_dump_command_shape (database : dict) (database_name : value) :
  (database !! "format" = None ->
   postgresql.dump_format database database_name
   = if bool_decide (database_name = VStr "all") then VNone else VStr "custom")
  /\ (forall (options : list value),
        split_if_present database "options" = Returns options ->
        exists flags,
          forall (dump_filename : string),
            let dump_format := postgresql.dump_format database database_name in
            postgresql.command database database_name dump_filename
            = Returns
                ([postgresql.dump_command database database_name;
                  VStr "--no-password"; VStr "--clean"; VStr "--if-exists"]
                 ++ flags
                 ++ flag_if_truthy "--format" dump_format
                 ++ (if bool_decide (dump_format = VStr "directory")
                     then [VStr "--file"; VStr dump_filename] else [])
                 ++ options
                 ++ (if bool_decide (database_name = VStr "all")
                     then [] else [database_name])
                 ++ (if bool_decide (dump_format = VStr "directory")
                     then [] else [VStr ">"; VStr dump_filename]))).
Proof.
  split.
  - intros Hformat. unfold postgresql.dump_format.
    by rewrite (dict_get_None _ _ _ Hformat), py_eq_str_decide.
  - intros options Hoptions.
    exists (match database !! "hostname" with
            | Some v => [VStr "--host"; v]
            | None => []
            end
            ++ match database !! "port" with
               | Some v => [VStr "--port"; VStr (py_str v)]
               | None => []
               end
            ++ match database !! "username" with
               | Some v => [VStr "--username"; v]
               | None => []
               end
            ++ (if truthy (dict_get database "no_owner" (VBool false))
                then [VStr "--no-owner"] else [])).
    intros dump_filename dump_format. subst dump_format.
    unfold postgresql.command.
    rewrite !flag_if_present_eq, str_flag_if_present_eq, Hoptions. cbn [obind].
    rewrite !py_eq_str_decide. f_equal.
    destruct (bool_decide (postgresql.dump_format database database_name
                           = VStr "directory")); cbn [negb];
      by rewrite <- !app_assoc.
Qed.

End dump_command.

(** ** The flags of the completion script *)

Lemma split_on_free (sep : ascii) (s : string) :
  free_of sep s -> split_on sep s = [s].
Proof.
  unfold free_of. induction s as [|c s IH]; [done|].
  simpl. intros Hfree. apply Forall_cons in Hfree as [Hc Hfree].
  rewrite (IH Hfree). destruct (Ascii.eqb c sep) eqn:Heq; [|done].
  by apply Ascii.eqb_eq in Heq.
Qed.

Lemma split_on_append (sep : ascii) (s rest : string) :
  free_of sep s ->
  split_on sep (s +:+ String sep rest) = s :: split_on sep rest.
Proof.
  unfold free_of. induction s as [|c s IH]; intros Hfree.
  - simpl. by rewrite Ascii.eqb_refl.
  - simpl in *. apply Forall_cons in Hfree as [Hc Hfree].
    rewrite (IH Hfree). destruct (Ascii.eqb c sep) eqn:Heq; [|done].
    by apply Ascii.eqb_eq in Heq.
Qed.

Lemma split_on_concat (sep : ascii) (words : list string) :
  words ≠ [] ->
  Forall (free_of sep) words ->
  split_on sep (String.concat (String sep "") words) = words.
Proof.
  induction words as [|word words IH]; [done|]. intros _ Hfree.
  apply Forall_cons in Hfree as [Hword Hfree].
  destruct words as [|word' words]; [by apply split_on_free|].
  change (String.concat (String sep "") (word :: word' :: words))
    with (word +:+ String sep (String.concat (String sep "") (word' :: words))).
  rewrite split_on_append by done. by rewrite IH.
Qed.

Lemma split_on_not_nil (sep : ascii) (s : string) : split_on sep s ≠ [].
Proof.
  destruct s as [|c s]; [done|]. simpl.
  destruct (Ascii.eqb c sep); [done|]. by destruct (split_on sep s).
Qed.

Lemma split_on_pieces_free (sep : ascii) (s : string) :
  Forall (free_of sep) (split_on sep s).
Proof.
  induction s as [|c s IH]; simpl.
  - repeat constructor.
  - destruct (Ascii.eqb c sep) eqn:Heq.
    + constructor; [constructor|done].
    + destruct (split_on sep s) as [|w ws]; [repeat constructor|].
      * intros ->. by rewrite Ascii.eqb_refl in Heq.
      * apply Forall_cons in IH as [Hw Hws]. constructor; [|done].
        constructor; [|done]. intros ->. by rewrite Ascii.eqb_refl in Heq.
Qed.

Lemma concat_split_on (sep : ascii) (s : string) :
  String.concat (String sep "") (split_on sep s) = s.
Proof.
  induction s as [|c s IH]; [done|]. simpl.
  destruct (Ascii.eqb c sep) eqn:Heq.
  - apply Ascii.eqb_eq in Heq as ->.
    pose proof (split_on_not_nil sep s) as Hnil.
    destruct (split_on sep s) as [|w ws]; [done|].
    simpl in *. by rewrite IH.
  - pose proof (split_on_not_nil sep s) as Hnil.
    destruct (split_on sep s) as [|w ws]; [done|].
    rewrite <- IH. simpl. by destruct ws.
Qed.

(** X1.  [parser_flags] of a parser whose actions have no option string is the
    empty string.  When there is an option string and none of them holds a
    space, splitting the result at the spaces gives back the option strings of
    the actions, in the order of the actions. *)
Theorem parser_flags_split (parser : bash.ArgumentParser) :
  let flags := concat (bash.option_strings <$> bash._actions parser) in
  (flags = [] -> bash.parser_flags parser = "")
  /\ (flags ≠ [] ->
      Forall (free_of " "%char) flags ->
      split_on " "%char (bash.parser_flags parser) = flags).
Proof.
  intros flags. unfold bash.parser_flags. fold flags. split.
  - by intros ->.
  - intros Hflags Hfree. by apply (split_on_concat " "%char).
Qed.

(** ** The environment of the PostgreSQL commands *)

Section environment.
Context `{Externals}.

Lemma copy_if_present_eq (database : dict) (key variable : string) (extra : dict) :
  postgresql.copy_if_present database key variable extra
  = Returns (copied database key variable extra).
Proof.
  unfold postgresql.copy_if_present, copied, contains, getitem.
  by destruct (database !! key).
Qed.

Lemma lookup_copied_ne (database : dict) (key variable k : string) (extra : dict) :
  k ≠ variable -> copied database key variable extra !! k = extra !! k.
Proof.
  intros Hne. unfold copied. destruct (database !! key); [|done].
  by rewrite lookup_insert_ne.
Qed.

Lemma lookup_copied_eq (database : dict) (key variable : string) (extra : dict) :
  extra !! variable = None ->
  copied database key variable extra !! variable = database !! key.
Proof.
  intros Hnone. unfold copied. destruct (database !! key); [|done].
  by rewrite lookup_insert_eq.
Qed.

Lemma environment_password_raises (database : dict) (params : option dict) (e : exn) :
  postgresql.environment_password database params = Raises e ->
  e = KeyError "password" /\ database !! "password" = None.
Proof.
  unfold postgresql.environment_password, py_or_else, getitem, obind.
  intros He. by repeat (case_match; simplify_eq/=).
Qed.

(** The environment in one expression. *)
Lemma make_extra_environment_eq (database : dict) (params : option dict) :
  postgresql.make_extra_environment database params
  = Returns
      (copied database "ssl_crl" "PGSSLCRL"
         (copied database "ssl_root_cert" "PGSSLROOTCERT"
            (copied database "ssl_key" "PGSSLKEY"
               (copied database "ssl_cert" "PGSSLCERT"
                  (<["PGSSLMODE" := dict_get database "ssl_mode" (VStr "disable")]>
                     match postgresql.environment_password database params with
                     | Returns password => <["PGPASSWORD" := password]> ∅
                     | Raises _ => ∅
                     end))))).
Proof.
  unfold postgresql.make_extra_environment.
  destruct (postgresql.environment_password database params) as [password|e] eqn:He.
  - cbn [obind]. by repeat (rewrite copy_if_present_eq; cbn [obind]).
  - apply environment_password_raises in He as [-> _]. cbn [obind].
    by repeat (rewrite copy_if_present_eq; cbn [obind]).
Qed.

Lemma lookup_password_base (database : dict) (params : option dict) (k : string) :
  k ≠ "PGPASSWORD" ->
  (match postgresql.environment_password database params with
   | Returns password => <["PGPASSWORD" := password]> (∅ : dict)
   | Raises _ => ∅
   end) !! k = None.
Proof.
  intros Hne. destruct (postgresql.environment_password database params); [|done].
  by rewrite lookup_insert_ne.
Qed.

(** X2.  [make_extra_environment] never raises.  Its result sets [PGSSLMODE]
    to the [ssl_mode] of the entry, or to [disable] without one; it sets
    [PGSSLCERT], [PGSSLKEY], [PGSSLROOTCERT] and [PGSSLCRL] exactly when the
    entry has [ssl_cert], [ssl_key], [ssl_root_cert] and [ssl_crl], to their
    values; and it sets no variable other than these and [PGPASSWORD]. *)
Theorem make_extra_environment_ssl (database : dict) (params : option dict) :
  exists extra,
    postgresql.make_extra_environment database params = Returns extra
    /\ extra !! "PGSSLMODE" = Some (dict_get database "ssl_mode" (VStr "disable"))
    /\ extra !! "PGSSLCERT" = database !! "ssl_cert"
    /\ extra !! "PGSSLKEY" = database !! "ssl_key"
    /\ extra !! "PGSSLROOTCERT" = database !! "ssl_root_cert"
    /\ extra !! "PGSSLCRL" = database !! "ssl_crl"
    /\ (forall variable,
          is_Some (extra !! variable) ->
          variable ∈ ["PGPASSWORD"; "PGSSLMODE"; "PGSSLCERT"; "PGSSLKEY";
                      "PGSSLROOTCERT"; "PGSSLCRL"]).
Proof.
  eexists. split; [apply make_extra_environment_eq|].
  repeat split.
  - by rewrite !lookup_copied_ne, lookup_insert_eq.
  - rewrite !lookup_copied_ne by done. apply lookup_copied_eq.
    rewrite lookup_insert_ne by done. by apply lookup_password_base.
  - rewrite !lookup_copied_ne by done. apply lookup_copied_eq.
    rewrite lookup_copied_ne, lookup_insert_ne by done. by apply lookup_password_base.
  - rewrite !lookup_copied_ne by done. apply lookup_copied_eq.
    rewrite !lookup_copied_ne, lookup_insert_ne by done. by apply lookup_password_base.
  - apply lookup_copied_eq.
    rewrite !lookup_copied_ne, lookup_insert_ne by done. by apply lookup_password_base.
  - intros variable Hsome.
    destruct (decide (variable ∈ ["PGPASSWORD"; "PGSSLMODE"; "PGSSLCERT"; "PGSSLKEY";
                                  "PGSSLROOTCERT"; "PGSSLCRL"])) as [|Hnot]; [done|].
    rewrite !lookup_copied_ne, lookup_insert_ne, lookup_password_base in Hsome
      by set_solver.
    by destruct Hsome.
Qed.

(** X3.  The [PGPASSWORD] of [make_extra_environment].  Without restore
    connection parameters, or with an empty dict of them, it is the [password]
    of the entry, and it is unset without one.  With parameters, a truthy
    [password] among them is taken; otherwise the [restore_password] of the
    entry, or its [password] without one, is taken, but only when the entry has
    a [password] key: without that key the variable is unset, also when a
    [restore_password] is configured. *)
Theorem make_extra_environment_password (database : dict) (params : option dict)
  (extra : dict) :
  postgresql.make_extra_environment database params = Returns extra ->
  (params = None \/ params = Some ∅ -> extra !! "PGPASSWORD" = database !! "password")
  /\ (forall connection_params,
        params = Some connection_params ->
        connection_params ≠ ∅ ->
        let given := dict_get connection_params "password" VNone in
        (truthy given = true -> extra !! "PGPASSWORD" = Some given)
        /\ (truthy given = false ->
            extra !! "PGPASSWORD"
            = (fun password => dict_get database "restore_password" password)
                <$> database !! "password")).
Proof.
  rewrite make_extra_environment_eq. intros [= <-].
  rewrite !lookup_copied_ne, lookup_insert_ne by done.
  split.
  - intros Hdump.
    assert (Hpassword : postgresql.environment_password database params
                        = getitem database "password").
    { destruct Hdump as [-> | ->]; [done|].
      unfold postgresql.environment_password. by rewrite bool_decide_eq_true_2. }
    rewrite Hpassword. unfold getitem.
    destruct (database !! "password"); [by rewrite lookup_insert_eq|done].
  - intros connection_params -> Hnonempty given. subst given.
    unfold postgresql.environment_password, py_or_else, getitem.
    rewrite bool_decide_eq_false_2 by done. cbn [negb].
    split; intros ->; [by rewrite lookup_insert_eq|].
    destruct (database !! "password"); cbn [obind fmap option_fmap option_map];
      [by rewrite lookup_insert_eq|done].
Qed.

End environment.

(** ** The names listed by the server *)

Section listed_names.
Context `{Externals}.

Lemma names_of_rows_Returns (rows : list (list string)) (stop : option exn)
  (names : list value) :
  postgresql.names_of_rows rows stop = Returns names ->
  stop = None
  /\ Forall (fun row => row ≠ []) rows
  /\ names = VStr <$> filter (fun name => name ∉ postgresql.EXCLUDED_DATABASE_NAMES)
                        (omap head rows).
Proof.
  revert names. induction rows as [|row rows IH]; intros names; simpl.
  - destruct stop; [done|]. by intros [= <-].
  - destruct row as [|name fields]; [done|].
    destruct (postgresql.names_of_rows rows stop) as [names'|]; [|done].
    destruct (IH names' eq_refl) as (-> & Hrows & ->).
    cbn [obind]. intros [= <-]. split; [done|]. split; [by constructor|].
    cbn [omap list_omap head]. rewrite filter_cons.
    case_bool_decide; case_decide; done.
Qed.

Lemma names_of_rows_blank (rows : list (list string)) (stop : option exn) :
  [] ∈ rows -> postgresql.names_of_rows rows stop = Raises IndexError.
Proof.
  induction rows as [|row rows IH]; intros Hin; [by apply elem_of_nil in Hin|].
  simpl. destruct row as [|name fields]; [done|].
  apply elem_of_cons in Hin as [|Hin]; [done|]. by rewrite (IH Hin).
Qed.

(** X4.  A name that [database_names_to_dump] returns is [template0] or
    [template1] only if the entry itself is named so: of the names that the
    server lists, these two are never returned. *)
Theorem database_names_to_dump_never_templates
  (database extra_environment : dict) (log_prefix : string) (dry_run : bool)
  (w : World) (names : list value) (excluded : string) :
  result_of (postgresql.database_names_to_dump database extra_environment log_prefix
               dry_run w) = Returns names ->
  excluded ∈ postgresql.EXCLUDED_DATABASE_NAMES ->
  VStr excluded ∈ names ->
  database !! "name" = Some (VStr excluded).
Proof.
  unfold postgresql.database_names_to_dump, bind, lift, ret, log, call, result_of,
    getitem.
  destruct (database !! "name") as [name|]; [|done]. simpl.
  destruct (py_eq name (VStr "all")) eqn:Hall; simpl.
  2:{ intros [= <-] _ Hin. apply list_elem_of_singleton in Hin. by subst. }
  destruct (truthy (dict_get database "format" VNone)); simpl.
  2:{ intros [= <-] Hexcluded Hin. apply list_elem_of_singleton in Hin.
      injection Hin as ->.
      repeat (apply elem_of_cons in Hexcluded as [[=]|Hexcluded]).
      by apply elem_of_nil in Hexcluded. }
  destruct dry_run; simpl.
  { intros [= <-] _ Hin. by apply elem_of_nil in Hin. }
  destruct (postgresql.list_command database) as [command|]; [|done]. simpl.
  destruct (execute_command_and_capture_output command (Some extra_environment) w)
    as [w' [list_output|]]; [|done]. simpl.
  destruct (csv_reader (splitlines list_output)) as [rows stop].
  destruct (postgresql.names_of_rows rows stop) as [names'|] eqn:Hnames; [|done].
  simpl. intros [= <-] Hexcluded Hin.
  apply names_of_rows_Returns in Hnames as (_ & _ & ->).
  apply list_elem_of_fmap in Hin as (name' & [= <-] & Hin).
  apply list_elem_of_filter in Hin as [Hnot _]. done.
Qed.

(** X5.  When the listing that the server answers with has an empty row,
    [database_names_to_dump] of [all] with a format raises [IndexError], and
    the query is the only launch it has made. *)
Theorem database_names_to_dump_blank_row
  (database extra_environment : dict) (log_prefix : string) (command : list value)
  (list_output : string) (w w' : World) :
  database !! "name" = Some (VStr "all") ->
  truthy (dict_get database "format" VNone) = true ->
  postgresql.list_command database = Returns command ->
  execute_command_and_capture_output command (Some extra_environment) w
  = (w', Returns list_output) ->
  [] ∈ (csv_reader (splitlines list_output)).1 ->
  let run :=
    postgresql.database_names_to_dump database extra_environment log_prefix false w in
  result_of run = Raises IndexError
  /\ filter is_launch (events_of run)
     = [ExecuteAndCapture command (Some extra_environment)].
Proof.
  intros Hname Hformat Hcommand Hquery Hblank run. subst run.
  unfold postgresql.database_names_to_dump, bind, lift, ret, log, call, result_of,
    events_of.
  rewrite (getitem_Some _ _ _ Hname). simpl. rewrite Hformat. simpl.
  rewrite Hcommand, Hquery. simpl.
  destruct (csv_reader (splitlines list_output)) as [rows stop]. simpl in Hblank.
  by rewrite (names_of_rows_blank rows stop Hblank).
Qed.

End listed_names.

(** ** The dump command lines *)

Section dump_commands.
Context `{Externals}.

(** X6.  The PostgreSQL dump command starts with the configured
    [pg_dump_command] when that is truthy, taken as one word, and otherwise
    with [pg_dumpall] for the name [all] and with [pg_dump] for any other
    name. *)
Theorem postgresql_dump_command_program (database : dict) (database_name : value)
  (dump_filename : string) (command : list value) :
  postgresql.command database database_name dump_filename = Returns command ->
  let configured := dict_get database "pg_dump_command" VNone in
  head command
  = Some (if truthy configured then configured
          else if bool_decide (database_name = VStr "all") then VStr "pg_dumpall"
               else VStr "pg_dump").
Proof.
  intros Hcommand configured. subst configured.
  unfold postgresql.command in Hcommand.
  rewrite !flag_if_present_eq, str_flag_if_present_eq in Hcommand.
  cbn [obind] in Hcommand.
  destruct (split_if_present database "options"); [|done]. cbn [obind] in Hcommand.
  injection Hcommand as <-. simpl.
  unfold postgresql.dump_command, py_or. rewrite py_eq_str_decide.
  by destruct (truthy _), (bool_decide (database_name = VStr "all")).
Qed.

(** X7.  The MongoDB [build_dump_command] raises [KeyError] for an entry
    without a [name].  For an entry with a name and options that split, the
    command is [mongodump], then [--out] and the dump filename exactly when the
    format is [directory], then flags that depend neither on the dump filename
    nor on the format, then [--db] and the name unless the name is [all], then
    the options, and then [--archive], [>] and the dump filename exactly when
    the format is not [directory]. *)
Theorem mongodb_build_dump_command_shape (database : dict) :
  (database !! "name" = None ->
   forall dump_filename dump_format,
     mongodb.build_dump_command database dump_filename dump_format
     = Raises (KeyError "name"))
  /\ (forall (name : value) (options : list value),
        database !! "name" = Some name ->
        split_if_present database "options" = Returns options ->
        exists flags,
          forall (dump_filename : string) (dump_format : value),
            mongodb.build_dump_command database dump_filename dump_format
            = Returns
                ([VStr "mongodump"]
                 ++ (if bool_decide (dump_format = VStr "directory")
                     then [VStr "--out"; VStr dump_filename] else [])
                 ++ flags
                 ++ (if bool_decide (name = VStr "all") then []
                     else [VStr "--db"; name])
                 ++ options
                 ++ (if bool_decide (dump_format = VStr "directory") then []
                     else [VStr "--archive"; VStr ">"; VStr dump_filename]))).
Proof.
  split.
  - intros Hname dump_filename dump_format. unfold mongodb.build_dump_command.
    by rewrite (getitem_None _ _ Hname).
  - intros name options Hname Hoptions.
    exists (match database !! "hostname" with
            | Some v => [VStr "--host"; v]
            | None => []
            end
            ++ match database !! "port" with
               | Some v => [VStr "--port"; VStr (py_str v)]
               | None => []
               end
            ++ match database !! "username" with
               | Some v => [VStr "--username"; v]
               | None => []
               end
            ++ match database !! "password" with
               | Some v => [VStr "--password"; v]
               | None => []
               end
            ++ match database !! "authentication_database" with
               | Some v => [VStr "--authenticationDatabase"; v]
               | None => []
               end).
    intros dump_filename dump_format. unfold mongodb.build_dump_command.
    rewrite !flag_if_present_eq, str_flag_if_present_eq, Hoptions,
      (getitem_Some _ _ _ Hname). cbn [obind].
    rewrite !py_eq_str_decide.
    destruct (bool_decide (name = VStr "all")),
      (bool_decide (dump_format = VStr "directory")); cbn [negb obind];
      by rewrite <- !app_assoc.
Qed.

(** X8.  [split_if_present] gives no word for a key that the entry lacks.
    For a key whose value is a str it gives at least one word, none of its
    words holds a space, and joining them with single spaces gives the value
    back.  For a key with any other value it raises [AttributeError]. *)
Theorem split_if_present_words (database : dict) (key : string) :
  (database !! key = None -> split_if_present database key = Returns [])
  /\ (forall s,
        database !! key = Some (VStr s) ->
        exists words,
          split_if_present database key = Returns (VStr <$> words)
          /\ words ≠ []
          /\ Forall (free_of " "%char) words
          /\ String.concat " " words = s)
  /\ (forall v,
        database !! key = Some v ->
        (forall s, v ≠ VStr s) ->
        split_if_present database key = Raises (AttributeError "split")).
Proof.
  rewrite split_if_present_eq. repeat split.
  - by intros ->.
  - intros s ->. exists (split_on " "%char s). simpl.
    split; [done|]. split; [apply split_on_not_nil|].
    split; [apply split_on_pieces_free|apply (concat_split_on " "%char)].
  - intros v -> Hv. destruct v; try done. by destruct (Hv s).
Qed.

End dump_commands.

(** ** Restores, step by step *)

Section restore_runs.
Context `{Externals}.

Lemma harmless_raise {A} (e : exn) (w : World) : harmless (raise (A := A) e) w.
Proof. by split; [|constructor]. Qed.

Ltac harmless_step :=
  lazymatch goal with
  | |- harmless (bind _ _) _ => apply harmless_bind; [|intros ?]
  | |- harmless (lift _) _ => apply harmless_lift
  | |- harmless (log _ _) _ => apply harmless_log
  | |- harmless (ret _) _ => apply harmless_ret
  | |- harmless (raise _) _ => apply harmless_raise
  | |- harmless (if true then _ else _) _ => cbn iota
  | |- harmless (match ?p with _ => _ end) _ => destruct p
  end.

(** X9.  In a dry run, [restore_database_dump] of each of the three hooks
    leaves the world as it is and neither launches a command nor writes to the
    filesystem, whatever the configuration, the extract process and the
    connection parameters are. *)
Theorem restore_database_dump_dry_run (databases_config : list dict) (config : dict)
  (log_prefix database_name : string) (extract_process : option Process)
  (connection_params : dict) (w : World) :
  harmless (postgresql.restore_database_dump databases_config config log_prefix
              database_name true extract_process connection_params) w
  /\ harmless (mongodb.restore_database_dump databases_config config log_prefix
                 database_name true extract_process connection_params) w
  /\ harmless (sqlite.restore_database_dump databases_config config log_prefix
                 database_name true extract_process connection_params) w.
Proof.
  unfold postgresql.restore_database_dump, mongodb.restore_database_dump,
    sqlite.restore_database_dump.
  destruct (find_database databases_config database_name) as [database|];
    (split; [|split]); try apply harmless_raise; repeat harmless_step.
Qed.

(** X10.  Outside of a dry run, the PostgreSQL [restore_database_dump] of an
    entry whose commands can be built launches the restore command, with the
    extract process and its output if there is one, and with the environment of
    the entry.  If that launch raises, the error is the result and nothing else
    is launched; if it returns, the analyze command is launched next with the
    same environment, and the result of the restore is the result of that
    launch. *)
Theorem postgresql_restore_then_analyze (databases_config : list dict)
  (config : dict) (log_prefix database_name : string)
  (extract_process : option Process) (connection_params database : dict)
  (restore analyze : list value) (extra_environment : dict) (w w1 : World)
  (restored : outcome unit) :
  find_database databases_config database_name = Some database ->
  postgresql.restore_plan database config connection_params extract_process
  = Returns (restore, analyze, extra_environment) ->
  let processes := match extract_process with Some p => [p] | None => [] end in
  let input_file := stdout <$> extract_process in
  execute_command_with_processes restore processes input_file
    (Some extra_environment) w = (w1, restored) ->
  let run := postgresql.restore_database_dump databases_config config log_prefix
               database_name false extract_process connection_params w in
  let launch :=
    ExecuteWithProcesses restore processes input_file (Some extra_environment) in
  (forall e,
     restored = Raises e ->
     world_after run = w1 /\ result_of run = Raises e
     /\ filter side_effect (events_of run) = [launch])
  /\ (restored = Returns tt ->
      forall w2 analyzed,
        execute_command analyze None (Some extra_environment) None w1
        = (w2, analyzed) ->
        world_after run = w2
        /\ result_of run = match analyzed with
                           | Returns _ => Returns tt
                           | Raises e => Raises e
                           end
        /\ filter side_effect (events_of run)
           = [launch; Execute analyze None (Some extra_environment) None]).
Proof.
  intros Hfind Hplan processes input_file Hrestore run launch. subst run launch.
  destruct (find_database_Some _ _ _ Hfind) as [_ Hname].
  unfold postgresql.restore_database_dump, bind, lift, ret, log, call, world_after,
    events_of, result_of.
  rewrite Hfind, Hplan. simpl. rewrite (getitem_Some _ _ _ Hname). simpl.
  assert (Hprocesses : match extract_process with Some p => [p] | None => [] end
                       = processes) by done.
  assert (Hinput : match extract_process with
                   | Some p => Some (stdout p)
                   | None => None
                   end = input_file) by by destruct extract_process.
  rewrite Hprocesses, Hinput, Hrestore. split.
  - by intros e ->.
  - intros -> w2 analyzed Hanalyze. rewrite Hanalyze. by destruct analyzed.
Qed.

End restore_runs.

Section restore_details.
Context `{Externals}.

(** X11.  With an extract process, the restore commands of MongoDB and
    PostgreSQL do not depend on the dump filename; without one, the dump
    filename is a word of both. *)
Theorem restore_from_stream_ignores_dump_filename (database : dict)
  (process : Process) (dump_filename other_filename : string) :
  (forall connection_params,
     mongodb.build_restore_command (Some process) database dump_filename
       connection_params
     = mongodb.build_restore_command (Some process) database other_filename
         connection_params)
  /\ (forall psql_command hostname port username all_databases,
        postgresql.restore_command database psql_command hostname port username
          all_databases dump_filename (Some process)
        = postgresql.restore_command database psql_command hostname port username
            all_databases other_filename (Some process))
  /\ (forall connection_params command,
        mongodb.build_restore_command None database dump_filename connection_params
        = Returns command ->
        VStr dump_filename ∈ command)
  /\ (forall psql_command hostname port username all_databases command,
        postgresql.restore_command database psql_command hostname port username
          all_databases dump_filename None = Returns command ->
        VStr dump_filename ∈ command).
Proof.
  split; [|split; [|split]].
  - intros connection_params. by rewrite !mongodb_build_restore_command_eq.
  - done.
  - intros connection_params command Hcommand.
    apply mongodb_build_restore_command_Returns in Hcommand
      as (? & ? & ? & ? & ? & ? & ? & ? & _ & _ & _ & _ & _ & _ & _ & _ & ->).
    unfold mongorestore_command. set_solver.
  - intros psql_command hostname port username all_databases command.
    unfold postgresql.restore_command.
    destruct (py_shlex_split _); [|done]. cbn [obind].
    destruct (if negb all_databases then _ else _); [|done]. cbn [obind].
    destruct (split_if_present database "restore_options"); [|done]. cbn [obind].
    destruct (if truthy (dict_get database "schemas" VNone) then _ else _); [|done].
    cbn [obind]. intros [= <-]. rewrite !elem_of_app. set_solver.
Qed.

(** X12.  The PostgreSQL restore command.  An error of splitting the
    configured [pg_restore_command] (or [pg_restore] without one) is raised
    also when [psql] is used for the restore.  A command that is built starts
    with the [psql] command followed by [--no-password --no-psqlrc] when all
    databases are restored or the format of the entry is [plain], and otherwise
    with the split restore command followed by [--no-password --if-exists
    --exit-on-error --clean]. *)
Theorem postgresql_restore_program (database : dict) (psql_command : list value)
  (hostname port username : value) (all_databases : bool) (dump_filename : string)
  (extract_process : option Process) :
  let configured :=
    py_or (dict_get database "pg_restore_command" VNone) (VStr "pg_restore") in
  (forall e,
     py_shlex_split configured = Raises e ->
     postgresql.restore_command database psql_command hostname port username
       all_databases dump_filename extract_process = Raises e)
  /\ (forall command,
        postgresql.restore_command database psql_command hostname port username
          all_databases dump_filename extract_process = Returns command ->
        exists pg_restore_command rest,
          py_shlex_split configured = Returns pg_restore_command
          /\ command
             = (if all_databases
                   || bool_decide (database !! "format" = Some (VStr "plain"))
                then psql_command ++ [VStr "--no-password"; VStr "--no-psqlrc"]
                else pg_restore_command
                     ++ [VStr "--no-password"; VStr "--if-exists";
                         VStr "--exit-on-error"; VStr "--clean"])
               ++ rest).
Proof.
  intros configured. subst configured. unfold postgresql.restore_command. split.
  - by intros e ->.
  - intros command.
    destruct (py_shlex_split _) as [pg_restore_command|]; [|done]. cbn [obind].
    destruct (if negb all_databases then _ else _) as [dbname|]; [|done].
    cbn [obind].
    destruct (split_if_present database "restore_options") as [options|]; [|done].
    cbn [obind].
    destruct (if truthy (dict_get database "schemas" VNone) then _ else _)
      as [schemas|]; [|done].
    cbn [obind]. intros [= <-].
    assert (Hplain : py_eq (dict_get database "format" VNone) (VStr "plain")
                     = bool_decide (database !! "format" = Some (VStr "plain"))).
    { rewrite py_eq_str_decide. unfold dict_get.
      destruct (database !! "format") as [v|]; [|done].
      apply bool_decide_ext. split; congruence. }
    rewrite Hplain. eexists pg_restore_command, _. split; [done|].
    destruct (all_databases || _); by rewrite <- !app_assoc.
Qed.

(** X13.  Outside of a dry run and with an extract process, the SQLite
    [restore_database_dump] first removes the database file at the restore
    path.  When the removal succeeds it logs a warning and launches [sqlite3];
    when the file is missing it launches [sqlite3] without a warning; when the
    removal raises any other error, that error is the result and nothing is
    launched. *)
Theorem sqlite_restore_removes_then_restores (databases_config : list dict)
  (config : dict) (log_prefix database_name : string) (process : Process)
  (connection_params database : dict) (given : value) (w w1 : World)
  (removed : outcome unit) :
  find_database databases_config database_name = Some database ->
  connection_params !! "restore_path" = Some given ->
  let database_path :=
    py_or given (dict_get database "restore_path" (dict_get database "path" VNone)) in
  os_remove database_path w = (w1, removed) ->
  let run := sqlite.restore_database_dump databases_config config log_prefix
               database_name false (Some process) connection_params w in
  let launch :=
    ExecuteWithProcesses [VStr "sqlite3"; database_path] [process]
      (Some (stdout process)) None in
  let restored :=
    execute_command_with_processes [VStr "sqlite3"; database_path] [process]
      (Some (stdout process)) None w1 in
  let warned :=
    exists message, Log WARNING message ∈ events_of run in
  (removed = Returns tt ->
   world_after run = restored.1 /\ result_of run = restored.2
   /\ filter side_effect (events_of run) = [Remove database_path; launch]
   /\ warned)
  /\ (removed = Raises FileNotFoundError ->
      world_after run = restored.1 /\ result_of run = restored.2
      /\ filter side_effect (events_of run) = [Remove database_path; launch]
      /\ ~ warned)
  /\ (forall e,
        removed = Raises e ->
        e ≠ FileNotFoundError ->
        world_after run = w1 /\ result_of run = Raises e
        /\ filter side_effect (events_of run) = [Remove database_path]
        /\ ~ warned).
Proof.
  intros Hfind Hgiven database_path Hremove run launch restored warned.
  subst run launch restored warned.
  destruct (execute_command_with_processes [VStr "sqlite3"; database_path] [process]
              (Some (stdout process)) None w1) as [w2 r2] eqn:Hrestore.
  unfold sqlite.restore_database_dump, bind, lift, ret, log, call,
    sqlite.remove_existing, world_after, events_of, result_of.
  rewrite Hfind, (getitem_Some _ _ _ Hgiven). simpl. fold database_path.
  rewrite Hremove.
  split; [|split].
  - intros ->. simpl. rewrite Hrestore. simpl. repeat split.
    eexists. rewrite !elem_of_cons. eauto.
  - intros ->. simpl. rewrite Hrestore. simpl. repeat split.
    intros [logged Hin]. rewrite !elem_of_cons, elem_of_nil in Hin.
    by repeat destruct Hin as [Hin|Hin].
  - intros e -> He. destruct e; try done; simpl; repeat split;
      intros [logged Hin]; rewrite !elem_of_cons, elem_of_nil in Hin;
      by repeat destruct Hin as [Hin|Hin].
Qed.

(** X14.  [find_database] gives the first entry of the configuration
    sequence whose name is the requested one, also when later entries have the
    same name. *)
Theorem find_database_first_match (before after : list dict) (database : dict)
  (database_name : string) :
  database !! "name" = Some (VStr database_name) ->
  Forall (fun database_config =>
            database_config !! "name" ≠ Some (VStr database_name)) before ->
  find_database (before ++ database :: after) database_name = Some database.
Proof.
  intros Hname Hbefore. unfold find_database, first_match.
  induction Hbefore as [|database_config before Hother _ IH]; simpl.
  - rewrite (dict_get_Some _ _ _ _ Hname).
    by rewrite (proj2 (py_eq_str _ _) eq_refl).
  - rewrite IH.
    destruct (py_eq (dict_get database_config "name" VNone) (VStr database_name))
      eqn:Heq; [|done].
    apply py_eq_str in Heq. unfold dict_get in Heq.
    destruct (database_config !! "name"); congruence.
Qed.

End restore_details.

(** ** What a hook emits *)

Section dump_events.
Context `{Externals}.

Lemma emits_bind {A B} (P : event -> Prop) (m : M A) (k : A -> M B) (w : World) :
  emits P (m w) ->
  (forall a w1, result_of (m w) = Returns a -> emits P (k a w1)) ->
  emits P (bind m k w).
Proof.
  unfold emits, events_of, result_of, bind. intros Hm Hk.
  destruct (m w) as [[w1 evs1] [a|e]]; [|done].
  specialize (Hk a w1 eq_refl). destruct (k a w1) as [[w2 evs2] r]. simpl in *.
  by apply Forall_app.
Qed.

Lemma emits_nothing {A} (P : event -> Prop) (w : World) (r : outcome A) :
  emits P (w, [], r).
Proof. constructor. Qed.

Lemma emits_one {A} (P : event -> Prop) (e : event)
  (f : World -> World * outcome A) (w : World) :
  P e -> emits P (call e f w).
Proof.
  intros He. unfold emits, events_of, call. destruct (f w). by repeat constructor.
Qed.

Lemma emits_log (P : event -> Prop) (level : log_level) (message : list value)
  (w : World) :
  P (Log level message) -> emits P (log level message w).
Proof. intros He. by repeat constructor. Qed.

Lemma emits_path_exists (P : event -> Prop) (path : value) (w : World) :
  P (PathExists path) -> emits P (path_exists path w).
Proof. intros He. by repeat constructor. Qed.

Lemma emits_for_each {A B} (P : event -> Prop) (body : A -> B -> M B)
  (xs : list A) :
  (forall x acc w, emits P (body x acc w)) ->
  forall acc w, emits P (for_each body xs acc w).
Proof.
  intros Hbody. induction xs as [|x xs IH]; intros acc w; [constructor|].
  simpl. apply emits_bind; [apply Hbody|]. intros. apply IH.
Qed.

Ltac emits_step :=
  lazymatch goal with
  | |- emits _ (bind _ _ _) => apply emits_bind; [|intros ? ? ?]
  | |- emits _ (lift _ _) => apply emits_nothing
  | |- emits _ (ret _ _) => apply emits_nothing
  | |- emits _ (raise _ _) => apply emits_nothing
  | |- emits _ (log _ _ _) => by apply emits_log
  | |- emits _ (path_exists _ _) => by apply emits_path_exists
  | |- emits _ ((if ?b then _ else _) _) => destruct b eqn:?
  end.

Lemma sqlite_dump_database_emits (config : dict) (log_prefix : string)
  (dry_run : bool) (database : dict) (processes : list Process) (w : World) :
  emits sqlite_dump_event
    (sqlite.dump_database config log_prefix dry_run database processes w).
Proof.
  unfold sqlite.dump_database. repeat emits_step.
  - by apply emits_one.
  - apply emits_one. simpl. eauto 10.
Qed.

Lemma mongodb_build_dump_command_head (database : dict) (dump_filename : string)
  (dump_format : value) (command : list value) :
  mongodb.build_dump_command database dump_filename dump_format = Returns command ->
  head command = Some (VStr "mongodump").
Proof.
  unfold mongodb.build_dump_command.
  rewrite !flag_if_present_eq, str_flag_if_present_eq.
  destruct (getitem database "name"); [|done]. cbn [obind].
  destruct (if negb _ then _ else _); [|done]. cbn [obind].
  destruct (split_if_present database "options"); [|done]. cbn [obind].
  by intros [= <-].
Qed.

Lemma mongodb_dump_database_emits (config : dict) (log_prefix : string)
  (dry_run : bool) (database : dict) (processes : list Process) (w : World) :
  emits mongodb_dump_event
    (mongodb.dump_database config log_prefix dry_run database processes w).
Proof.
  unfold mongodb.dump_database. repeat emits_step.
  all: apply emits_one; try done.
  all: match goal with
       | Hcommand : result_of (lift (mongodb.build_dump_command _ _ _) _) = _ |- _ =>
           apply mongodb_build_dump_command_head in Hcommand
       end; done.
Qed.

Lemma make_extra_environment_sslmode (database : dict) (params : option dict)
  (extra : dict) :
  postgresql.make_extra_environment database params = Returns extra ->
  is_Some (extra !! "PGSSLMODE").
Proof.
  rewrite make_extra_environment_eq. intros [= <-].
  rewrite !lookup_copied_ne, lookup_insert_eq by done. by eexists.
Qed.

Lemma postgresql_dump_database_name_emits (database extra_environment : dict)
  (dump_path log_prefix : string) (dry_run : bool) (database_name : value)
  (processes : list Process) (w : World) :
  is_Some (extra_environment !! "PGSSLMODE") ->
  emits postgresql_dump_event
    (postgresql.dump_database_name database extra_environment dump_path log_prefix
       dry_run database_name processes w).
Proof.
  intros Hmode. unfold postgresql.dump_database_name. repeat emits_step.
  all: by apply emits_one.
Qed.

Lemma postgresql_database_names_to_dump_emits (database extra_environment : dict)
  (log_prefix : string) (dry_run : bool) (w : World) :
  is_Some (extra_environment !! "PGSSLMODE") ->
  emits postgresql_dump_event
    (postgresql.database_names_to_dump database extra_environment log_prefix
       dry_run w).
Proof.
  intros Hmode. unfold postgresql.database_names_to_dump. repeat emits_step.
  by apply emits_one.
Qed.

Lemma postgresql_dump_database_emits (config : dict) (log_prefix : string)
  (dry_run : bool) (database : dict) (processes : list Process) (w : World) :
  emits postgresql_dump_event
    (postgresql.dump_database config log_prefix dry_run database processes w).
Proof.
  unfold postgresql.dump_database.
  apply emits_bind; [emits_step|]. intros extra_environment w1 Hextra.
  apply make_extra_environment_sslmode in Hextra.
  apply emits_bind; [emits_step|]. intros dump_path w2 _.
  apply emits_bind; [by apply postgresql_database_names_to_dump_emits|].
  intros names w3 _. destruct names; [repeat emits_step|].
  apply emits_for_each. intros. by apply postgresql_dump_database_name_emits.
Qed.

(** X15.  Whatever the configuration is, [dump_databases] of each hook emits
    only events of its own kind.  PostgreSQL: every launch goes through a shell
    and every launch and query carries an environment that sets [PGSSLMODE].
    MongoDB: every launch is of [mongodump] through a shell without an
    environment, and no existence check is made.  SQLite: every launch is of
    [sqlite3 <path> .dump > <dump_filename>] through a shell, without an
    environment and without blocking, and no named pipe is created.  None of
    them removes a file or launches with dependent processes. *)
Theorem dump_databases_events (databases : list dict) (config : dict)
  (log_prefix : string) (dry_run : bool) (w : World) :
  emits postgresql_dump_event
    (postgresql.dump_databases databases config log_prefix dry_run w)
  /\ emits mongodb_dump_event
       (mongodb.dump_databases databases config log_prefix dry_run w)
  /\ emits sqlite_dump_event
       (sqlite.dump_databases databases config log_prefix dry_run w).
Proof.
  unfold postgresql.dump_databases, mongodb.dump_databases, sqlite.dump_databases.
  split; [|split].
  all: apply emits_bind; [by apply emits_log|]; intros _ w1 _; apply emits_for_each.
  - apply postgresql_dump_database_emits.
  - apply mongodb_dump_database_emits.
  - apply sqlite_dump_database_emits.
Qed.

Lemma prepared_after_weaken (previous : option event) (events : list event) :
  prepared_after None events -> prepared_after previous events.
Proof. destruct events as [|e events]; [done|]. intros [He Hrest]. by destruct e. Qed.

Lemma prepared_after_app (previous : option event) (events events' : list event) :
  prepared_after previous events ->
  prepared_after None events' ->
  prepared_after previous (events ++ events').
Proof.
  revert previous. induction events as [|e events IH]; intros previous.
  - intros _. apply prepared_after_weaken.
  - intros [He Hrest] Hevents'. split; [done|]. by apply IH.
Qed.

Lemma prepared_bind {A B} (m : M A) (k : A -> M B) (w : World) :
  prepared (m w) ->
  (forall a w1, result_of (m w) = Returns a -> prepared (k a w1)) ->
  prepared (bind m k w).
Proof.
  unfold prepared, events_of, result_of, bind. intros Hm Hk.
  destruct (m w) as [[w1 evs1] [a|e]]; [|done].
  specialize (Hk a w1 eq_refl). destruct (k a w1) as [[w2 evs2] r]. simpl in *.
  by apply prepared_after_app.
Qed.

Lemma prepared_nothing {A} (w : World) (r : outcome A) : prepared (w, [], r).
Proof. done. Qed.

Lemma prepared_log (level : log_level) (message : list value) (w : World) :
  prepared (log level message w).
Proof. done. Qed.

Lemma prepared_path_exists (path : value) (w : World) : prepared (path_exists path w).
Proof. done. Qed.

(** A preparation followed by the launch it prepares, with nothing after. *)
Lemma prepared_launch {B} (prepare : event) (f : World -> World * outcome unit)
  (command : list value) (shell : option bool) (extra_environment : option dict)
  (rtc : option bool) (g : World -> World * outcome Process) (k : Process -> B)
  (w : World) :
  prepares None prepare ->
  prepares (Some prepare) (Execute command shell extra_environment rtc) ->
  prepared (bind (call prepare f)
              (fun _ => bind (call (Execute command shell extra_environment rtc) g)
                          (fun process => ret (k process))) w).
Proof.
  intros Hprepare Hlaunch. unfold prepared, events_of, bind, call, ret.
  destruct (f w) as [w1 [[]|e]]; [|done].
  destruct (g w1) as [w2 [process|e]]; done.
Qed.

Ltac prepared_step :=
  lazymatch goal with
  | |- prepared (bind (call _ _) _ _) => idtac
  | |- prepared (bind _ _ _) => apply prepared_bind; [|intros ? ? ?]
  | |- prepared (lift _ _) => apply prepared_nothing
  | |- prepared (ret _ _) => apply prepared_nothing
  | |- prepared (raise _ _) => apply prepared_nothing
  | |- prepared (log _ _ _) => apply prepared_log
  | |- prepared (path_exists _ _) => apply prepared_path_exists
  | |- prepared ((if ?b then _ else _) _) => destruct b eqn:?
  end.

Lemma postgresql_command_destination (database : dict) (database_name : value)
  (dump_filename : string) (command : list value) :
  postgresql.command database database_name dump_filename = Returns command ->
  if py_eq (postgresql.dump_format database database_name) (VStr "directory")
  then VStr dump_filename ∈ command
  else last command = Some (VStr dump_filename).
Proof.
  unfold postgresql.command.
  rewrite !flag_if_present_eq, str_flag_if_present_eq. cbn [obind].
  destruct (split_if_present database "options"); [|done]. cbn [obind].
  intros [= <-].
  destruct (py_eq (postgresql.dump_format database database_name) (VStr "directory"));
    cbn [negb].
  - repeat (rewrite elem_of_cons || rewrite elem_of_app). by intuition.
  - cbv zeta. rewrite !app_assoc.
    change [VStr ">"; VStr dump_filename] with ([VStr ">"] ++ [VStr dump_filename]).
    rewrite app_assoc, ?app_comm_cons. apply last_snoc.
Qed.

Lemma mongodb_command_destination (database : dict) (dump_filename : string)
  (dump_format : value) (command : list value) :
  mongodb.build_dump_command database dump_filename dump_format = Returns command ->
  if py_eq dump_format (VStr "directory")
  then VStr dump_filename ∈ command
  else last command = Some (VStr dump_filename).
Proof.
  unfold mongodb.build_dump_command.
  rewrite !flag_if_present_eq, str_flag_if_present_eq.
  destruct (getitem database "name"); [|done]. cbn [obind].
  destruct (if negb _ then _ else _); [|done]. cbn [obind].
  destruct (split_if_present database "options"); [|done]. cbn [obind].
  intros [= <-]. destruct (py_eq dump_format (VStr "directory")); cbn [negb].
  - repeat (rewrite elem_of_cons || rewrite elem_of_app). by intuition.
  - rewrite !app_assoc.
    change [VStr "--archive"; VStr ">"; VStr dump_filename]
      with ([VStr "--archive"; VStr ">"] ++ [VStr dump_filename]).
    rewrite app_assoc, ?app_comm_cons. apply last_snoc.
Qed.

Lemma postgresql_dump_database_name_prepared (database extra_environment : dict)
  (dump_path log_prefix : string) (dry_run : bool) (database_name : value)
  (processes : list Process) (w : World) :
  prepared
    (postgresql.dump_database_name database extra_environment dump_path log_prefix
       dry_run database_name processes w).
Proof.
  unfold postgresql.dump_database_name. repeat prepared_step.
  all: match goal with
       | Hcommand : result_of (lift (postgresql.command _ _ _) _) = _ |- _ =>
           apply postgresql_command_destination in Hcommand
       end.
  all: match goal with
       | Hformat : py_eq _ _ = _ |- _ => rewrite Hformat in *
       end.
  - by apply (prepared_launch _ _ _ _ _ _ _ (fun _ => processes)).
  - by apply (prepared_launch _ _ _ _ _ _ _ (fun process => processes ++ [process])).
Qed.

Lemma mongodb_dump_database_prepared (config : dict) (log_prefix : string)
  (dry_run : bool) (database : dict) (processes : list Process) (w : World) :
  prepared (mongodb.dump_database config log_prefix dry_run database processes w).
Proof.
  unfold mongodb.dump_database. repeat prepared_step.
  all: match goal with
       | Hcommand : result_of (lift (mongodb.build_dump_command _ _ _) _) = _ |- _ =>
           apply mongodb_command_destination in Hcommand
       end.
  all: match goal with
       | Hformat : py_eq _ _ = _ |- _ => rewrite Hformat in *
       end.
  - by apply (prepared_launch _ _ _ _ _ _ _ (fun _ => processes)).
  - by apply (prepared_launch _ _ _ _ _ _ _ (fun process => processes ++ [process])).
Qed.

Lemma sqlite_dump_database_prepared (config : dict) (log_prefix : string)
  (dry_run : bool) (database : dict) (processes : list Process) (w : World) :
  prepared (sqlite.dump_database config log_prefix dry_run database processes w).
Proof.
  unfold sqlite.dump_database. repeat prepared_step.
  apply (prepared_launch _ _ _ _ _ _ _ (fun process => processes ++ [process]));
    [done|]. simpl. rewrite !elem_of_cons. by intuition.
Qed.

Lemma prepared_for_each {A B} (body : A -> B -> M B) (xs : list A) :
  (forall x acc w, prepared (body x acc w)) ->
  forall acc w, prepared (for_each body xs acc w).
Proof.
  intros Hbody. induction xs as [|x xs IH]; intros acc w; [done|].
  simpl. apply prepared_bind; [apply Hbody|]. intros. apply IH.
Qed.

Lemma postgresql_database_names_to_dump_prepared (database extra_environment : dict)
  (log_prefix : string) (dry_run : bool) (w : World) :
  prepared (postgresql.database_names_to_dump database extra_environment log_prefix
              dry_run w).
Proof.
  unfold postgresql.database_names_to_dump. repeat prepared_step.
  unfold prepared, events_of, bind, call, lift.
  destruct (execute_command_and_capture_output _ _ _) as [w' [output|]]; [|done].
  by destruct (let '(rows, stop) := csv_reader (splitlines output) in
               postgresql.names_of_rows rows stop).
Qed.

(** X16.  Whatever the configuration is, every launch that [dump_databases]
    of a hook makes comes directly after the creation of a named pipe, and is
    then without blocking and ends with that pipe as its redirection target, or
    directly after the creation of the parent directory of a dump filename that
    is a word of the launched command. *)
Theorem dump_databases_prepared (databases : list dict) (config : dict)
  (log_prefix : string) (dry_run : bool) (w : World) :
  prepared (postgresql.dump_databases databases config log_prefix dry_run w)
  /\ prepared (mongodb.dump_databases databases config log_prefix dry_run w)
  /\ prepared (sqlite.dump_databases databases config log_prefix dry_run w).
Proof.
  unfold postgresql.dump_databases, mongodb.dump_databases, sqlite.dump_databases.
  split; [|split].
  all: apply prepared_bind; [apply prepared_log|]; intros _ w1 _;
    apply prepared_for_each.
  - intros database processes w2. unfold postgresql.dump_database.
    apply prepared_bind; [prepared_step|]. intros extra_environment w3 _.
    apply prepared_bind; [prepared_step|]. intros dump_path w4 _.
    apply prepared_bind; [apply postgresql_database_names_to_dump_prepared|].
    intros names w5 _. destruct names; [repeat prepared_step|].
    apply prepared_for_each. intros.
    apply postgresql_dump_database_name_prepared.
  - apply mongodb_dump_database_prepared.
  - apply sqlite_dump_database_prepared.
Qed.

End dump_events.

Section restore_events.
Context `{Externals}.

Ltac emits_step :=
  lazymatch goal with
  | |- emits _ (bind _ _ _) => apply emits_bind; [|intros ? ? ?]
  | |- emits _ (lift _ _) => apply emits_nothing
  | |- emits _ (ret _ _) => apply emits_nothing
  | |- emits _ (raise _ _) => apply emits_nothing
  | |- emits _ (log _ _ _) => by apply emits_log
  | |- emits _ (path_exists _ _) => by apply emits_path_exists
  | |- emits _ ((if ?b then _ else _) _) => destruct b eqn:?
  end.

Lemma analyze_command_last (database : dict) (psql_command : list value)
  (hostname port username : value) (all_databases : bool) (command : list value) :
  postgresql.analyze_command database psql_command hostname port username
    all_databases = Returns command ->
  last command = Some (VStr "ANALYZE").
Proof.
  unfold postgresql.analyze_command.
  destruct (if negb all_databases then _ else _); [|done]. cbn [obind].
  destruct (split_if_present database "analyze_options"); [|done]. cbn [obind].
  intros [= <-].
  change [VStr "--command"; VStr "ANALYZE"]
    with ([VStr "--command"] ++ [VStr "ANALYZE"]).
  repeat (rewrite app_comm_cons || rewrite app_assoc). apply last_snoc.
Qed.

Lemma restore_plan_analyze_last (database config connection_params : dict)
  (extract_process : option Process) (restore analyze : list value)
  (extra_environment : dict) :
  postgresql.restore_plan database config connection_params extract_process
  = Returns (restore, analyze, extra_environment) ->
  last analyze = Some (VStr "ANALYZE").
Proof.
  unfold postgresql.restore_plan, obind. intros Hplan.
  repeat (case_match; simplify_eq/=; try done).
  by eapply analyze_command_last.
Qed.

(** X17.  Whatever the configuration is, [restore_database_dump] of each
    hook emits only events of its own kind.  A restore launch has the extract
    process as its only dependency and the output of that process as its input,
    or neither without an extract process; it carries an environment for
    PostgreSQL and none for MongoDB and SQLite.  Only SQLite removes a file;
    only PostgreSQL launches a second command, which ends with [ANALYZE] and
    carries an environment; and no restore creates a directory or a pipe,
    checks a path or captures output. *)
Theorem restore_database_dump_events (databases_config : list dict) (config : dict)
  (log_prefix database_name : string) (dry_run : bool)
  (extract_process : option Process) (connection_params : dict) (w : World) :
  emits (restore_event extract_process false true true)
    (postgresql.restore_database_dump databases_config config log_prefix
       database_name dry_run extract_process connection_params w)
  /\ emits (restore_event extract_process false false false)
       (mongodb.restore_database_dump databases_config config log_prefix
          database_name dry_run extract_process connection_params w)
  /\ emits (restore_event extract_process true false false)
       (sqlite.restore_database_dump databases_config config log_prefix
          database_name dry_run extract_process connection_params w).
Proof.
  unfold postgresql.restore_database_dump, mongodb.restore_database_dump,
    sqlite.restore_database_dump.
  destruct (find_database databases_config database_name) as [database|];
    [|by repeat split; constructor].
  split; [|split].
  - apply emits_bind; [emits_step|]. intros [[restore analyze] extra_environment] w1
      Hplan.
    apply restore_plan_analyze_last in Hplan.
    repeat emits_step.
    + apply emits_one. simpl. destruct extract_process; naive_solver.
    + apply emits_one. simpl. naive_solver.
  - repeat emits_step. apply emits_one. simpl.
    destruct extract_process; repeat split; try done;
      by intros [? ?].
  - repeat emits_step.
    + unfold emits, events_of, sqlite.remove_existing.
      destruct (os_remove _ _) as [w' [[]|e]]; [|destruct e]; by repeat constructor.
    + destruct extract_process as [process|]; [|constructor].
      apply emits_one. simpl. repeat split; try done; by intros [? ?].
Qed.

(** X18.  Every command that the PostgreSQL hook builds holds
    [--no-password]: the listing command, the dump command, the restore command
    and the analyze command. *)
Theorem postgresql_commands_never_prompt (database : dict) :
  (forall command,
     postgresql.list_command database = Returns command ->
     VStr "--no-password" ∈ command)
  /\ (forall database_name dump_filename command,
        postgresql.command database database_name dump_filename = Returns command ->
        VStr "--no-password" ∈ command)
  /\ (forall config connection_params extract_process restore analyze
             extra_environment,
        postgresql.restore_plan database config connection_params extract_process
        = Returns (restore, analyze, extra_environment) ->
        VStr "--no-password" ∈ restore /\ VStr "--no-password" ∈ analyze).
Proof.
  split; [|split].
  - intros command. unfold postgresql.list_command.
    rewrite !flag_if_present_eq, str_flag_if_present_eq.
    destruct (py_shlex_split _); [|done]. cbn [obind].
    destruct (split_if_present database "list_options"); [|done]. cbn [obind].
    intros [= <-]. repeat (rewrite elem_of_cons || rewrite elem_of_app). by intuition.
  - intros database_name dump_filename command. unfold postgresql.command.
    rewrite !flag_if_present_eq, str_flag_if_present_eq. cbn [obind].
    destruct (split_if_present database "options"); [|done]. cbn [obind].
    intros [= <-]. repeat (rewrite elem_of_cons || rewrite elem_of_app). by intuition.
  - intros config connection_params extract_process restore analyze extra_environment.
    unfold postgresql.restore_plan, obind. intros Hplan.
    repeat (case_match; simplify_eq/=; try done).
    split.
    + match goal with
      | Hrestore : postgresql.restore_command _ _ _ _ _ _ _ _ = Returns _ |- _ =>
          unfold postgresql.restore_command, obind in Hrestore;
          repeat (case_match; simplify_eq/=; try done)
      end.
      all: repeat (rewrite elem_of_cons || rewrite elem_of_app); by intuition.
    + match goal with
      | Hanalyze : postgresql.analyze_command _ _ _ _ _ _ = Returns _ |- _ =>
          unfold postgresql.analyze_command, obind in Hanalyze;
          repeat (case_match; simplify_eq/=; try done)
      end.
      all: repeat (rewrite elem_of_cons || rewrite elem_of_app); by intuition.
Qed.

(** X19.  A MongoDB restore command that is built is [mongorestore], then
    [--archive] with an extract process and [--dir] with the dump filename
    without one, then [--drop --db] and the name unless the name is [all],
    then the connection flags, then [--authenticationDatabase] with its value
    exactly when the entry has the key, then the split [restore_options], and
    then [--nsInclude] flags, of which there are none when the [schemas] of the
    entry are falsy. *)
Theorem mongodb_restore_command_shape (extract_process : option Process)
  (database : dict) (dump_filename : string) (connection_params : dict)
  (command : list value) :
  mongodb.build_restore_command extract_process database dump_filename
    connection_params = Returns command ->
  exists name connection options schemas,
    database !! "name" = Some name
    /\ command
       = [VStr "mongorestore"]
         ++ match extract_process with
            | Some _ => [VStr "--archive"]
            | None => [VStr "--dir"; VStr dump_filename]
            end
         ++ (if bool_decide (name = VStr "all") then []
             else [VStr "--drop"; VStr "--db"; name])
         ++ connection
         ++ match database !! "authentication_database" with
            | Some v => [VStr "--authenticationDatabase"; v]
            | None => []
            end
         ++ options
         ++ concat ((fun schema => [VStr "--nsInclude"; schema]) <$> schemas)
    /\ split_if_present database "restore_options" = Returns options
    /\ (truthy (dict_get database "schemas" VNone) = false -> schemas = []).
Proof.
  intros Hcommand.
  apply mongodb_build_restore_command_Returns in Hcommand
    as (hostname & port & username & password & name & options & schemas & items
        & _ & _ & _ & _ & Hname & Hoptions & Hschemas & Hitems & ->).
  exists name,
    (flag_if_truthy "--host" hostname ++ flag_if_truthy "--port" (VStr (py_str port))
     ++ flag_if_truthy "--username" username ++ flag_if_truthy "--password" password),
    options, items.
  split; [done|]. split; [|split; [done|]].
  - unfold mongorestore_command. rewrite py_eq_str_decide. by rewrite <- !app_assoc.
  - rewrite (dict_get_Some _ _ _ _ Hschemas). intros Hfalsy.
    rewrite Hfalsy in Hitems. by injection Hitems as <-.
Qed.

End restore_events.

(** * The properties on the small instance *)

Section instance.
#[local] Existing Instance demo.externals.

(** A named database, [all] without a format, and [all] with a format in a dry
    run: none of them queries the server. *)
Lemma database_names_to_dump_without_query_witness :
  postgresql.database_names_to_dump demo.app ∅ "example" false (demo.world [])
  = (demo.world [], [], Returns [VStr "app"])
  /\ postgresql.database_names_to_dump demo.everything ∅ "example" false (demo.world [])
     = (demo.world [], [], Returns [VStr "all"])
  /\ postgresql.database_names_to_dump demo.everything_custom ∅ "example" true
       (demo.world [])
     = (demo.world [], [], Returns []).
Proof.
  split; [|split].
  - apply (database_names_to_dump_without_query demo.app ∅ "example" false
             (VStr "app") (demo.world [])); [reflexivity | discriminate].
  - apply (database_names_to_dump_without_query demo.everything ∅ "example" false
             (VStr "all") (demo.world [])); reflexivity.
  - apply (database_names_to_dump_without_query demo.everything_custom ∅ "example"
             true (VStr "all") (demo.world [])); reflexivity.
Defined.

(** The server lists the two templates and two databases; the databases are
    the names to dump. *)
Lemma database_names_to_dump_query_witness :
  result_of (postgresql.database_names_to_dump demo.everything_custom ∅ "example" false
               (demo.world []))
  = Returns [VStr "app_db"; VStr "metrics_db"].
Proof.
  apply (database_names_to_dump_query demo.everything_custom ∅ "example"
           [VStr "psql"; VStr "--list"; VStr "--no-password"; VStr "--no-psqlrc";
            VStr "--csv"; VStr "--tuples-only"]
           demo.list_output
           [("template0", ["postgres"; "UTF8"]); ("template1", ["postgres"; "UTF8"]);
            ("app_db", ["app"; "UTF8"]); ("metrics_db", ["app"; "UTF8"])]
           (demo.world []) (demo.world [])); reflexivity.
Defined.

(** A dry run of each hook over entries that resolve returns no process. *)
Lemma dump_databases_dry_run_witness :
  result_of (postgresql.dump_databases [demo.app; demo.everything_custom] ∅ "example"
               true (demo.world []))
  = Returns []
  /\ result_of (mongodb.dump_databases [demo.app; demo.tree] ∅ "example" true
                  (demo.world []))
     = Returns []
  /\ result_of (sqlite.dump_databases [demo.site] ∅ "example" true (demo.world []))
     = Returns [].
Proof.
  split; [|split].
  - apply (proj2 (proj1 (dump_databases_dry_run [demo.app; demo.everything_custom] ∅
                           "example" (demo.world [])))).
    constructor; [|constructor; [|constructor]].
    + by exists (VStr "app"), "~/.borgmatic/postgresql_databases",
        "~/.borgmatic/postgresql_databases/db.example.org/app", false, [].
    + by exists (VStr "all"), "~/.borgmatic/postgresql_databases",
        "~/.borgmatic/postgresql_databases/localhost/all", false, [].
  - apply (proj2 (proj1 (proj2 (dump_databases_dry_run [demo.app; demo.tree] ∅
                                  "example" (demo.world []))))).
    constructor; [|constructor; [|constructor]].
    + by exists (VStr "app"), "~/.borgmatic/mongodb_databases",
        "~/.borgmatic/mongodb_databases/db.example.org/app".
    + by exists (VStr "app"), "~/.borgmatic/mongodb_databases",
        "~/.borgmatic/mongodb_databases/localhost/app".
  - apply (proj2 (proj2 (proj2 (dump_databases_dry_run [demo.site] ∅ "example"
                                  (demo.world []))))).
    constructor; [|constructor].
    by exists (VStr "/var/lib/site.db"), (VStr "site"), "~/.borgmatic/sqlite_databases",
      "~/.borgmatic/sqlite_databases/localhost/site", false, false.
Defined.

(** The PostgreSQL and the SQLite hook pass over a dump that exists. *)
Lemma dump_skips_existing_dump_witness :
  result_of (postgresql.dump_database_name demo.app ∅ "~/.borgmatic/postgresql_databases"
               "example" false (VStr "app") []
               (demo.world ["~/.borgmatic/postgresql_databases/db.example.org/app"]))
  = Returns []
  /\ result_of (sqlite.dump_database ∅ "example" false demo.site []
                  (demo.world ["~/.borgmatic/sqlite_databases/localhost/site"]))
     = Returns [].
Proof.
  split.
  - destruct (dump_skips_existing_dump ∅ demo.app ∅ "example" false (VStr "app")
                "~/.borgmatic/postgresql_databases"
                "~/.borgmatic/postgresql_databases/db.example.org/app" []
                (demo.world ["~/.borgmatic/postgresql_databases/db.example.org/app"])
                eq_refl) as [Hpostgresql _].
    apply Hpostgresql. reflexivity.
  - destruct (dump_skips_existing_dump ∅ demo.site ∅ "example" false VNone
                "~/.borgmatic/sqlite_databases"
                "~/.borgmatic/sqlite_databases/localhost/site" []
                (demo.world ["~/.borgmatic/sqlite_databases/localhost/site"])
                eq_refl) as [_ Hsqlite].
    apply (Hsqlite (VStr "/var/lib/site.db") (VStr "site") false); reflexivity.
Defined.

(** The MongoDB hook does not look whether the dump exists: over an existing
    dump path it creates the parent directory and runs [mongodump], and logs
    no warning. *)
Lemma mongodb_dump_ignores_existing_dump :
  os_path_exists (VStr "~/.borgmatic/mongodb_databases/localhost/app")
    (demo.world ["~/.borgmatic/mongodb_databases/localhost/app"])
  = Returns true
  /\ mongodb.dump_databases [demo.tree] ∅ "example" false
       (demo.world ["~/.borgmatic/mongodb_databases/localhost/app"])
     = (demo.world ["~/.borgmatic/mongodb_databases/localhost/app"],
        [Log INFO [VStr "example"; VStr ": Dumping MongoDB databases"; VStr ""];
         Log DEBUG [VStr "example"; VStr ": Dumping MongoDB database "; VStr "app";
                    VStr " to "; VStr "~/.borgmatic/mongodb_databases/localhost/app";
                    VStr ""];
         CreateParentDirectory "~/.borgmatic/mongodb_databases/localhost/app";
         Execute [VStr "mongodump"; VStr "--out";
                  VStr "~/.borgmatic/mongodb_databases/localhost/app";
                  VStr "--db"; VStr "app"]
           (Some true) None None],
        Returns []).
Proof. split; reflexivity. Qed.

(** The SQLite hook creates the parent directory of the dump file and no named
    pipe, and collects the handle of the dump it launched. *)
Lemma sqlite_dump_creates_no_named_pipe :
  os_path_exists (VStr "~/.borgmatic/sqlite_databases/localhost/site") (demo.world [])
  = Returns false
  /\ sqlite.dump_databases [demo.site] ∅ "example" false (demo.world [])
     = (demo.world [],
        [Log INFO [VStr "example"; VStr ": Dumping SQLite databases"; VStr ""];
         PathExists (VStr "/var/lib/site.db");
         Log WARNING [VStr "example"; VStr ": No SQLite database at ";
                      VStr "/var/lib/site.db";
                      VStr "; An empty database will be created and dumped"];
         PathExists (VStr "~/.borgmatic/sqlite_databases/localhost/site");
         Log DEBUG [VStr "example"; VStr ": Dumping SQLite database at ";
                    VStr "/var/lib/site.db"; VStr " to ";
                    VStr "~/.borgmatic/sqlite_databases/localhost/site"; VStr ""];
         CreateParentDirectory "~/.borgmatic/sqlite_databases/localhost/site";
         Execute [VStr "sqlite3"; VStr "/var/lib/site.db"; VStr ".dump"; VStr ">";
                  VStr "~/.borgmatic/sqlite_databases/localhost/site"]
           (Some true) None (Some false)],
        Returns [[VStr "sqlite3"; VStr "/var/lib/site.db"; VStr ".dump"; VStr ">";
                  VStr "~/.borgmatic/sqlite_databases/localhost/site"]]).
Proof. split; reflexivity. Qed.

(** A PostgreSQL dump in the custom format through a named pipe, a MongoDB
    dump in the directory format, and a SQLite dump to a file. *)
Lemma dump_prepares_then_launches_witness :
  let pg_dump :=
    [VStr "pg_dump"; VStr "--no-password"; VStr "--clean"; VStr "--if-exists";
     VStr "--host"; VStr "db.example.org"; VStr "--port"; VStr "5432";
     VStr "--format"; VStr "custom"; VStr "app"; VStr ">";
     VStr "~/.borgmatic/postgresql_databases/db.example.org/app"] in
  let mongodump :=
    [VStr "mongodump"; VStr "--out"; VStr "~/.borgmatic/mongodb_databases/localhost/app";
     VStr "--db"; VStr "app"] in
  let sqlite3 :=
    [VStr "sqlite3"; VStr "/var/lib/site.db"; VStr ".dump"; VStr ">";
     VStr "~/.borgmatic/sqlite_databases/localhost/site"] in
  dumped (postgresql.dump_database_name demo.app ∅ "~/.borgmatic/postgresql_databases"
            "example" false (VStr "app") [] (demo.world []))
    (demo.world ["~/.borgmatic/postgresql_databases/db.example.org/app"])
    [demo.process pg_dump]
    (CreateNamedPipe "~/.borgmatic/postgresql_databases/db.example.org/app")
    pg_dump (Some ∅) (Some false)
  /\ dumped (mongodb.dump_database ∅ "example" false demo.tree [] (demo.world []))
       (demo.world []) []
       (CreateParentDirectory "~/.borgmatic/mongodb_databases/localhost/app")
       mongodump None None
  /\ dumped (sqlite.dump_database ∅ "example" false demo.site [] (demo.world []))
       (demo.world []) [demo.process sqlite3]
       (CreateParentDirectory "~/.borgmatic/sqlite_databases/localhost/site")
       sqlite3 None (Some false).
Proof.
  intros pg_dump mongodump sqlite3. split; [|split].
  - destruct (dump_prepares_then_launches ∅ demo.app ∅ "example"
                "~/.borgmatic/postgresql_databases"
                "~/.borgmatic/postgresql_databases/db.example.org/app" pg_dump []
                (demo.process pg_dump) (demo.world [])
                (demo.world ["~/.borgmatic/postgresql_databases/db.example.org/app"])
                (demo.world ["~/.borgmatic/postgresql_databases/db.example.org/app"])
                eq_refl) as [Hpostgresql _].
    destruct (Hpostgresql (VStr "app") eq_refl eq_refl) as [Hpipe _].
    apply Hpipe; [discriminate | reflexivity | reflexivity].
  - destruct (dump_prepares_then_launches ∅ demo.tree ∅ "example"
                "~/.borgmatic/mongodb_databases"
                "~/.borgmatic/mongodb_databases/localhost/app" mongodump []
                (demo.process mongodump) (demo.world []) (demo.world []) (demo.world [])
                eq_refl) as (_ & Hmongodb & _).
    destruct (Hmongodb (VStr "app") eq_refl eq_refl eq_refl eq_refl) as [_ Hdirectory].
    apply Hdirectory; reflexivity.
  - destruct (dump_prepares_then_launches ∅ demo.site ∅ "example"
                "~/.borgmatic/sqlite_databases"
                "~/.borgmatic/sqlite_databases/localhost/site" sqlite3 []
                (demo.process sqlite3) (demo.world []) (demo.world []) (demo.world [])
                eq_refl) as (_ & _ & Hsqlite & _).
    apply (Hsqlite (VStr "/var/lib/site.db") (VStr "site") false); reflexivity.
Defined.

(** The command for the database [app] on [db.example.org], in the default
    format. *)
Lemma postgresql_dump_command_shape_witness :
  exists flags,
    forall dump_filename,
      postgresql.command demo.app (VStr "app") dump_filename
      = Returns ([VStr "pg_dump"; VStr "--no-password"; VStr "--clean";
                  VStr "--if-exists"]
                 ++ flags ++ [VStr "--format"; VStr "custom"] ++ [] ++ []
                 ++ [VStr "app"] ++ [VStr ">"; VStr dump_filename]).
Proof.
  destruct (postgresql_dump_command_shape demo.app (VStr "app")) as [_ Hshape].
  destruct (Hshape [] eq_refl) as [flags Hflags].
  exists flags. intros dump_filename. apply Hflags.
Defined.

(** No entry is named [orders]; and the server at [fresh.example.org] lists
    only the templates. *)
Lemma missing_database_raises_ValueError_witness :
  postgresql.restore_database_dump [demo.app; demo.everything] ∅ "example" "orders"
    false None demo.connection_params (demo.world [])
  = (demo.world [], [], Raises (ValueError (not_found_message "orders")))
  /\ result_of (postgresql.dump_databases [demo.app; demo.fresh] ∅ "example" false
                  (demo.world []))
     = Raises (ValueError [VStr "Cannot find any PostgreSQL databases to dump."]).
Proof.
  destruct (missing_database_raises_ValueError ∅ "example") as [Hrestore Hdump].
  split.
  - apply (Hrestore [demo.app; demo.everything] "orders" false None
             demo.connection_params (demo.world [])).
    constructor; [|constructor; [|constructor]]; discriminate.
  - eapply (Hdump [demo.app] [] demo.fresh); reflexivity.
Defined.

(** The hostname of the connection parameters wins over the configured
    [restore_hostname] and [hostname]. *)
Lemma restore_connection_values_precedence_witness :
  exists before after,
    mongodb.build_restore_command None demo.archive "/dumps/app" demo.connection_params
    = Returns (before
               ++ connection_flags (VStr "restore.example.org") VNone VNone demo.archive
               ++ flag_if_truthy "--password" (chosen VNone demo.archive "password" VNone)
               ++ after)
    /\ connection_flags (VStr "restore.example.org") VNone VNone demo.archive
       = [VStr "--host"; VStr "restore.example.org"].
Proof.
  destruct (restore_connection_values_precedence None demo.archive ∅ "/dumps/app")
    as [Hmongodb _].
  destruct Hmongodb as (before & after & Hcommand).
  { exists demo.connection_params. eexists. reflexivity. }
  exists before, after. split; [|reflexivity].
  apply Hcommand; reflexivity.
Defined.

(** Without an extract process the SQLite restore removes the database and
    then raises. *)
Lemma sqlite_restore_requires_extract_process_witness :
  result_of (sqlite.restore_database_dump [demo.site] ∅ "example" "site" false None
               demo.connection_params (demo.world ["/var/lib/site.db"]))
  = Raises (AttributeError "stdout")
  /\ world_after (sqlite.restore_database_dump [demo.site] ∅ "example" "site" false
                    None demo.connection_params (demo.world ["/var/lib/site.db"]))
     = demo.world [].
Proof.
  destruct (sqlite_restore_requires_extract_process [demo.site] ∅ "example" "site"
              demo.connection_params (demo.world ["/var/lib/site.db"]))
    as (_ & _ & Hremoved & _).
  destruct (Hremoved demo.site VNone (demo.world []) (Returns tt))
    as (Hworld & Hresult & _); [reflexivity..|by left|].
  by split.
Defined.

(** An entry without [schemas] cannot be restored by the MongoDB hook; one
    with a list of schemas gets a pair of tokens per schema. *)
Lemma mongodb_restore_indexes_schemas_witness :
  mongodb.build_restore_command None demo.app "/dumps/app" demo.connection_params
  = Raises (KeyError "schemas")
  /\ mongodb.build_restore_command None (<["schemas" := VList ["public"]]> demo.archive)
       "/dumps/app" demo.connection_params
     = Returns ([VStr "mongorestore"; VStr "--dir"; VStr "/dumps/app"; VStr "--drop";
                 VStr "--db"; VStr "app"; VStr "--host"; VStr "restore.example.org"]
                ++ [VStr "--nsInclude"; VStr "public"]).
Proof.
  split.
  - destruct (mongodb_restore_indexes_schemas None demo.app "/dumps/app"
                demo.connection_params) as [Hmissing _].
    destruct (Hmissing eq_refl) as (_ & Hkey & _).
    apply (Hkey (VStr "app") []); [|reflexivity..].
    repeat (constructor; [by eexists|]). constructor.
  - destruct (mongodb_restore_indexes_schemas None demo.archive "/dumps/app"
                demo.connection_params) as (_ & Hfalsy & _).
    apply (Hfalsy VNone _ ["public"]); reflexivity.
Defined.


Lemma parser_flags_split_witness :
  split_on " "%char
    (bash.parser_flags
       {| bash._actions :=
            [ {| bash.option_strings := ["-h"; "--help"] |};
              {| bash.option_strings := [] |};
              {| bash.option_strings := ["--verbosity"] |} ] |})
  = ["-h"; "--help"; "--verbosity"].
Proof.
  apply (parser_flags_split
           {| bash._actions :=
                [ {| bash.option_strings := ["-h"; "--help"] |};
                  {| bash.option_strings := [] |};
                  {| bash.option_strings := ["--verbosity"] |} ] |});
    [discriminate|].
  repeat (constructor; [by repeat constructor|]). constructor.
Defined.

Lemma make_extra_environment_ssl_witness :
  exists extra,
    postgresql.make_extra_environment
      {[ "name" := VStr "app"; "ssl_cert" := VStr "/etc/ssl/app.pem" ]} None
    = Returns extra
    /\ extra !! "PGSSLMODE" = Some (VStr "disable")
    /\ extra !! "PGSSLCERT" = Some (VStr "/etc/ssl/app.pem")
    /\ extra !! "PGSSLKEY" = None.
Proof.
  destruct (make_extra_environment_ssl
              {[ "name" := VStr "app"; "ssl_cert" := VStr "/etc/ssl/app.pem" ]} None)
    as (extra & Hextra & Hmode & Hcert & Hkey & _).
  exists extra. by repeat split.
Defined.

Lemma make_extra_environment_password_witness :
  let database : dict :=
    {[ "name" := VStr "app"; "restore_password" := VStr "secret" ]} in
  let extra : dict := {[ "PGSSLMODE" := VStr "disable" ]} in
  postgresql.make_extra_environment database (Some demo.connection_params)
  = Returns extra
  /\ extra !! "PGPASSWORD" = None.
Proof.
  intros database extra. split; [reflexivity|].
  destruct (make_extra_environment_password database (Some demo.connection_params)
              extra eq_refl) as [_ Hrestore].
  destruct (Hrestore demo.connection_params eq_refl) as [_ Hfalsy]; [done|].
  by rewrite Hfalsy.
Defined.


Lemma database_names_to_dump_never_templates_witness :
  (<["name" := VStr "template1"]> demo.app) !! "name" = Some (VStr "template1").
Proof.
  apply (database_names_to_dump_never_templates
           (<["name" := VStr "template1"]> demo.app) ∅ "example" false (demo.world [])
           [VStr "template1"] "template1").
  - reflexivity.
  - apply (list_elem_of_lookup_2 _ 1). reflexivity.
  - apply (list_elem_of_lookup_2 _ 0). reflexivity.
Defined.

Lemma database_names_to_dump_blank_row_witness :
  result_of (@postgresql.database_names_to_dump demo_gapped.gapped demo.everything_custom ∅
               "example" false (demo.world []))
  = Raises IndexError
  /\ filter is_launch
       (events_of (@postgresql.database_names_to_dump demo_gapped.gapped
                     demo.everything_custom ∅ "example" false (demo.world [])))
     = [ExecuteAndCapture
          [VStr "psql"; VStr "--list"; VStr "--no-password"; VStr "--no-psqlrc";
           VStr "--csv"; VStr "--tuples-only"] (Some ∅)].
Proof.
  apply (@database_names_to_dump_blank_row demo_gapped.gapped demo.everything_custom ∅
           "example"
           [VStr "psql"; VStr "--list"; VStr "--no-password"; VStr "--no-psqlrc";
            VStr "--csv"; VStr "--tuples-only"]
           demo_gapped.gapped_list_output (demo.world []) (demo.world []));
    try reflexivity.
  apply (list_elem_of_lookup_2 _ 1). reflexivity.
Defined.

Lemma postgresql_dump_command_program_witness :
  head [VStr "pg_dumpall"; VStr "--no-password"; VStr "--clean"; VStr "--if-exists";
        VStr ">"; VStr "/dumps/all"]
  = Some (VStr "pg_dumpall").
Proof.
  apply (postgresql_dump_command_program demo.everything (VStr "all") "/dumps/all").
  reflexivity.
Defined.

Lemma mongodb_build_dump_command_shape_witness :
  exists flags,
    forall dump_filename dump_format,
      mongodb.build_dump_command demo.tree dump_filename dump_format
      = Returns
          ([VStr "mongodump"]
           ++ (if bool_decide (dump_format = VStr "directory")
               then [VStr "--out"; VStr dump_filename] else [])
           ++ flags
           ++ (if bool_decide (VStr "app" = VStr "all") then []
               else [VStr "--db"; VStr "app"])
           ++ []
           ++ (if bool_decide (dump_format = VStr "directory") then []
               else [VStr "--archive"; VStr ">"; VStr dump_filename])).
Proof.
  destruct (mongodb_build_dump_command_shape demo.tree) as [_ Hshape].
  apply (Hshape (VStr "app") []); reflexivity.
Defined.

Lemma split_if_present_words_witness :
  exists words,
    split_if_present (<["options" := VStr "--no-owner  --verbose"]> demo.app) "options"
    = Returns (VStr <$> words)
    /\ words ≠ []
    /\ Forall (free_of " "%char) words
    /\ String.concat " " words = "--no-owner  --verbose".
Proof.
  destruct (split_if_present_words
              (<["options" := VStr "--no-owner  --verbose"]> demo.app) "options")
    as (_ & Hwords & _).
  apply Hwords. reflexivity.
Defined.

Lemma postgresql_restore_then_analyze_witness :
  exists restore analyze extra_environment,
    filter side_effect
      (events_of (postgresql.restore_database_dump [demo.archive] ∅ "example" "app"
                    false None demo.connection_params (demo.world [])))
    = [ExecuteWithProcesses restore [] None (Some extra_environment);
       Execute analyze None (Some extra_environment) None].
Proof.
  eexists _, _, _.
  eapply (postgresql_restore_then_analyze [demo.archive] ∅ "example" "app" None
            demo.connection_params demo.archive _ _ _ (demo.world []) (demo.world [])
            (Returns tt)); reflexivity.
Defined.

Lemma restore_from_stream_ignores_dump_filename_witness :
  VStr "/dumps/app"
  ∈ [VStr "mongorestore"; VStr "--dir"; VStr "/dumps/app"; VStr "--drop"; VStr "--db";
     VStr "app"; VStr "--host"; VStr "restore.example.org"].
Proof.
  destruct (restore_from_stream_ignores_dump_filename demo.archive (demo.process [])
              "/dumps/app" "/dumps/other") as (_ & _ & Hfile & _).
  apply (Hfile demo.connection_params). reflexivity.
Defined.

Lemma postgresql_restore_program_witness :
  exists pg_restore_command rest,
    py_shlex_split (VStr "pg_restore") = Returns pg_restore_command
    /\ postgresql.restore_command demo.archive [VStr "psql"] VNone (VStr "") VNone false
         "/dumps/app" None
       = Returns ((pg_restore_command
                   ++ [VStr "--no-password"; VStr "--if-exists";
                       VStr "--exit-on-error"; VStr "--clean"])
                  ++ rest).
Proof.
  destruct (postgresql_restore_program demo.archive [VStr "psql"] VNone (VStr "")
              VNone false "/dumps/app" None) as [_ Hprogram].
  destruct (Hprogram _ eq_refl) as (pg_restore_command & rest & Hsplit & Hcommand).
  exists pg_restore_command, rest. split; [exact Hsplit|].
  exact (f_equal Returns Hcommand).
Defined.

Lemma sqlite_restore_removes_then_restores_witness :
  filter side_effect
    (events_of (sqlite.restore_database_dump [demo.site] ∅ "example" "site" false
                  (Some (demo.process [VStr "borg"; VStr "extract"]))
                  demo.connection_params (demo.world [])))
  = [Remove (VStr "/var/lib/site.db");
     ExecuteWithProcesses [VStr "sqlite3"; VStr "/var/lib/site.db"]
       [demo.process [VStr "borg"; VStr "extract"]]
       (Some (stdout (demo.process [VStr "borg"; VStr "extract"]))) None].
Proof.
  destruct (sqlite_restore_removes_then_restores [demo.site] ∅ "example" "site"
              (demo.process [VStr "borg"; VStr "extract"]) demo.connection_params
              demo.site VNone (demo.world []) (demo.world [])
              (Raises FileNotFoundError) eq_refl eq_refl eq_refl)
    as (_ & Hmissing & _).
  by destruct (Hmissing eq_refl) as (_ & _ & Hevents & _).
Defined.

Lemma find_database_first_match_witness :
  find_database [demo.site; demo.archive; demo.app] "app" = Some demo.archive.
Proof.
  apply (find_database_first_match [demo.site] [demo.app] demo.archive "app");
    [reflexivity|].
  by repeat constructor.
Defined.

Lemma postgresql_commands_never_prompt_witness :
  VStr "--no-password"
  ∈ [VStr "psql"; VStr "--list"; VStr "--no-password"; VStr "--no-psqlrc";
     VStr "--csv"; VStr "--tuples-only"].
Proof.
  destruct (postgresql_commands_never_prompt demo.everything_custom) as [Hlist _].
  apply Hlist. reflexivity.
Defined.

Lemma mongodb_restore_command_shape_witness :
  exists name connection options schemas,
    demo.archive !! "name" = Some name
    /\ [VStr "mongorestore"; VStr "--dir"; VStr "/dumps/app"; VStr "--drop"; VStr "--db";
        VStr "app"; VStr "--host"; VStr "restore.example.org"]
       = [VStr "mongorestore"]
         ++ [VStr "--dir"; VStr "/dumps/app"]
         ++ (if bool_decide (name = VStr "all") then []
             else [VStr "--drop"; VStr "--db"; name])
         ++ connection
         ++ match demo.archive !! "authentication_database" with
            | Some v => [VStr "--authenticationDatabase"; v]
            | None => []
            end
         ++ options
         ++ concat ((fun schema => [VStr "--nsInclude"; schema]) <$> schemas)
    /\ split_if_present demo.archive "restore_options" = Returns options
    /\ (truthy (dict_get demo.archive "schemas" VNone) = false -> schemas = []).
Proof.
  apply (mongodb_restore_command_shape None demo.archive "/dumps/app"
           demo.connection_params).
  reflexivity.
Defined.

End instance.
